(** * Electrode Native: dependency reconciliation and container sync

    A shallow embedding of
    - [MiniApp.addDependency], [MiniApp.addDevOrPeerDependency] and
      [MiniApp.upgradeToPlatformVersion] (class [MiniApp] of ern-core, the
      second document of
      src/ern-orchestrator/test/runContainerTransformers-test.ts), and
    - [syncCauldronContainer] (ern-orchestrator, the second document of
      src/ern-local-cli/src/commands/list/dependencies.ts),
    with the properties of the specification that concern them; and of
    - the other methods of [MiniApp] that the same document has
      ([fromPackagePath], [create], [getJsDependencies],
      [manifestConformingDependency], [link], [unlink]),
    - the command [list dependencies] (the first document of
      src/ern-local-cli/src/commands/list/dependencies.ts), and
    - [launchOnSimulator] (src/ern-orchestrator/src/launchOnSimulator.ts),
    with properties that their code shows.

    The functions are [async]: a call either resolves with a value or is
    rejected with an error.  Every [await] of the source is sequential, so
    the embedding is a state-and-completion monad: a computation takes the
    state of the outside world, and ends normally, by an early [return], or
    by a [throw].  The collaborators that the sources at hand only import
    (the manifest, yarn, the scanner of native dependencies, the Cauldron,
    semver) are parameters of the embedding: what they answer, and whether
    an awaited call of them is rejected. *)

From Stdlib Require Import String List Bool Lia.
From stdpp Require Import base option list strings gmap.

Local Open Scope string_scope.

(** ** JavaScript values *)

(** Truthiness of a [string | undefined] value: [undefined] and the empty
    string are falsy. *)
Definition truthy (s : option string) : bool :=
  match s with
  | Some v => negb (String.eqb v EmptyString)
  | None => false
  end.

(** What [object[key]] finds in a plain object: an own property, a
    property that the object inherits from [Object.prototype], or
    nothing. *)
Inductive member (A : Type) : Type :=
  | Own (a : A)
  | Inherited
  | Missing.
Arguments Own {A} a.
Arguments Inherited {A}.
Arguments Missing {A}.

(** The properties of [Object.prototype], all of them functions.  The
    accessor [__proto__] is left out: a key here is the name of a package,
    which does not start with an underscore, and an assignment to that
    accessor would not make a property. *)
Definition Object_prototype : list string :=
  ["constructor"; "hasOwnProperty"; "isPrototypeOf"; "propertyIsEnumerable";
   "toLocaleString"; "toString"; "valueOf"; "__defineGetter__";
   "__defineSetter__"; "__lookupGetter__"; "__lookupSetter__"].

Definition member_of {A : Type} (object : gmap string A) (key : string)
  : member A :=
  match object !! key with
  | Some a => Own a
  | None =>
      if bool_decide (key ∈ Object_prototype) then Inherited else Missing
  end.

(** An inherited property inside a template literal: the text of a
    function of the runtime. *)
Definition Object_prototype_toString (key : string) : string :=
  "function "
  ++ (if bool_decide (key = "constructor") then "Object" else key)
  ++ "() { [native code] }".

(** [new Error(message)], and the [TypeError] of the runtime. *)
Inductive error : Type :=
  | Error (message : string)
  | TypeError (message : string).

(** Completion of a function body: it runs to its end, leaves through a
    [return] statement, or throws. *)
Inductive completion (R A : Type) : Type :=
  | Normal (a : A)
  | Return (r : R)
  | Throw (e : error).
Arguments Normal {R A} a.
Arguments Return {R A} r.
Arguments Throw {R A} e.

(** Settlement of the promise an [async] function gives back. *)
Inductive promise (R : Type) : Type :=
  | Resolved (r : R)
  | Rejected (e : error).
Arguments Resolved {R} r.
Arguments Rejected {R} e.

(** Computations over a world of type [W], inside a function whose
    [return] carries an [R]. *)
Definition M (W R A : Type) : Type := W -> completion R A * W.

Definition ret {W R A} (a : A) : M W R A := fun w => (Normal a, w).

Definition bind {W R A B} (m : M W R A) (k : A -> M W R B) : M W R B :=
  fun w =>
    match m w with
    | (Normal a, w') => k a w'
    | (Return r, w') => (Return r, w')
    | (Throw e, w') => (Throw e, w')
    end.

Definition return_ {W R A} (r : R) : M W R A := fun w => (Return r, w).
Definition throw {W R A} (e : error) : M W R A := fun w => (Throw e, w).
Definition get {W R} : M W R W := fun w => (Normal w, w).
Definition modify {W R} (f : W -> W) : M W R unit := fun w => (Normal tt, f w).

(** [try { body } catch (e) { handler e }]: a [return] inside [body] leaves
    the function, only a [throw] reaches the handler. *)
Definition try_catch {W R A} (body : M W R A) (handler : error -> M W R A)
  : M W R A :=
  fun w =>
    match body w with
    | (Throw e, w') => handler e w'
    | other => other
    end.

(** [try { body } finally { cleanup }]: [cleanup] runs however [body]
    ends; the completion is the one of [body], unless [cleanup] itself
    leaves through [return] or [throw]. *)
Definition try_finally {W R A} (body : M W R A) (cleanup : M W R unit)
  : M W R A :=
  fun w =>
    match body w with
    | (c, w') =>
        match cleanup w' with
        | (Normal _, w'') => (c, w'')
        | (Return r, w'') => (Return r, w'')
        | (Throw e, w'') => (Throw e, w'')
        end
    end.

(** Calling a function of which every path ends in [return value]; the
    body [m] gives that value, normally or through [return].  For a
    function that is not [async], [Resolved] and [Rejected] read: it
    returned, it threw. *)
Definition run_value {W R} (m : M W R R) (w : W) : promise R * W :=
  match m w with
  | (Normal r, w') => (Resolved r, w')
  | (Return r, w') => (Resolved r, w')
  | (Throw e, w') => (Rejected e, w')
  end.

(** Calling an [async] function of body [m]: falling off the end of the
    body resolves the promise with [undefined]. *)
Definition run {W R} (undefined : R) (m : M W R unit) (w : W)
  : promise R * W :=
  match m w with
  | (Normal _, w') => (Resolved undefined, w')
  | (Return r, w') => (Resolved r, w')
  | (Throw e, w') => (Rejected e, w')
  end.

Declare Scope js_scope.
Delimit Scope js_scope with js.
Notation "'let*' x ':=' c1 'in' c2" := (bind c1 (fun x => c2))
  (at level 10, x name, c1 at level 100, c2 at level 200) : js_scope.
Notation "c1 ';;' c2" := (bind c1 (fun _ => c2))
  (at level 100, c2 at level 200, right associativity) : js_scope.

(** ** PackagePath *)

Module PackagePath.

(** The identity of a package: its base path and its optional version. *)
Record t : Type := mk { basePath : string; version : option string }.

#[export] Instance eq_dec : EqDecision t.
Proof. solve_decision. Defined.

(** Modelled from the spec: the constructor of PackagePath (ern-core,
    PackagePath.ts, not part of the sources at hand) applied to a base
    path, as in [new PackagePath(dependency.basePath)]: parsing [name]
    gives the path of that base path, without a version. *)
Definition new (basePath : string) : t := mk basePath None.

(** Modelled from the spec: [same(other, {ignoreVersion})] of
    PackagePath.ts is true iff the base paths are the same string and,
    unless [ignoreVersion], the versions are identical. *)
Definition same (p other : t) (ignoreVersion : bool) : bool :=
  bool_decide (basePath p = basePath other)
  && (ignoreVersion || bool_decide (version p = version other)).

(** Modelled from the spec: [toString()] of PackagePath.ts gives the
    canonical form, [name@version], or the bare base path. *)
Definition toString (p : t) : string :=
  match version p with
  | Some v => basePath p ++ "@" ++ v
  | None => basePath p
  end.

End PackagePath.

Abbreviation PackagePath := PackagePath.t.
Import (hints) PackagePath.

(** ** Manifest *)

Module Manifest.

(** Modelled from the spec: the manifest (ern-core, Manifest.ts, not part
    of the sources at hand) maps a base path to the version it expects,
    separately for native and for JavaScript dependencies; an entry may
    leave the version out. *)
Record t : Type := mk {
  native : gmap string (option string);
  js : gmap string (option string);
}.

Definition entry (m : gmap string (option string)) (dependency : PackagePath)
  : option PackagePath :=
  PackagePath.mk (PackagePath.basePath dependency)
    <$> m !! PackagePath.basePath dependency.

(** Modelled from the spec: [getNativeDependency(basePath)] is an exact
    base path lookup, which gives the manifest's PackagePath or nothing. *)
Definition getNativeDependency (m : t) (dependency : PackagePath)
  : option PackagePath := entry (native m) dependency.

(** Modelled from the spec: [getJsDependency(basePath)], the same for the
    JavaScript dependencies. *)
Definition getJsDependency (m : t) (dependency : PackagePath)
  : option PackagePath := entry (js m) dependency.

End Manifest.

(** ** Native dependencies, as the scanner reports them *)

Record NativeDependency : Type := { packagePath : PackagePath }.

Record NativeDependencies : Type := {
  apis : list NativeDependency;
  nativeApisImpl : list NativeDependency;
  thirdPartyInManifest : list NativeDependency;
  thirdPartyNotInManifest : list NativeDependency;
  all : list NativeDependency;
}.

(** ** package.json *)

Module PackageJson.

Record ern_t : Type := {
  moduleName : option string;
  moduleType : option string;
  version : option string;
}.

(** The properties of a package.json that the operations touch.  A
    property of [dependencies] can hold [undefined] once it has been
    assigned to. *)
Record t : Type := {
  dependencies : option (gmap string (option string));
  ern : option ern_t;
  ernPlatformVersion : option string;
}.

End PackageJson.

Abbreviation PackageJson := PackageJson.t.

(** ** MiniApp *)

Module MiniApp.

Inductive yarnAddOptions : Type := NoOptions | Dev | Peer.

(** What a MiniApp operation does to the outside world, in order. *)
Inductive event : Type :=
  | log_error (message : string)
  | log_warn (message : string)
  | log_debug (message : string)
  | log_info (message : string)
  | kax_task (message : string)
  | manifest_getNativeDependency (dependency : PackagePath)
  | manifest_getJsDependency (dependency : PackagePath)
  | manifest_getJsAndNativeDependencies (platformVersion : string)
  | createTmpDir (dir : string)
  | process_chdir (dir : string)
  | yarn_add (cwd : string) (dependency : PackagePath) (o : yarnAddOptions)
  | yarn_install (cwd : string)
  | findNativeDependencies (dir : string)
  | utils_isDependencyApiOrApiImpl (basePath : string)
  | fs_writeFileSync (file : string) (content : string).

(** The process: its working directory, the files on disk, the
    package.json object the MiniApp holds in memory, and the trace of its
    events, oldest first. *)
Record world : Type := {
  cwd : string;
  files : gmap string string;
  packageJson : PackageJson;
  trace : list event;
}.

Definition record (e : event) (w : world) : world :=
  {| cwd := cwd w; files := files w; packageJson := packageJson w;
     trace := trace w ++ [e] |}.

Definition set_cwd (dir : string) (w : world) : world :=
  {| cwd := dir; files := files w; packageJson := packageJson w;
     trace := trace w |}.

Definition set_packageJson (pj : PackageJson) (w : world) : world :=
  {| cwd := cwd w; files := files w; packageJson := pj; trace := trace w |}.

Definition write_file (file content : string) (w : world) : world :=
  {| cwd := cwd w; files := <[file := content]> (files w);
     packageJson := packageJson w; trace := trace w |}.

(** The collaborators that are not part of the sources at hand. *)
Record env : Type := {
  (** the error an awaited call of a collaborator is rejected with, if it
      is *)
  fails : event -> option error;
  manifest : Manifest.t;
  (** the directory [createTmpDir()] makes *)
  tmpDir : string;
  (** what [findNativeDependencies] finds in the [node_modules] of a
      fresh directory after [yarn add] of a package *)
  installedNativeDependencies : PackagePath -> NativeDependencies;
  isDependencyApiOrApiImpl : string -> bool;
  (** [PackagePath.fromString] *)
  fromString : string -> PackagePath;
  (** [JSON.stringify] of the scanner's list *)
  stringify : list NativeDependency -> string;
  (** [manifest.getJsAndNativeDependencies(version)] *)
  getJsAndNativeDependencies : string -> list PackagePath;
  (** [JSON.stringify(packageJson, null, 2)] *)
  stringifyPackageJson : PackageJson -> string;
}.

(** The fields of [BaseMiniApp] that the operations read. *)
Record t : Type := { path : string; name : string }.

Definition path_join (a b : string) : string := a ++ "/" ++ b.

Section Operations.

Context {R : Type}.
Variable E : env.

Local Open Scope js_scope.

Definition emit (e : event) : M world R unit := modify (record e).

(** An awaited call of a collaborator. *)
Definition call (e : event) : M world R unit :=
  emit e;;
  match fails E e with
  | Some err => throw err
  | None => ret tt
  end.

Definition chdir (dir : string) : M world R unit :=
  modify (fun w => set_cwd dir (record (process_chdir dir) w)).

(** [kax.task(message).run(yarn.add(dependency, options))] *)
Definition yarnAdd (message : string) (dependency : PackagePath)
    (o : yarnAddOptions) : M world R unit :=
  emit (kax_task message);;
  let* w := get in
  call (yarn_add (cwd w) dependency o).

Definition getNativeDependency (dependency : PackagePath)
  : M world R (option PackagePath) :=
  call (manifest_getNativeDependency dependency);;
  ret (Manifest.getNativeDependency (manifest E) dependency).

Definition getJsDependency (dependency : PackagePath)
  : M world R (option PackagePath) :=
  call (manifest_getJsDependency dependency);;
  ret (Manifest.getJsDependency (manifest E) dependency).

Definition addDevOrPeerDependency (dependency : PackagePath) (dev : bool)
  : M world R unit :=
  let depPath := fromString E (PackagePath.toString dependency) in
  if dev then
    yarnAdd ("Adding " ++ PackagePath.toString dependency
             ++ " to MiniApp devDependencies") depPath Dev
  else
    yarnAdd ("Adding " ++ PackagePath.toString dependency
             ++ " to MiniApp peerDependencies") depPath Peer.

End Operations.

Section AddDependency.

Variable E : env.
Variable this : t.

Local Open Scope js_scope.

Abbreviation body := (M world (option PackagePath)).

Definition notSupportedMessage (dep : NativeDependency) : string :=
  PackagePath.toString (packagePath dep)
  ++ " plugin is not yet supported. Consider adding support for it to the master manifest".

Definition transitiveMessage (dep : NativeDependency) : string :=
  "[Transitive Dependency] " ++ PackagePath.toString (packagePath dep)
  ++ " was not added to the MiniApp".

Definition versionMismatchMessage (dependency : PackagePath) : string :=
  PackagePath.toString dependency ++ " was not added to the MiniApp".

(** One turn of [for (dep of nativeDependencies.all)]. *)
Definition checkNativeDependency (dependency : PackagePath)
    (dep : NativeDependency) : body unit :=
  let depBase := PackagePath.basePath (packagePath dep) in
  if PackagePath.same dependency (PackagePath.new depBase) true then
    call E (utils_isDependencyApiOrApiImpl depBase);;
    if isDependencyApiOrApiImpl E depBase then
      emit (log_debug (PackagePath.toString (packagePath dep)
                       ++ " is an api or api-impl"));;
      emit (log_warn (PackagePath.toString (packagePath dep)
        ++ " is not declared in the Manifest. You might consider adding it."))
    else
      emit (log_error (notSupportedMessage dep));;
      return_ None
  else
    let* manifestDep := getNativeDependency E (PackagePath.new depBase) in
    match manifestDep with
    | Some manifestDep =>
        if negb (PackagePath.same (packagePath dep) manifestDep false)
        then throw (Error (transitiveMessage dep))
        else ret tt
    | None => ret tt
    end.

Fixpoint checkNativeDependencies (dependency : PackagePath)
    (deps : list NativeDependency) : body unit :=
  match deps with
  | [] => ret tt
  | dep :: deps =>
      checkNativeDependency dependency dep;;
      checkNativeDependencies dependency deps
  end.

(** The body of [addDependency]; [None] for a [null] or [undefined]
    argument. *)
Definition addDependencyBody (dependency : option PackagePath)
    (dev peer : bool) : body unit :=
  match dependency with
  | None =>
      emit (log_error "dependency cant be null");;
      return_ None
  | Some dependency =>
      if dev || peer then
        addDevOrPeerDependency E dependency dev
      else
        let basePathDependency :=
          PackagePath.new (PackagePath.basePath dependency) in
        let* manifestNativeDependency :=
          getNativeDependency E basePathDependency in
        let* manifestDependency :=
          match manifestNativeDependency with
          | Some d => ret (Some d)
          | None => getJsDependency E basePathDependency
          end in
        match manifestDependency with
        | None =>
            let tmpPath := tmpDir E in
            emit (createTmpDir tmpPath);;
            chdir tmpPath;;
            yarnAdd E (PackagePath.toString basePathDependency
              ++ " is not declared in the manifest. Performing additional checks.")
              (fromString E (PackagePath.toString dependency)) NoOptions;;
            call E (findNativeDependencies
                      (path_join tmpPath "node_modules"));;
            let nativeDependencies :=
              installedNativeDependencies E
                (fromString E (PackagePath.toString dependency)) in
            match all nativeDependencies with
            | [] => emit (log_debug "Pure JS dependency")
            | _ :: _ =>
                emit (log_debug
                  ("One or more native dependencies identified: "
                   ++ stringify E (all nativeDependencies)));;
                checkNativeDependencies dependency (all nativeDependencies)
            end
        | Some manifestDependency =>
            if truthy (PackagePath.version dependency) then
              emit (log_debug ("Dependency:" ++ PackagePath.toString dependency
                ++ " defined in manifest, performing version match"));;
              if negb (PackagePath.same dependency manifestDependency false)
              then throw (Error (versionMismatchMessage dependency))
              else ret tt
            else ret tt
        end;;
        chdir (path this);;
        yarnAdd E ("Adding "
                 ++ match manifestDependency with
                    | Some m => PackagePath.toString m
                    | None => PackagePath.toString dependency
                    end
                 ++ " to " ++ name this)
          match manifestDependency with
          | Some m => m
          | None => fromString E (PackagePath.toString dependency)
          end NoOptions;;
        return_ match manifestDependency with
                | Some m => Some m
                | None => Some dependency
                end
  end.

Definition addDependency (dependency : option PackagePath)
    (dev peer : bool) (w : world) : promise (option PackagePath) * world :=
  run None (addDependencyBody dependency dev peer) w.

End AddDependency.

Section UpgradeToPlatformVersion.

Variable E : env.
Variable this : t.

Local Open Scope js_scope.

Definition quote : string :=
  String (Ascii.Ascii false true false false false true false false)
    EmptyString.

Definition newline : string :=
  String (Ascii.Ascii false true false true false false false false)
    EmptyString.

(** A [string | undefined] inside a template literal. *)
Definition interpolate (s : option string) : string :=
  default "undefined" s.

Definition noErnMessage (pj : PackageJson) : string :=
  "In order to upgrade, please first replace " ++ quote
  ++ "ernPlatformVersion" ++ quote ++ " : " ++ quote
  ++ interpolate (PackageJson.ernPlatformVersion pj) ++ quote
  ++ " in your package.json " ++ newline
  ++ "with " ++ quote ++ "ern" ++ quote ++ " : { " ++ quote ++ "version"
  ++ quote ++ " : " ++ quote
  ++ interpolate (PackageJson.ernPlatformVersion pj) ++ quote
  ++ " } instead".

(** [this.packageJson.dependencies[basePath] = version] *)
Definition set_dependency (basePath : string) (version : option string)
    (deps : gmap string (option string)) (pj : PackageJson)
  : PackageJson :=
  {| PackageJson.dependencies := Some (<[basePath := version]> deps);
     PackageJson.ern := PackageJson.ern pj;
     PackageJson.ernPlatformVersion := PackageJson.ernPlatformVersion pj |}.

(** [this.packageJson.ern.version = version] *)
Definition set_ern_version (version : string) (ern : PackageJson.ern_t)
    (pj : PackageJson) : PackageJson :=
  {| PackageJson.dependencies := PackageJson.dependencies pj;
     PackageJson.ern :=
       Some {| PackageJson.moduleName := PackageJson.moduleName ern;
               PackageJson.moduleType := PackageJson.moduleType ern;
               PackageJson.version := Some version |};
     PackageJson.ernPlatformVersion := PackageJson.ernPlatformVersion pj |}.

(** [this.packageJson.dependencies[basePath]], as a condition, compared
    with [!==] to the version of the manifest, and inside a template
    literal. *)
Definition truthy_version (local : member (option string)) : bool :=
  match local with
  | Own version => truthy version
  | Inherited => true
  | Missing => false
  end.

Definition is_version (local : member (option string))
    (version : option string) : bool :=
  match local with
  | Own v => bool_decide (version = v)
  | Inherited => false
  | Missing => bool_decide (version = None)
  end.

Definition interpolate_version (basePath : string)
    (local : member (option string)) : string :=
  match local with
  | Own version => interpolate version
  | Inherited => Object_prototype_toString basePath
  | Missing => "undefined"
  end.

(** One turn of [for (const manifestDependency of manifestDependencies)]. *)
Definition upgradeDependency (manifestDependency : PackagePath)
  : M world unit unit :=
  let basePath := PackagePath.basePath manifestDependency in
  let* w := get in
  match PackageJson.dependencies (packageJson w) with
  | None =>
      throw (TypeError ("Cannot read property '" ++ basePath
                        ++ "' of undefined"))
  | Some deps =>
      if truthy_version (member_of deps basePath) then
        let dependencyManifestVersion :=
          PackagePath.version manifestDependency in
        let localDependencyVersion := member_of deps basePath in
        if negb (is_version localDependencyVersion dependencyManifestVersion)
        then
          emit (log_info (basePath ++ " : "
                          ++ interpolate_version basePath
                               localDependencyVersion
                          ++ " => "
                          ++ interpolate dependencyManifestVersion));;
          modify (fun w =>
            set_packageJson
              (set_dependency basePath dependencyManifestVersion deps
                 (packageJson w)) w)
        else ret tt
      else ret tt
  end.

Fixpoint upgradeDependencies (manifestDependencies : list PackagePath)
  : M world unit unit :=
  match manifestDependencies with
  | [] => ret tt
  | manifestDependency :: rest =>
      upgradeDependency manifestDependency;;
      upgradeDependencies rest
  end.

Definition upgradeToPlatformVersionBody (versionToUpgradeTo : string)
  : M world unit unit :=
  call E (manifest_getJsAndNativeDependencies versionToUpgradeTo);;
  let manifestDependencies :=
    getJsAndNativeDependencies E versionToUpgradeTo in
  upgradeDependencies manifestDependencies;;
  let* w := get in
  match PackageJson.ern (packageJson w) with
  | None => throw (Error (noErnMessage (packageJson w)))
  | Some ern =>
      modify (fun w =>
        set_packageJson
          (set_ern_version versionToUpgradeTo ern (packageJson w)) w);;
      let appPackageJsonPath := path_join (path this) "package.json" in
      let* w := get in
      let content := stringifyPackageJson E (packageJson w) in
      call E (fs_writeFileSync appPackageJsonPath content);;
      modify (write_file appPackageJsonPath content);;
      call E (process_chdir (path this));;
      modify (set_cwd (path this));;
      emit (kax_task "Running yarn install");;
      let* w := get in
      call E (yarn_install (cwd w))
  end.

Definition upgradeToPlatformVersion (versionToUpgradeTo : string)
    (w : world) : promise unit * world :=
  run tt (upgradeToPlatformVersionBody versionToUpgradeTo) w.

End UpgradeToPlatformVersion.

End MiniApp.

(** ** lodash *)

(** [_.differenceBy(array, values, iteratee)]: the elements of [array], in
    their order, whose image under [iteratee] is the image of no element of
    [values]. *)
Definition differenceBy {A B : Type} `{EqDecision B}
    (array values : list A) (iteratee : A -> B) : list A :=
  filter (fun x => iteratee x ∉ iteratee <$> values) array.

(** ** Cauldron *)

Module Cauldron.

Record CompositeGeneratorConfig : Type := {
  baseComposite : option PackagePath;
}.

(** Modelled from the spec: the record a Cauldron (ern-cauldron-api, not
    part of the sources at hand) keeps for one native application
    version: the native dependencies of its container, the container
    version, the version of the tool that made it, its yarn locks; and
    what [syncCauldronContainer] reads besides. *)
Record document : Type := {
  nativeDependencies : list PackagePath;
  containerVersion : option string;
  topLevelContainerVersion : option string;
  detachContainerVersionFromRoot : bool;
  containerErnVersion : option string;
  yarnLocks : gmap string string;
  compositeGeneratorConfig : option CompositeGeneratorConfig;
}.

(** Modelled from the spec: the store is Idle (no working copy) or
    InTransaction (a working copy); readers of the durable store see
    [persisted]; [audit] holds the messages of the commits. *)
Record t : Type := {
  persisted : document;
  working : option document;
  audit : list (string + list string);
}.

(** What the calls of the open workflow read. *)
Definition view (c : t) : document := default (persisted c) (working c).

(** Modelled from the spec: a mutation issued while InTransaction goes to
    the working copy. *)
Definition mutate (f : document -> document) (c : t) : t :=
  match working c with
  | Some d => {| persisted := persisted c; working := Some (f d);
                 audit := audit c |}
  | None => {| persisted := f (persisted c); working := None;
               audit := audit c |}
  end.

(** Modelled from the spec: [beginTransaction()] fails if a transaction
    is open already. *)
Definition beginTransaction (c : t) : error + t :=
  match working c with
  | Some _ => inl (Error "TransactionAlreadyInProgressError")
  | None => inr {| persisted := persisted c; working := Some (persisted c);
                   audit := audit c |}
  end.

(** Modelled from the spec: [commitTransaction(message)] flushes the
    working copy and records the message. *)
Definition commitTransaction (message : string + list string) (c : t) : t :=
  match working c with
  | Some d => {| persisted := d; working := None;
                 audit := audit c ++ [message] |}
  | None => c
  end.

(** Modelled from the spec: [discardTransaction()] drops the working
    copy; it does nothing when Idle. *)
Definition discardTransaction (c : t) : t :=
  {| persisted := persisted c; working := None; audit := audit c |}.

Definition set_nativeDependencies (l : list PackagePath) (d : document)
  : document :=
  {| nativeDependencies := l;
     containerVersion := containerVersion d;
     topLevelContainerVersion := topLevelContainerVersion d;
     detachContainerVersionFromRoot := detachContainerVersionFromRoot d;
     containerErnVersion := containerErnVersion d;
     yarnLocks := yarnLocks d;
     compositeGeneratorConfig := compositeGeneratorConfig d |}.

Definition set_containerVersion (v : option string) (d : document)
  : document :=
  {| nativeDependencies := nativeDependencies d;
     containerVersion := v;
     topLevelContainerVersion := topLevelContainerVersion d;
     detachContainerVersionFromRoot := detachContainerVersionFromRoot d;
     containerErnVersion := containerErnVersion d;
     yarnLocks := yarnLocks d;
     compositeGeneratorConfig := compositeGeneratorConfig d |}.

Definition set_containerErnVersion (v : string) (d : document) : document :=
  {| nativeDependencies := nativeDependencies d;
     containerVersion := containerVersion d;
     topLevelContainerVersion := topLevelContainerVersion d;
     detachContainerVersionFromRoot := detachContainerVersionFromRoot d;
     containerErnVersion := Some v;
     yarnLocks := yarnLocks d;
     compositeGeneratorConfig := compositeGeneratorConfig d |}.

Definition set_yarnLock (key file : string) (d : document) : document :=
  {| nativeDependencies := nativeDependencies d;
     containerVersion := containerVersion d;
     topLevelContainerVersion := topLevelContainerVersion d;
     detachContainerVersionFromRoot := detachContainerVersionFromRoot d;
     containerErnVersion := containerErnVersion d;
     yarnLocks := <[key := file]> (yarnLocks d);
     compositeGeneratorConfig := compositeGeneratorConfig d |}.

End Cauldron.

(** ** syncCauldronContainer *)

Module Sync.

Record NativeApplicationDescriptor : Type := {
  name : string;
  platform : option string;
  version : option string;
}.

Inductive event : Type :=
  | log_error (message : string)
  | log_info (message : string)
  | kax_task (message : string)
  | getActiveCauldron
  | cauldron_getDescriptor
  | cauldron_getContainerVersion
  | cauldron_getTopLevelContainerVersion
  | cauldron_beginTransaction
  | stateUpdateFunc_call
  | cauldron_getCompositeGeneratorConfig
  | createTmpDir (dir : string)
  | runCauldronCompositeGen (baseComposite : option PackagePath)
      (outDir : string)
  | cauldron_getNativeDependencies
  | composite_getResolvedNativeDependencies
  | cauldron_syncContainerNativeDependencies
      (nativeDependencies : list PackagePath)
  | runCauldronContainerGen (outDir : string)
  | cauldron_updateContainerVersion (containerVersion : option string)
  | cauldron_updateContainerErnVersion (ernVersion : string)
  | cauldron_addOrUpdateYarnLock (key : string) (file : string)
  | runContainerTransformers (containerPath : string)
  | cauldron_commitTransaction (message : string + list string)
  | cauldron_discardTransaction
  | runContainerPublishers (containerPath : string)
      (containerVersion : option string).

(** The Cauldron, the local variable [cauldron] of the function (set once
    [getActiveCauldron] has given a Cauldron), and the trace of the
    calls, oldest first. *)
Record world : Type := {
  store : Cauldron.t;
  cauldron : bool;
  trace : list event;
}.

Definition record (e : event) (w : world) : world :=
  {| store := store w; cauldron := cauldron w; trace := trace w ++ [e] |}.

Definition set_cauldron (b : bool) (w : world) : world :=
  {| store := store w; cauldron := b; trace := trace w |}.

Definition set_store (c : Cauldron.t) (w : world) : world :=
  {| store := c; cauldron := cauldron w; trace := trace w |}.

(** The collaborators that are not part of the sources at hand. *)
Record env : Type := {
  (** the error an asynchronous call is rejected with, if it is *)
  fails : event -> option error;
  (** whether [getActiveCauldron()] gives a Cauldron, or [undefined] *)
  activeCauldron : bool;
  (** [Platform.getContainerGenOutDirectory] *)
  getContainerGenOutDirectory : string -> string;
  (** [Platform.currentVersion] *)
  currentVersion : string;
  (** [constants.CONTAINER_YARN_KEY] *)
  CONTAINER_YARN_KEY : string;
  (** [semver.inc(version, 'patch')], [null] on a version that is not
      valid *)
  semver_inc_patch : string -> option string;
  (** the directory [createTmpDir()] makes *)
  tmpDir : string;
  (** the [resolved] native dependencies of the Composite that
      [runCauldronCompositeGen] generates from the Cauldron *)
  resolved : Cauldron.document -> list PackagePath;
  (** [`${napDescriptor}`] *)
  descriptorToString : NativeApplicationDescriptor -> string;
}.

(** The native dependencies that [syncCauldronContainer] hands to
    [cauldron.syncContainerNativeDependencies]: the ones of the
    Composite, after the ones of the Cauldron that the Composite does not
    have. *)
Definition nativeDependencies
    (cauldronNativeDependencies compositeNativeDeps_resolved
       : list PackagePath) : list PackagePath :=
  let extraCauldronNativeDependencies :=
    differenceBy cauldronNativeDependencies compositeNativeDeps_resolved
      PackagePath.basePath in
  extraCauldronNativeDependencies ++ compositeNativeDeps_resolved.

(** [`${e}`] for an error. *)
Definition error_toString (e : error) : string :=
  match e with
  | Error m => "Error: " ++ m
  | TypeError m => "TypeError: " ++ m
  end.

Section SyncCauldronContainer.

Variable E : env.

Local Open Scope js_scope.

Abbreviation body := (M world unit).

Definition emit (e : event) : body unit := modify (record e).

(** An awaited call of a collaborator. *)
Definition call (e : event) : body unit :=
  emit e;;
  match fails E e with
  | Some err => throw err
  | None => ret tt
  end.

(** An awaited call of a method of the local variable [cauldron]. *)
Definition method (name : string) (e : event) : body unit :=
  let* w := get in
  if cauldron w then call e
  else throw (TypeError ("Cannot read property '" ++ name
                         ++ "' of undefined")).

Definition view : body Cauldron.document :=
  let* w := get in ret (Cauldron.view (store w)).

Definition mutate (f : Cauldron.document -> Cauldron.document)
  : body unit :=
  modify (fun w => set_store (Cauldron.mutate f (store w)) w).

(** The statements of the [try] block; their value is
    [cauldronContainerNewVersion]. *)
Definition tryBlock
    (stateUpdateFunc : Cauldron.document -> Cauldron.document * option error)
    (napDescriptor : NativeApplicationDescriptor)
    (commitMessage : string + list string)
    (containerVersion : option string) (outDir : string)
  : body (option string) :=
  call getActiveCauldron;;
  modify (set_cauldron (activeCauldron E));;
  let* cauldronContainerNewVersion :=
    if truthy containerVersion then ret containerVersion
    else
      method "getDescriptor" cauldron_getDescriptor;;
      let* napVersion := view in
      let* stored :=
        if Cauldron.detachContainerVersionFromRoot napVersion then
          method "getContainerVersion" cauldron_getContainerVersion;;
          let* d := view in ret (Cauldron.containerVersion d)
        else
          method "getTopLevelContainerVersion"
            cauldron_getTopLevelContainerVersion;;
          let* d := view in ret (Cauldron.topLevelContainerVersion d) in
      match stored with
      | Some v =>
          if truthy stored then ret (semver_inc_patch E v)
          else ret (Some "1.0.0")
      | None => ret (Some "1.0.0")
      end in
  method "beginTransaction" cauldron_beginTransaction;;
  let* w := get in
  match Cauldron.beginTransaction (store w) with
  | inl e => throw e
  | inr c => modify (set_store c)
  end;;
  emit stateUpdateFunc_call;;
  let* d := view in
  mutate (fun _ => (stateUpdateFunc d).1);;
  match (stateUpdateFunc d).2 with
  | Some e => throw e
  | None => ret tt
  end;;
  method "getCompositeGeneratorConfig" cauldron_getCompositeGeneratorConfig;;
  let* d := view in
  let compositeGenConfig := Cauldron.compositeGeneratorConfig d in
  let baseComposite := compositeGenConfig ≫= Cauldron.baseComposite in
  let compositeDir := tmpDir E in
  emit (createTmpDir compositeDir);;
  emit (kax_task "Generating Composite from Cauldron");;
  call (runCauldronCompositeGen baseComposite compositeDir);;
  let* composite := view in
  method "getNativeDependencies" cauldron_getNativeDependencies;;
  let* d := view in
  let cauldronNativeDependencies := Cauldron.nativeDependencies d in
  call composite_getResolvedNativeDependencies;;
  let compositeNativeDeps_resolved := resolved E composite in
  let nativeDependencies :=
    nativeDependencies cauldronNativeDependencies
      compositeNativeDeps_resolved in
  method "syncContainerNativeDependencies"
    (cauldron_syncContainerNativeDependencies nativeDependencies);;
  mutate (Cauldron.set_nativeDependencies nativeDependencies);;
  emit (kax_task "Generating Container from Cauldron");;
  call (runCauldronContainerGen outDir);;
  method "updateContainerVersion"
    (cauldron_updateContainerVersion cauldronContainerNewVersion);;
  mutate (Cauldron.set_containerVersion cauldronContainerNewVersion);;
  method "updateContainerErnVersion"
    (cauldron_updateContainerErnVersion (currentVersion E));;
  mutate (Cauldron.set_containerErnVersion (currentVersion E));;
  let pathToNewYarnLock := MiniApp.path_join compositeDir "yarn.lock" in
  method "addOrUpdateYarnLock"
    (cauldron_addOrUpdateYarnLock (CONTAINER_YARN_KEY E) pathToNewYarnLock);;
  mutate (Cauldron.set_yarnLock (CONTAINER_YARN_KEY E) pathToNewYarnLock);;
  call (runContainerTransformers outDir);;
  emit (kax_task "Updating Cauldron");;
  method "commitTransaction" (cauldron_commitTransaction commitMessage);;
  modify (fun w =>
    set_store (Cauldron.commitTransaction commitMessage (store w)) w);;
  emit (log_info ("Added new container version "
                  ++ default "null" cauldronContainerNewVersion ++ " for "
                  ++ descriptorToString E napDescriptor
                  ++ " in Cauldron"));;
  ret cauldronContainerNewVersion.

(** The [catch] block: [discardTransaction()] is called and not
    awaited, then the error is thrown again. *)
Definition catchBlock (e : error) : body (option string) :=
  emit (log_error ("[syncCauldronContainer] An error occurred: "
                   ++ error_toString e));;
  let* w := get in
  (if cauldron w then
     emit cauldron_discardTransaction;;
     modify (fun w => set_store (Cauldron.discardTransaction (store w)) w)
   else ret tt);;
  throw e.

Definition syncCauldronContainerBody
    (stateUpdateFunc : Cauldron.document -> Cauldron.document * option error)
    (napDescriptor : NativeApplicationDescriptor)
    (commitMessage : string + list string)
    (containerVersion : option string) : body unit :=
  if negb (truthy (platform napDescriptor)) then
    throw (Error (descriptorToString E napDescriptor
                  ++ " does not specify a platform"))
  else
    let platform := default EmptyString (platform napDescriptor) in
    let outDir := getContainerGenOutDirectory E platform in
    (* let cauldronContainerNewVersion; let cauldron *)
    modify (set_cauldron false);;
    let* cauldronContainerNewVersion :=
      try_catch
        (tryBlock stateUpdateFunc napDescriptor commitMessage
           containerVersion outDir)
        catchBlock in
    call (runContainerPublishers outDir cauldronContainerNewVersion).

Definition syncCauldronContainer
    (stateUpdateFunc : Cauldron.document -> Cauldron.document * option error)
    (napDescriptor : NativeApplicationDescriptor)
    (commitMessage : string + list string)
    (containerVersion : option string) (w : world)
  : promise unit * world :=
  run tt (syncCauldronContainerBody stateUpdateFunc napDescriptor
            commitMessage containerVersion) w.

End SyncCauldronContainer.

End Sync.

(** ** The other methods of MiniApp that keep to the process *)

Module MiniAppRest.

Import MiniApp.

Section Methods.

Variable E : env.
Variable this : t.

(** what [findNativeDependencies] finds in a directory *)
Variable nativeDependenciesIn : string -> NativeDependencies.

(** [this.getPackageJsonDependencies()], of BaseMiniApp *)
Variable packageJsonDependencies : list PackagePath.

Local Open Scope js_scope.

Definition getNativeDependencies {R : Type} : M world R NativeDependencies :=
  let dir := path_join (path this) "node_modules" in
  call E (findNativeDependencies dir);;
  ret (nativeDependenciesIn dir).

Definition getJsDependenciesBody
  : M world (list PackagePath) (list PackagePath) :=
  let* nativeDependencies := getNativeDependencies in
  let nativeDependenciesNames :=
    (fun d => PackagePath.basePath (packagePath d))
      <$> all nativeDependencies in
  let nativeAndJsDependencies := packageJsonDependencies in
  return_ (filter (fun d => PackagePath.basePath d ∉ nativeDependenciesNames)
             nativeAndJsDependencies).

Definition getJsDependencies (w : world)
  : promise (list PackagePath) * world :=
  run_value getJsDependenciesBody w.

(** [version || 'undefined'] *)
Definition orUndefined (version : option string) : string :=
  if truthy version then default EmptyString version else "undefined".

Definition manifestConformingDependencyBody
    (dependency manifestDependency : PackagePath)
  : M world PackagePath PackagePath :=
  if negb (truthy (PackagePath.version dependency))
     || bool_decide (PackagePath.version dependency
                     = PackagePath.version manifestDependency)
  then return_ manifestDependency
  else
    emit (log_warn (PackagePath.toString dependency ++ " version mismatch."));;
    emit (log_warn ("Manifest version: "
                    ++ orUndefined (PackagePath.version manifestDependency)));;
    emit (log_warn ("Wanted version: "
                    ++ orUndefined (PackagePath.version dependency)));;
    emit (log_warn
      ("You might want to update the version in your Manifest to add this dependency to "
       ++ name this));;
    return_ dependency.

Definition manifestConformingDependency
    (dependency manifestDependency : PackagePath) (w : world)
  : promise PackagePath * world :=
  run_value (manifestConformingDependencyBody dependency manifestDependency) w.

End Methods.

End MiniAppRest.

(** ** MiniApp.link and MiniApp.unlink *)

Module Links.

Inductive event : Type :=
  | log_warn (message : string)
  | log_info (message : string)
  | config_setValue (key : string) (value : gmap string string).

(** The value of the key [miniAppsLinks] of the configuration, if it has
    one, and the trace of the events, oldest first. *)
Record world : Type := {
  miniAppsLinks : option (gmap string string);
  trace : list event;
}.

Definition record (e : event) (w : world) : world :=
  {| miniAppsLinks := miniAppsLinks w; trace := trace w ++ [e] |}.

(** [config.setValue('miniAppsLinks', value)] *)
Definition setValue (value : gmap string string) (w : world) : world :=
  {| miniAppsLinks := Some value;
     trace := trace w ++ [config_setValue "miniAppsLinks" value] |}.

(** [this.packageJson.name] and [this.path]. *)
Record t : Type := { name : string; path : string }.

Section Methods.

Variable this : t.

Local Open Scope js_scope.

Abbreviation body := (M world unit).

Definition emit (e : event) : body unit := modify (record e).

(** [config.getValue('miniAppsLinks', {})] *)
Definition getValue : body (gmap string string) :=
  let* w := get in ret (default ∅ (miniAppsLinks w)).

(** [miniAppsLinks[name]] as a condition, compared with [===] to a path,
    and inside a template literal. *)
Definition truthy_link (link : member string) : bool :=
  match link with
  | Own linkPath => truthy (Some linkPath)
  | Inherited => true
  | Missing => false
  end.

Definition is_link (link : member string) (path : string) : bool :=
  match link with
  | Own linkPath => bool_decide (linkPath = path)
  | Inherited | Missing => false
  end.

Definition interpolate_link (name : string) (link : member string)
  : string :=
  match link with
  | Own linkPath => linkPath
  | Inherited => Object_prototype_toString name
  | Missing => "undefined"
  end.

Definition linkBody : body unit :=
  let* miniAppsLinks := getValue in
  let previousLinkPath := member_of miniAppsLinks (name this) in
  (if truthy_link previousLinkPath
      && negb (is_link previousLinkPath (path this))
   then
     emit (log_warn ("Replacing previous link [" ++ name this ++ " => "
                     ++ interpolate_link (name this) previousLinkPath ++ "]"))
   else if truthy_link previousLinkPath
           && is_link previousLinkPath (path this)
   then
     emit (log_warn ("Link is already created for " ++ name this
                     ++ " with same path"));;
     return_ tt
   else ret tt);;
  let miniAppsLinks := <[name this := path this]> miniAppsLinks in
  modify (setValue miniAppsLinks);;
  emit (log_info (name this ++ " link created [" ++ name this ++ " => "
                  ++ path this ++ "]")).

Definition link (w : world) : promise unit * world := run tt linkBody w.

Definition unlinkBody : body unit :=
  let* miniAppsLinks := getValue in
  if truthy_link (member_of miniAppsLinks (name this)) then
    let miniAppsLinks := delete (name this) miniAppsLinks in
    modify (setValue miniAppsLinks);;
    emit (log_info (name this ++ " link was removed"))
  else
    emit (log_warn ("No link exists for " ++ name this));;
    return_ tt.

Definition unlink (w : world) : promise unit * world := run tt unlinkBody w.

End Methods.

End Links.

(** ** shell.pushd and shell.popd *)

Module Shell.

(** The working directory and the stack of the directories to go back
    to. *)
Record t : Type := { cwd : string; stack : list string }.

Definition pushd (dir : string) (s : t) : t :=
  {| cwd := dir; stack := cwd s :: stack s |}.

(** [popd] fails on an empty stack. *)
Definition popd (s : t) : option t :=
  match stack s with
  | dir :: rest => Some {| cwd := dir; stack := rest |}
  | [] => None
  end.

End Shell.

(** ** launchOnSimulator *)

Module LaunchOnSimulator.

Inductive event : Type :=
  | kax_task (message : string)
  | ios_askUserToSelectAniPhoneSimulator
  | ios_killAllRunningSimulators
  | ios_launchSimulator (udid : string)
  | shell_pushd (dir : string)
  | shell_popd
  | buildIosRunner (pathToIosRunner udid : string)
  | ios_installApplicationOnSimulator (udid app : string)
  | ios_launchApplication (udid bundleId : string).

Record world : Type := { shell : Shell.t; trace : list event }.

Definition record (e : event) (w : world) : world :=
  {| shell := shell w; trace := trace w ++ [e] |}.

Definition set_shell (s : Shell.t) (w : world) : world :=
  {| shell := s; trace := trace w |}.

(** The collaborators: the error a call of them is rejected with, if it
    is, and the [udid] of the simulator that the user selects. *)
Record env : Type := {
  fails : event -> option error;
  udid : string;
}.

Section LaunchOnSimulator.

Variable E : env.

Local Open Scope js_scope.

Abbreviation body := (M world unit).

Definition emit (e : event) : body unit := modify (record e).

Definition call (e : event) : body unit :=
  emit e;;
  match fails E e with
  | Some err => throw err
  | None => ret tt
  end.

Definition pushd (dir : string) : body unit :=
  call (shell_pushd dir);;
  modify (fun w => set_shell (Shell.pushd dir (shell w)) w).

Definition popd : body unit :=
  emit shell_popd;;
  let* w := get in
  match Shell.popd (shell w) with
  | Some s => modify (set_shell s)
  | None => throw (Error "popd: directory stack empty")
  end.

Definition launchOnSimulatorBody (pathToIosRunner : string) : body unit :=
  call ios_askUserToSelectAniPhoneSimulator;;
  let iPhoneSim_udid := udid E in
  emit (kax_task "Killing all running Simulators");;
  call ios_killAllRunningSimulators;;
  emit (kax_task "Booting iOS Simulator");;
  call (ios_launchSimulator iPhoneSim_udid);;
  pushd pathToIosRunner;;
  try_finally
    (emit (kax_task "Building iOS Runner project");;
     call (buildIosRunner pathToIosRunner iPhoneSim_udid);;
     emit (kax_task "Installing iOS Runner on Simulator");;
     call (ios_installApplicationOnSimulator iPhoneSim_udid
             (pathToIosRunner
              ++ "/build/Debug-iphonesimulator/ErnRunner.app"));;
     emit (kax_task "Launching Runner");;
     call (ios_launchApplication iPhoneSim_udid "com.yourcompany.ernrunner"))
    popd.

Definition launchOnSimulator (pathToIosRunner : string) (w : world)
  : promise unit * world :=
  run tt (launchOnSimulatorBody pathToIosRunner) w.

End LaunchOnSimulator.

End LaunchOnSimulator.

(** ** The command [list dependencies] *)

Module ListDependencies.

Inductive event : Type :=
  | createTmpDir (dir : string)
  | shell_pushd (dir : string)
  | shell_popd
  | yarn_init
  | yarn_add (dependency : PackagePath)
  | findNativeDependencies (dir : string)
  | stdout_write (s : string)
  | console_log (s : string).

Record world : Type := { shell : Shell.t; trace : list event }.

Definition record (e : event) (w : world) : world :=
  {| shell := shell w; trace := trace w ++ [e] |}.

Definition set_shell (s : Shell.t) (w : world) : world :=
  {| shell := s; trace := trace w |}.

Record env : Type := {
  fails : event -> option error;
  (** the directory [createTmpDir()] makes *)
  tmpDir : string;
  (** [PackagePath.fromString] *)
  fromString : string -> PackagePath;
  (** what [findNativeDependencies] finds in a directory *)
  found : string -> NativeDependencies;
  (** [JSON.stringify] *)
  stringify : NativeDependencies -> string;
  (** [chalk.bold.yellow] and [chalk.blue.bold] *)
  chalk_bold_yellow : string -> string;
  chalk_blue_bold : string -> string;
}.

Section CommandHandler.

Variable E : env.

Local Open Scope js_scope.

Abbreviation body := (M world unit).

Definition emit (e : event) : body unit := modify (record e).

Definition call (e : event) : body unit :=
  emit e;;
  match fails E e with
  | Some err => throw err
  | None => ret tt
  end.

Definition pushd (dir : string) : body unit :=
  call (shell_pushd dir);;
  modify (fun w => set_shell (Shell.pushd dir (shell w)) w).

Definition popd : body unit :=
  emit shell_popd;;
  let* w := get in
  match Shell.popd (shell w) with
  | Some s => modify (set_shell s)
  | None => throw (Error "popd: directory stack empty")
  end.

Fixpoint logEach (dependencies : list NativeDependency) : body unit :=
  match dependencies with
  | [] => ret tt
  | d :: rest =>
      emit (console_log (PackagePath.toString (packagePath d)));;
      logEach rest
  end.

Definition logDependencies (dependencies : list NativeDependency)
    (type : string) : body unit :=
  match dependencies with
  | [] => ret tt
  | _ :: _ =>
      emit (console_log (chalk_blue_bold E ("=== " ++ type ++ " ===")));;
      logEach dependencies
  end.

Definition commandHandlerBody (module : option string) (json : bool)
  : body unit :=
  let* w := get in
  let cwd := Shell.cwd (shell w) in
  let* pathToModule :=
    if truthy module then
      let pathToModule := tmpDir E in
      emit (createTmpDir pathToModule);;
      pushd pathToModule;;
      try_finally
        (call yarn_init;;
         call (yarn_add (fromString E (default EmptyString module))))
        popd;;
      ret pathToModule
    else ret cwd in
  let dir := MiniApp.path_join pathToModule "node_modules" in
  call (findNativeDependencies dir);;
  let dependencies := found E dir in
  if json then
    emit (stdout_write (stringify E dependencies))
  else
    emit (console_log (chalk_bold_yellow E "Native dependencies :"));;
    logDependencies (apis dependencies) "APIs";;
    logDependencies (nativeApisImpl dependencies)
      "Native API Implementations";;
    logDependencies (thirdPartyInManifest dependencies)
      "Third party declared in Manifest";;
    logDependencies (thirdPartyNotInManifest dependencies)
      "Third party not declared in Manifest".

Definition commandHandler (module : option string) (json : bool) (w : world)
  : promise unit * world :=
  run tt (commandHandlerBody module json) w.

End CommandHandler.

End ListDependencies.

(** ** MiniApp.fromPackagePath *)

Module FromPackagePath.

Inductive event : Type :=
  | utils_isGitBranch (packagePath : PackagePath)
  | packageCache_isInCache (packagePath : PackagePath)
  | packageCache_addToCache (packagePath : PackagePath)
  | packageCache_getObjectCachePath (packagePath : PackagePath)
  | createTmpDir (dir : string)
  | shell_pushd (dir : string)
  | shell_popd
  | yarn_init
  | yarn_add (packagePath : PackagePath)
  | readPackageJson (dir : string)
  | shell_rm (options : option string) (file : string)
  | shell_mv (source dest : string)
  | new_MiniApp (miniAppPath : string) (packagePath : PackagePath).

(** The session cache [MiniApp.miniAppFsPathByPackagePath], the shell, and
    the trace of the events, oldest first. *)
Record world : Type := {
  miniAppFsPathByPackagePath : gmap string string;
  shell : Shell.t;
  trace : list event;
}.

Definition record (e : event) (w : world) : world :=
  {| miniAppFsPathByPackagePath := miniAppFsPathByPackagePath w;
     shell := shell w; trace := trace w ++ [e] |}.

Definition set_shell (s : Shell.t) (w : world) : world :=
  {| miniAppFsPathByPackagePath := miniAppFsPathByPackagePath w;
     shell := s; trace := trace w |}.

Definition set_cache (key fsPath : string) (w : world) : world :=
  {| miniAppFsPathByPackagePath :=
       <[key := fsPath]> (miniAppFsPathByPackagePath w);
     shell := shell w; trace := trace w |}.

Record env : Type := {
  fails : event -> option error;
  (** [config.getValue('package-cache-enabled', true)] *)
  package_cache_enabled : bool;
  (** [packagePath.isFilePath] and [packagePath.fullPath] *)
  isFilePath : PackagePath -> bool;
  fullPath : PackagePath -> string;
  (** the answers of [utils.isGitBranch] and of the package cache *)
  isGitBranch : PackagePath -> bool;
  isInCache : PackagePath -> bool;
  addToCache : PackagePath -> string;
  getObjectCachePath : PackagePath -> string;
  (** the directory [createTmpDir()] makes *)
  tmpDir : string;
  (** the keys of [dependencies] in the package.json that [yarn add] of a
      package leaves, if it has that object *)
  dependenciesKeys : PackagePath -> option (list string);
}.

(** [new MiniApp(miniAppPath, packagePath)] *)
Record MiniApp : Type := {
  miniAppPath : string;
  packagePath : PackagePath;
}.

Section FromPackagePath.

Variable E : env.

Local Open Scope js_scope.

Abbreviation body := (M world MiniApp).

Definition emit (e : event) : body unit := modify (record e).

Definition call (e : event) : body unit :=
  emit e;;
  match fails E e with
  | Some err => throw err
  | None => ret tt
  end.

Definition pushd (dir : string) : body unit :=
  call (shell_pushd dir);;
  modify (fun w => set_shell (Shell.pushd dir (shell w)) w).

Definition popd : body unit :=
  emit shell_popd;;
  let* w := get in
  match Shell.popd (shell w) with
  | Some s => modify (set_shell s)
  | None => throw (Error "popd: directory stack empty")
  end.

(** [return new MiniApp(miniAppPath, packagePath)]: the constructor of
    [BaseMiniApp], which is not part of the sources at hand, reads the
    package.json of the directory and may throw; it changes nothing, and it
    is no event of the trace: [fails] is only asked whether it throws. *)
Definition construct (miniAppPath : string) (packagePath : PackagePath)
  : body MiniApp :=
  match fails E (new_MiniApp miniAppPath packagePath) with
  | Some err => throw err
  | None =>
      return_ {| miniAppPath := miniAppPath; packagePath := packagePath |}
  end.

Definition join3 (a b c : string) : string :=
  MiniApp.path_join (MiniApp.path_join a b) c.

(** The statements of the [try] block that installs the package in the
    temporary directory and moves it to the top of that directory. *)
Definition install (packagePath : PackagePath) (fsPackagePath : string)
  : body unit :=
  call yarn_init;;
  call (yarn_add packagePath);;
  call (readPackageJson ".");;
  match dependenciesKeys E packagePath with
  | None =>
      throw (TypeError "Cannot convert undefined or null to object")
  | Some keys =>
      let packageName := head keys in
      call (shell_rm None (MiniApp.path_join fsPackagePath "package.json"));;
      match packageName with
      | None =>
          throw (TypeError
            ("The " ++ MiniApp.quote ++ "path" ++ MiniApp.quote
             ++ " argument must be of type string. Received undefined"))
      | Some packageName =>
          let installed :=
            MiniApp.path_join
              (join3 fsPackagePath "node_modules" packageName) "*" in
          call (shell_mv installed fsPackagePath);;
          call (shell_rm (Some "-rf") installed)
      end
  end.

(** The [else] branch: the path that the session cache has, or the one of
    a new installation. *)
Definition fromSession (packagePath : PackagePath) : body string :=
  let* w := get in
  match miniAppFsPathByPackagePath w !! fullPath E packagePath with
  | Some fsPackagePath => ret fsPackagePath
  | None =>
      let fsPackagePath := tmpDir E in
      emit (createTmpDir fsPackagePath);;
      pushd fsPackagePath;;
      try_finally (install packagePath fsPackagePath) popd;;
      ret fsPackagePath
  end.

Definition fromPackagePathBody (packagePath : PackagePath) : body MiniApp :=
  let* usePackageCache :=
    if package_cache_enabled E && negb (isFilePath E packagePath) then
      call (utils_isGitBranch packagePath);;
      ret (negb (isGitBranch E packagePath))
    else ret false in
  let* fsPackagePath :=
    if usePackageCache : bool then
      call (packageCache_isInCache packagePath);;
      if negb (isInCache E packagePath) then
        call (packageCache_addToCache packagePath);;
        ret (addToCache E packagePath)
      else
        call (packageCache_getObjectCachePath packagePath);;
        ret (getObjectCachePath E packagePath)
    else fromSession packagePath in
  modify (set_cache (fullPath E packagePath) fsPackagePath);;
  construct fsPackagePath packagePath.

Definition fromPackagePath (packagePath : PackagePath) (w : world)
  : promise MiniApp * world :=
  run_value (fromPackagePathBody packagePath) w.

End FromPackagePath.

End FromPackagePath.

(** ** MiniApp.create *)

Module Create.

(** The properties of the package.json of the new project that [create]
    sets. *)
Record packageJson : Type := {
  ern : option PackageJson.ern_t;
  private : option bool;
  keywords : option (list string);
  name : option string;
}.

Inductive event : Type :=
  | Platform_switchToVersion (version : string)
  | kax_task (message : string)
  | task_succeed (message : string)
  | task_fail
  | manifest_getNativeDependency (dependency : PackagePath)
  | reactnative_init (miniAppName reactNativeVersion : string)
  | fs_writeFileSync (file content : string)
  | readPackageJson (dir : string)
  | writePackageJson (dir : string) (content : packageJson)
  | shell_pushd (dir : string)
  | shell_popd
  | shell_rm (options : option string) (file : string)
  | shell_cp (source dest : string)
  | new_MiniApp (miniAppPath : string) (packagePath : PackagePath).

Record world : Type := { shell : Shell.t; trace : list event }.

Definition record (e : event) (w : world) : world :=
  {| shell := shell w; trace := trace w ++ [e] |}.

Definition set_shell (s : Shell.t) (w : world) : world :=
  {| shell := s; trace := trace w |}.

Record env : Type := {
  fails : event -> option error;
  (** [fs.existsSync] *)
  existsSync : string -> bool;
  (** [Platform.currentVersion] *)
  currentVersion : string;
  manifest : Manifest.t;
  (** [PackagePath.fromString] *)
  fromString : string -> PackagePath;
  (** what [readPackageJson] reads in the directory that
      [react-native init] has made *)
  generatedPackageJson : string -> packageJson;
  (** [ModuleTypes.MINIAPP] *)
  MINIAPP : string;
  (** [semver.gte], which throws on a version that is not valid *)
  semver_gte : string -> string -> option bool;
}.

Definition npmIgnoreContent : string :=
  "ios/" ++ MiniApp.newline ++ "android/" ++ MiniApp.newline
  ++ "yarn.lock" ++ MiniApp.newline ++ ".flowconfig" ++ MiniApp.newline
  ++ ".buckconfig" ++ MiniApp.newline ++ ".gitattributes" ++ MiniApp.newline
  ++ ".watchmanconfig" ++ MiniApp.newline.

Section Create.

Variable E : env.

Local Open Scope js_scope.

Abbreviation body := (M world FromPackagePath.MiniApp).

Definition emit (e : event) : body unit := modify (record e).

Definition call (e : event) : body unit :=
  emit e;;
  match fails E e with
  | Some err => throw err
  | None => ret tt
  end.

Definition pushd (dir : string) : body unit :=
  call (shell_pushd dir);;
  modify (fun w => set_shell (Shell.pushd dir (shell w)) w).

Definition popd : body unit :=
  emit shell_popd;;
  let* w := get in
  match Shell.popd (shell w) with
  | Some s => modify (set_shell s)
  | None => throw (Error "popd: directory stack empty")
  end.

(** The MiniApp that [MiniApp.fromPath] makes. *)
Definition fromPath (fsPath : string) : FromPackagePath.MiniApp :=
  {| FromPackagePath.miniAppPath := fsPath;
     FromPackagePath.packagePath := fromString E fsPath |}.

(** [return MiniApp.fromPath(fsPath)]: the constructor may throw; it
    changes nothing, and it is no event of the trace. *)
Definition returnFromPath {A : Type} (fsPath : string)
  : M world FromPackagePath.MiniApp A :=
  match fails E (new_MiniApp fsPath (fromString E fsPath)) with
  | Some err => throw err
  | None => return_ (fromPath fsPath)
  end.

(** The [try] block that asks the manifest for the version of
    react-native, and its [catch] block. *)
Definition retrieveReactNativeVersion : body string :=
  try_catch
    (call (manifest_getNativeDependency (fromString E "react-native"));;
     let reactNativeDependency :=
       Manifest.getNativeDependency (manifest E)
         (fromString E "react-native") in
     match reactNativeDependency with
     | None =>
         throw (Error
           "react-native dependency is not defined in manifest. cannot infer version to be used")
     | Some reactNativeDependency =>
         let reactNativeVersion :=
           PackagePath.version reactNativeDependency in
         if negb (truthy reactNativeVersion) then
           throw (Error "React Native version needs to be explicitely defined")
         else
           let reactNativeVersion :=
             default EmptyString reactNativeVersion in
           emit (task_succeed
                   ("Retrieved react-native version from Manifest ["
                    ++ reactNativeVersion ++ "]"));;
           ret reactNativeVersion
     end)
    (fun e => emit task_fail;; throw e).

(** The assignments to [appPackageJson]. *)
Definition inject (miniAppName packageName platformVersion : string)
    (scope : option string) (appPackageJson : packageJson) : packageJson :=
  {| ern := Some {| PackageJson.moduleName := Some miniAppName;
                    PackageJson.moduleType := Some (MINIAPP E);
                    PackageJson.version := Some platformVersion |};
     private := Some false;
     keywords := Some match keywords appPackageJson with
                      | Some l => (l ++ [MINIAPP E])%list
                      | None => [MINIAPP E]
                      end;
     name := if truthy scope
             then Some ("@" ++ default EmptyString scope ++ "/" ++ packageName)
             else Some packageName |}.

(** The statements that follow the switch of the platform version. *)
Definition createProject (miniAppName packageName platformVersion : string)
    (scope : option string) : body FromPackagePath.MiniApp :=
  emit (kax_task "Querying Manifest for react-native version to use");;
  let* reactNativeVersion := retrieveReactNativeVersion in
  emit (kax_task ("Creating " ++ miniAppName
                  ++ " project using react-native v" ++ reactNativeVersion));;
  call (reactnative_init miniAppName reactNativeVersion);;
  let* w := get in
  let cwd := Shell.cwd (shell w) in
  let npmIgnorePath :=
    MiniApp.path_join (MiniApp.path_join cwd miniAppName) ".npmignore" in
  call (fs_writeFileSync npmIgnorePath npmIgnoreContent);;
  let pathToMiniApp := MiniApp.path_join cwd miniAppName in
  call (readPackageJson pathToMiniApp);;
  let appPackageJson :=
    inject miniAppName packageName platformVersion scope
      (generatedPackageJson E pathToMiniApp) in
  call (writePackageJson pathToMiniApp appPackageJson);;
  let miniAppPath := MiniApp.path_join cwd miniAppName in
  pushd miniAppPath;;
  try_finally
    (call (shell_rm (Some "-rf") "android");;
     call (shell_rm (Some "-rf") "ios");;
     match semver_gte E reactNativeVersion "0.49.0" with
     | None => throw (TypeError ("Invalid Version: " ++ reactNativeVersion))
     | Some gte =>
         if gte : bool then
           call (shell_cp "index.js" "index.ios.js");;
           call (shell_cp "index.js" "index.android.js");;
           call (shell_rm None "index.js")
         else ret tt
     end;;
     returnFromPath miniAppPath)
    popd.

Definition createBody (miniAppName packageName : string)
    (platformVersion scope : option string) : body FromPackagePath.MiniApp :=
  let platformVersion := default (currentVersion E) platformVersion in
  if existsSync E (MiniApp.path_join "node_modules" "react-native") then
    throw (Error
      "It seems like there is already a react native app in this directory. Use another directory.")
  else
    (if negb (bool_decide (currentVersion E = platformVersion)) then
       call (Platform_switchToVersion platformVersion)
     else ret tt);;
    createProject miniAppName packageName platformVersion scope.

Definition create (miniAppName packageName : string)
    (platformVersion scope : option string) (w : world)
  : promise FromPackagePath.MiniApp * world :=
  run_value (createBody miniAppName packageName platformVersion scope) w.

End Create.

End Create.

(** * The vocabulary of the properties

    What the properties observe of a run, the invariants of their proofs,
    and the worlds of their examples. *)

Module MiniAppSpec.

Import MiniApp.

(** No awaited call of a collaborator is rejected. *)
Definition reliable (E : env) : Prop := forall e, fails E e = None.

(** The packages that [yarn add] has put into directory [dir], with the
    options of each call, oldest first: what a trace has done to the
    dependencies of the package in [dir]. *)
Definition installed (dir : string) (e : event)
  : option (PackagePath * yarnAddOptions) :=
  match e with
  | yarn_add cwd p o => if bool_decide (cwd = dir) then Some (p, o) else None
  | _ => None
  end.

(** The MiniApp's dependencies change when, and only when, [yarn add]
    runs in the MiniApp's directory: [installs (path this)] observes it. *)
Definition installs (dir : string) (w : world)
  : list (PackagePath * yarnAddOptions) :=
  omap (installed dir) (trace w).

(** The manifest's entry for a dependency, as [addDependency] looks it
    up: [getNativeDependency(...) || getJsDependency(...)]. *)
Definition manifestDependency (E : env) (dependency : PackagePath)
  : option PackagePath :=
  let basePathDependency :=
    PackagePath.new (PackagePath.basePath dependency) in
  match Manifest.getNativeDependency (manifest E) basePathDependency with
  | Some d => Some d
  | None => Manifest.getJsDependency (manifest E) basePathDependency
  end.

(** The scan of the throwaway install of a candidate. *)
Definition scan (E : env) (dependency : PackagePath)
  : list NativeDependency :=
  all (installedNativeDependencies E
         (fromString E (PackagePath.toString dependency))).

(** An empty manifest, reliable collaborators, and packages without any
    native dependency. *)
Definition E_empty : env := {|
  fails := fun _ => None;
  manifest := Manifest.mk ∅ ∅;
  tmpDir := "/tmp/ern";
  installedNativeDependencies := fun _ =>
    {| apis := []; nativeApisImpl := []; thirdPartyInManifest := [];
       thirdPartyNotInManifest := []; all := [] |};
  isDependencyApiOrApiImpl := fun _ => false;
  fromString := PackagePath.new;
  stringify := fun _ => "[]";
  getJsAndNativeDependencies := fun _ => [];
  stringifyPackageJson := fun _ => "{}";
|}.

(** A MiniApp, and a process that has done nothing yet. *)
Definition miniapp : t := {| path := "/miniapp"; name := "miniapp" |}.

Definition w_start : world := {|
  cwd := "/";
  files := ∅;
  packageJson := {| PackageJson.dependencies := Some ∅;
                    PackageJson.ern := None;
                    PackageJson.ernPlatformVersion := None |};
  trace := [];
|}.

(** The world after the manifest lookups of [addDependency]: the native
    one, then the JavaScript one if the native one found nothing. *)
Definition lookedUp (E : env) (dependency : PackagePath) (w : world)
  : world :=
  let basePathDependency :=
    PackagePath.new (PackagePath.basePath dependency) in
  match Manifest.getNativeDependency (manifest E) basePathDependency with
  | Some _ => record (manifest_getNativeDependency basePathDependency) w
  | None =>
      record (manifest_getJsDependency basePathDependency)
        (record (manifest_getNativeDependency basePathDependency) w)
  end.

(** The world after the final [yarn add] of [p] to the MiniApp. *)
Definition added (this : t) (p : PackagePath) (message : string)
    (w : world) : world :=
  record (yarn_add (path this) p NoOptions)
    (record (kax_task message)
       (set_cwd (path this) (record (process_chdir (path this)) w))).

(** The manifest [{ "react-native": "0.59.0" }]. *)
Definition E_rn : env := {|
  fails := fails E_empty;
  manifest := Manifest.mk {[ "react-native" := Some "0.59.0" ]} ∅;
  tmpDir := tmpDir E_empty;
  installedNativeDependencies := installedNativeDependencies E_empty;
  isDependencyApiOrApiImpl := isDependencyApiOrApiImpl E_empty;
  fromString := fromString E_empty;
  stringify := stringify E_empty;
  getJsAndNativeDependencies := getJsAndNativeDependencies E_empty;
  stringifyPackageJson := stringifyPackageJson E_empty;
|}.

Definition react_native (version : option string) : PackagePath :=
  PackagePath.mk "react-native" version.

(** A turn of the loop over the scanned native dependencies goes on to the
    next one: the scanned entry is the candidate itself and an api or
    api-impl, or it is another package that the manifest of native
    dependencies does not have, or has as the very same PackagePath. *)
Definition passes (E : env) (dependency : PackagePath)
    (dep : NativeDependency) : bool :=
  let depBase := PackagePath.basePath (packagePath dep) in
  if bool_decide (PackagePath.basePath dependency = depBase) then
    isDependencyApiOrApiImpl E depBase
  else
    match Manifest.getNativeDependency (manifest E)
            (PackagePath.new depBase) with
    | Some manifestDep => PackagePath.same (packagePath dep) manifestDep false
    | None => true
    end.

(** Nothing was installed anywhere, no file was written, and the process
    stayed where it was. *)
Definition quiet (w w' : world) : Prop :=
  cwd w' = cwd w /\ files w' = files w /\ packageJson w' = packageJson w
  /\ forall dir, installs dir w' = installs dir w.

(** The world after the lookups that find nothing, and the throwaway
    install and its scan. *)
Definition scanned (E : env) (dependency : PackagePath) (w : world) : world :=
  let basePathDependency :=
    PackagePath.new (PackagePath.basePath dependency) in
  record (findNativeDependencies (path_join (tmpDir E) "node_modules"))
    (record (yarn_add (tmpDir E)
               (fromString E (PackagePath.toString dependency)) NoOptions)
       (record (kax_task (PackagePath.toString basePathDependency
          ++ " is not declared in the manifest. Performing additional checks."))
          (set_cwd (tmpDir E)
             (record (process_chdir (tmpDir E))
                (record (createTmpDir (tmpDir E))
                   (lookedUp E dependency w)))))).

(** The last character of a message tells the messages apart. *)
Fixpoint last_char (s : string) : option Ascii.ascii :=
  match s with
  | EmptyString => None
  | String a EmptyString => Some a
  | String _ s' => last_char s'
  end.

(** A scanned native dependency, and a scan that found a list of them. *)
Definition native (basePath version : string) : NativeDependency :=
  {| packagePath := PackagePath.mk basePath (Some version) |}.

Definition found (l : list NativeDependency) : NativeDependencies :=
  {| apis := []; nativeApisImpl := []; thirdPartyInManifest := [];
     thirdPartyNotInManifest := l; all := l |}.

(** A manifest that declares [react-native-maps@0.24.0], and four
    packages that it does not declare: a native one; two native ones that
    bring [react-native-maps@0.25.0] along, scanned before and after the
    package itself; and a JavaScript one that brings it along. *)
Definition E_native : env := {|
  fails := fails E_empty;
  manifest := Manifest.mk {[ "react-native-maps" := Some "0.24.0" ]} ∅;
  tmpDir := tmpDir E_empty;
  installedNativeDependencies := fun p =>
    let base := PackagePath.basePath p in
    if bool_decide (base = "plain-native-lib") then
      found [native "plain-native-lib" "1.0.0"]
    else if bool_decide (base = "some-native-lib") then
      found [native "react-native-maps" "0.25.0";
             native "some-native-lib" "1.0.0"]
    else if bool_decide (base = "other-native-lib") then
      found [native "other-native-lib" "1.0.0";
             native "react-native-maps" "0.25.0"]
    else if bool_decide (base = "native-base") then
      found [native "react-native-maps" "0.25.0"]
    else found [];
  isDependencyApiOrApiImpl := isDependencyApiOrApiImpl E_empty;
  fromString := fromString E_empty;
  stringify := stringify E_empty;
  getJsAndNativeDependencies := getJsAndNativeDependencies E_empty;
  stringifyPackageJson := stringifyPackageJson E_empty;
|}.

End MiniAppSpec.

Module UpgradeSpec.

Import MiniApp.

(** An event that touches neither the files on disk nor the installed
    packages. *)
Definition harmless (e : event) : bool :=
  match e with
  | fs_writeFileSync _ _ | yarn_install _ | yarn_add _ _ _ => false
  | _ => true
  end.

(** From [w] to [w'] the disk and the working directory are untouched, the
    [ern] object of the package.json in memory is the same, and all that
    happened is harmless. *)
Definition untouched (w w' : world) : Prop :=
  files w' = files w /\ cwd w' = cwd w
  /\ PackageJson.ern (packageJson w') = PackageJson.ern (packageJson w)
  /\ exists t, trace w' = (trace w ++ t)%list /\ forallb harmless t = true.

(** A manifest that has [react-native@0.59.0], and a MiniApp on
    [react-native@0.57.0] whose package.json has an [ern] object. *)
Definition E_upgrade : env := {|
  fails := fun _ => None;
  manifest := Manifest.mk {[ "react-native" := Some "0.59.0" ]} ∅;
  tmpDir := "/tmp/ern";
  installedNativeDependencies := fun _ =>
    {| apis := []; nativeApisImpl := []; thirdPartyInManifest := [];
       thirdPartyNotInManifest := []; all := [] |};
  isDependencyApiOrApiImpl := fun _ => false;
  fromString := PackagePath.new;
  stringify := fun _ => "[]";
  getJsAndNativeDependencies := fun _ =>
    [PackagePath.mk "react-native" (Some "0.59.0");
     PackagePath.mk "react-native-maps" (Some "0.24.0")];
  stringifyPackageJson := fun pj =>
    default "no ern" (PackageJson.ern pj ≫= PackageJson.version);
|}.

Definition w_ern : world := {|
  cwd := "/";
  files := {[ "/miniapp/package.json" := "0.30.0" ]};
  packageJson :=
    {| PackageJson.dependencies := Some {[ "react-native" := Some "0.57.0" ]};
       PackageJson.ern :=
         Some {| PackageJson.moduleName := Some "miniapp";
                 PackageJson.moduleType := Some "ern-miniapp";
                 PackageJson.version := Some "0.30.0" |};
       PackageJson.ernPlatformVersion := None |};
  trace := [];
|}.

End UpgradeSpec.

Module SyncSpec.

Import Sync.

(** The dependencies A, B, B' (B with a bumped version) and C. *)
Definition dep_A : PackagePath := PackagePath.mk "a" (Some "1.0.0").
Definition dep_B : PackagePath := PackagePath.mk "b" (Some "1.0.0").
Definition dep_B' : PackagePath := PackagePath.mk "b" (Some "1.1.0").
Definition dep_C : PackagePath := PackagePath.mk "c" (Some "1.0.0").

(** From a world that satisfies [P], the computation [m] does not leave
    through [return]; it ends normally in a world that satisfies [Q], or
    throws in a world that satisfies [X]. *)
Definition triple {A : Type} (P : world -> Prop) (m : M world unit A)
    (Q : A -> world -> Prop) (X : error -> world -> Prop) : Prop :=
  forall w, P w ->
    match m w with
    | (Normal a, w') => Q a w'
    | (Return _, _) => False
    | (Throw e, w') => X e w'
    end.

Section Invariants.

Variable E : env.

(** The world in which the [try] block is entered. *)
Variable w0 : world.

(** The events that delimit the window of the transaction: the call of
    [beginTransaction], and the call of the publishers, which comes after
    the commit has completed. *)
Definition is_publish (e : event) : bool :=
  match e with runContainerPublishers _ _ => true | _ => false end.

Definition is_begin (e : event) : bool :=
  match e with cauldron_beginTransaction => true | _ => false end.

(** The Cauldron and the local variable [cauldron] satisfy [phi], and the
    events since the block was entered satisfy [tphi]. *)
Definition at_ (phi : Cauldron.t -> bool -> Prop)
    (tphi : list event -> Prop) (w : world) : Prop :=
  phi (store w) (cauldron w)
  /\ exists t, trace w = (trace w0 ++ t)%list /\ tphi t.

(** What holds whenever the block throws: the durable store is as it was,
    the publishers have not run, and if [beginTransaction] was called then
    the variable [cauldron] is set. *)
Definition thrown (e : error) (w : world) : Prop :=
  Cauldron.persisted (store w) = Cauldron.persisted (store w0)
  /\ exists t, trace w = (trace w0 ++ t)%list
               /\ existsb is_publish t = false
               /\ (existsb is_begin t = true -> cauldron w = true).

(** Neither [beginTransaction] nor the publishers were called; the
    publishers were not called. *)
Definition quiet_trace (t : list event) : Prop :=
  existsb is_publish t = false /\ existsb is_begin t = false.

Definition unpublished (t : list event) : Prop :=
  existsb is_publish t = false.

(** The phases of the [try] block: the Cauldron is as it was on entry;
    it still is, and [cauldron] is set; a transaction is open, whose
    working copy satisfies [psi], over the durable content of the entry;
    the transaction is committed, and the durable content satisfies
    [psi]. *)
Definition untouched (s : Cauldron.t) (c : bool) : Prop := s = store w0.

Definition begun (s : Cauldron.t) (c : bool) : Prop :=
  s = store w0 /\ c = true.

Definition in_transaction (psi : Cauldron.document -> Prop)
    (s : Cauldron.t) (c : bool) : Prop :=
  c = true
  /\ Cauldron.working (store w0) = None
  /\ Cauldron.persisted s = Cauldron.persisted (store w0)
  /\ exists d, Cauldron.working s = Some d /\ psi d.

Definition committed (psi : Cauldron.document -> Prop)
    (s : Cauldron.t) (c : bool) : Prop :=
  Cauldron.working (store w0) = None
  /\ Cauldron.working s = None
  /\ psi (Cauldron.persisted s).

(** The value of [cauldronContainerNewVersion], from the argument of the
    call and the document that the Cauldron shows on entry. *)
Definition newContainerVersion (containerVersion : option string)
    (d : Cauldron.document) : option string :=
  if truthy containerVersion then containerVersion
  else
    let stored :=
      if Cauldron.detachContainerVersionFromRoot d
      then Cauldron.containerVersion d
      else Cauldron.topLevelContainerVersion d in
    match stored with
    | Some v => if truthy stored then semver_inc_patch E v else Some "1.0.0"
    | None => Some "1.0.0"
    end.

End Invariants.

(** The value of [outDir]. *)
Definition outDirOf (E : env) (napDescriptor : NativeApplicationDescriptor)
  : string :=
  getContainerGenOutDirectory E (default EmptyString (platform napDescriptor)).

(** The world that the [catch] block leaves. *)
Definition caught (e : error) (w : world) : world :=
  let logged :=
    record (log_error ("[syncCauldronContainer] An error occurred: "
                       ++ error_toString e)) w in
  if cauldron w then
    set_store (Cauldron.discardTransaction (store w))
      (record cauldron_discardTransaction logged)
  else logged.

(** A Cauldron with the container version 1.2.3 and the dependencies
    [{A, B}], no transaction open; a Composite that resolves [{B', C}]. *)
Definition document0 : Cauldron.document := {|
  Cauldron.nativeDependencies := [dep_A; dep_B];
  Cauldron.containerVersion := Some "1.2.3";
  Cauldron.topLevelContainerVersion := Some "1.2.3";
  Cauldron.detachContainerVersionFromRoot := false;
  Cauldron.containerErnVersion := None;
  Cauldron.yarnLocks := ∅;
  Cauldron.compositeGeneratorConfig := None;
|}.

Definition w_idle : world := {|
  store := {| Cauldron.persisted := document0; Cauldron.working := None;
              Cauldron.audit := [] |};
  cauldron := false;
  trace := [];
|}.

(** Collaborators of which the calls that [fails] names are rejected; a
    [semver.inc] that knows the version 1.2.3. *)
Definition E_with (fails : event -> option error) : env := {|
  fails := fails;
  activeCauldron := true;
  getContainerGenOutDirectory := fun platform => "/containergen/" ++ platform;
  currentVersion := "0.31.0";
  CONTAINER_YARN_KEY := "container";
  semver_inc_patch := fun v =>
    if bool_decide (v = "1.2.3") then Some "1.2.4" else None;
  tmpDir := "/tmp/composite";
  resolved := fun _ => [dep_B'; dep_C];
  descriptorToString := fun d => name d;
|}.

Definition commit_fails (e : event) : option error :=
  match e with
  | cauldron_commitTransaction _ => Some (Error "CommitError")
  | _ => None
  end.

(** A complete descriptor, and a state update that changes nothing. *)
Definition descriptor0 : NativeApplicationDescriptor :=
  {| name := "app"; platform := Some "android"; version := Some "1.0.0" |}.

Definition keep (d : Cauldron.document) : Cauldron.document * option error :=
  (d, None).

(** The version that the Cauldron has for the container when the sync
    starts: the one of the native application version if it is detached
    from the root, the top level one otherwise. *)
Definition storedContainerVersion (d : Cauldron.document) : option string :=
  if Cauldron.detachContainerVersionFromRoot d
  then Cauldron.containerVersion d
  else Cauldron.topLevelContainerVersion d.

Definition never_fails (e : event) : option error := None.

(** The Cauldron that the sync reads: the state update applied to the
    durable content; the native dependencies it has, and the ones that the
    Composite generated from it resolves. *)
Definition updated
    (stateUpdateFunc : Cauldron.document -> Cauldron.document * option error)
    (w : world) : Cauldron.document :=
  (stateUpdateFunc (Cauldron.persisted (store w))).1.

(** The publishers were not called, and the list [l] was handed to
    [cauldron.syncContainerNativeDependencies]. *)
Definition handed (l : list PackagePath) (t : list event) : Prop :=
  existsb is_publish t = false
  /\ In (cauldron_syncContainerNativeDependencies l) t.

End SyncSpec.

Module MiniAppRestSpec.

Import MiniApp.

(** A scan that finds the same native dependencies in every directory. *)
Definition scan_of (l : list NativeDependency) (dir : string)
  : NativeDependencies :=
  {| apis := []; nativeApisImpl := []; thirdPartyInManifest := l;
     thirdPartyNotInManifest := []; all := l |}.

End MiniAppRestSpec.

Module LinksSpec.

Import Links.

(** The links that the configuration shows. *)
Definition links (w : world) : gmap string string :=
  default ∅ (miniAppsLinks w).

(** A MiniApp, and a configuration that links another one. *)
Definition linked_miniapp : t := {| name := "miniapp"; path := "/miniapp" |}.

Definition w_unlinked : world := {|
  miniAppsLinks := Some {[ "other" := "/other" ]};
  trace := [];
|}.

End LinksSpec.

Module LaunchOnSimulatorSpec.

Import LaunchOnSimulator.

(** The events that are calls of a collaborator: all but the titles of the
    tasks and [popd]. *)
Definition is_call (e : event) : bool :=
  match e with
  | kax_task _ | shell_popd => false
  | _ => true
  end.

Definition calls (t : list event) : list event := filter is_call t.

(** The steps of the launch, in the order of the source. *)
Definition steps (E : env) (pathToIosRunner : string) : list event :=
  [ios_askUserToSelectAniPhoneSimulator;
   ios_killAllRunningSimulators;
   ios_launchSimulator (udid E);
   shell_pushd pathToIosRunner;
   buildIosRunner pathToIosRunner (udid E);
   ios_installApplicationOnSimulator (udid E)
     (pathToIosRunner ++ "/build/Debug-iphonesimulator/ErnRunner.app");
   ios_launchApplication (udid E) "com.yourcompany.ernrunner"].

(** The steps up to and including the first one that fails. *)
Fixpoint upto_first_failure (E : env) (l : list event) : list event :=
  match l with
  | [] => []
  | e :: rest =>
      e :: match fails E e with
           | Some _ => []
           | None => upto_first_failure E rest
           end
  end.

(** Resolved when no step fails, rejected with the error of the first one
    that does. *)
Fixpoint outcome (E : env) (l : list event) : promise unit :=
  match l with
  | [] => Resolved tt
  | e :: rest =>
      match fails E e with
      | Some err => Rejected err
      | None => outcome E rest
      end
  end.

End LaunchOnSimulatorSpec.

Module ListDependenciesSpec.

Import ListDependencies.

(** What the command writes to the terminal. *)
Definition is_output (e : event) : bool :=
  match e with
  | stdout_write _ | console_log _ => true
  | _ => false
  end.

Definition outputs (t : list event) : list event := filter is_output t.

(** The directory whose [node_modules] is scanned. *)
Definition scannedDir (E : env) (module : option string) (w : world)
  : string :=
  MiniApp.path_join
    (if truthy module then tmpDir E else Shell.cwd (shell w))
    "node_modules".

(** The awaited calls of a run, in the order of the source. *)
Definition steps (E : env) (module : option string) (w : world)
  : list event :=
  ((if truthy module then
      [shell_pushd (tmpDir E); yarn_init;
       yarn_add (fromString E (default EmptyString module))]
    else [])
   ++ [findNativeDependencies (scannedDir E module w)])%list.

(** The error of the first step that is rejected. *)
Fixpoint first_failure (E : env) (l : list event) : option error :=
  match l with
  | [] => None
  | e :: rest =>
      match fails E e with
      | Some err => Some err
      | None => first_failure E rest
      end
  end.

Definition line (d : NativeDependency) : event :=
  console_log (PackagePath.toString (packagePath d)).

(** The lines of a group of dependencies: none for an empty group. *)
Definition group (E : env) (dependencies : list NativeDependency)
    (type : string) : list event :=
  match dependencies with
  | [] => []
  | _ :: _ =>
      console_log (chalk_blue_bold E ("=== " ++ type ++ " ===")%string)
      :: map line dependencies
  end.

(** The whole report, as JSON or as text. *)
Definition report (E : env) (json : bool) (dependencies : NativeDependencies)
  : list event :=
  if json then [stdout_write (stringify E dependencies)]
  else
    (console_log (chalk_bold_yellow E "Native dependencies :")
     :: group E (apis dependencies) "APIs"
     ++ group E (nativeApisImpl dependencies) "Native API Implementations"
     ++ group E (thirdPartyInManifest dependencies)
          "Third party declared in Manifest"
     ++ group E (thirdPartyNotInManifest dependencies)
          "Third party not declared in Manifest")%list.

(** Collaborators that never fail, and of which [yarn add] is rejected;
    a scan that finds one API. *)
Definition E_list (yarn_add_fails : bool) : env := {|
  fails := fun e =>
    match e with
    | yarn_add _ => if yarn_add_fails then Some (Error "yarn add") else None
    | _ => None
    end;
  tmpDir := "/tmp/ern";
  fromString := PackagePath.new;
  found := fun _ =>
    {| apis := [{| packagePath := PackagePath.mk "movie-api" (Some "1.0.0") |}];
       nativeApisImpl := []; thirdPartyInManifest := [];
       thirdPartyNotInManifest := [];
       all := [{| packagePath := PackagePath.mk "movie-api" (Some "1.0.0") |}]
    |};
  stringify := fun _ => "{}";
  chalk_bold_yellow := fun s => s;
  chalk_blue_bold := fun s => s;
|}.

Definition w_list : world := {|
  shell := {| Shell.cwd := "/miniapp"; Shell.stack := [] |};
  trace := [];
|}.

End ListDependenciesSpec.

Module FromPackagePathSpec.

Import FromPackagePath.

(** No awaited call of a collaborator is rejected. *)
Definition reliable (E : env) : Prop := forall e, fails E e = None.

(** The package cache is asked for nothing: it is disabled, or the package
    is one in the file system. *)
Definition bypassed (E : env) (packagePath : PackagePath) : bool :=
  negb (package_cache_enabled E && negb (isFilePath E packagePath)).

(** The package cache is the one to give the path: it is enabled, and the
    package is neither in the file system nor a git branch. *)
Definition cached (E : env) (packagePath : PackagePath) : bool :=
  package_cache_enabled E && negb (isFilePath E packagePath)
  && negb (isGitBranch E packagePath).

(** What the installation in a temporary directory does. *)
Definition is_install (e : event) : bool :=
  match e with
  | createTmpDir _ | shell_pushd _ | shell_popd | yarn_init | yarn_add _
  | readPackageJson _ | shell_rm _ _ | shell_mv _ _ => true
  | _ => false
  end.

(** Reliable collaborators, with or without the package cache; a package of
    the registry, in a session that has not seen it. *)
Definition E_from (enabled : bool) : env := {|
  fails := fun _ => None;
  package_cache_enabled := enabled;
  isFilePath := fun _ => false;
  fullPath := PackagePath.toString;
  isGitBranch := fun _ => false;
  isInCache := fun _ => false;
  addToCache := fun p => ("/cache/" ++ PackagePath.toString p)%string;
  getObjectCachePath := fun p => ("/cache/" ++ PackagePath.toString p)%string;
  tmpDir := "/tmp/ern";
  dependenciesKeys := fun p => Some [PackagePath.basePath p];
|}.

Definition movie : PackagePath := PackagePath.mk "movie" (Some "1.0.0").

Definition w_fresh : world := {|
  miniAppFsPathByPackagePath := ∅;
  shell := {| Shell.cwd := "/"; Shell.stack := [] |};
  trace := [];
|}.

End FromPackagePathSpec.

Module AddDependencySpec.

Import MiniApp MiniAppSpec.

(** The package that [addDependency] hands to the final [yarn add], and
    the one it gives back: the entry of the manifest if it has one. *)
Definition toInstall (E : env) (dependency : PackagePath) : PackagePath :=
  match manifestDependency E dependency with
  | Some m => m
  | None => fromString E (PackagePath.toString dependency)
  end.

Definition toReturn (E : env) (dependency : PackagePath) : PackagePath :=
  default dependency (manifestDependency E dependency).

(** Collaborators of which [yarn add] is rejected in the directory
    [dir]. *)
Definition E_yarn_fails (dir : string) : env := {|
  fails := fun e =>
    match e with
    | yarn_add cwd _ _ =>
        if bool_decide (cwd = dir) then Some (Error "yarn add") else None
    | _ => None
    end;
  manifest := manifest E_native;
  tmpDir := tmpDir E_native;
  installedNativeDependencies := installedNativeDependencies E_native;
  isDependencyApiOrApiImpl := isDependencyApiOrApiImpl E_native;
  fromString := fromString E_native;
  stringify := stringify E_native;
  getJsAndNativeDependencies := getJsAndNativeDependencies E_native;
  stringifyPackageJson := stringifyPackageJson E_native;
|}.

End AddDependencySpec.

Module UpgradeDependenciesSpec.

Import MiniApp.

(** What a turn of the loop over the manifest's dependencies makes of the
    [dependencies] of the package.json: where the lookup of the base path
    finds something truthy, an own property with a version or a property
    of [Object.prototype], the version of the manifest is assigned. *)
Definition bump (deps : gmap string (option string))
    (manifestDependency : PackagePath) : gmap string (option string) :=
  let basePath := PackagePath.basePath manifestDependency in
  if truthy_version (member_of deps basePath) then
    <[basePath := PackagePath.version manifestDependency]> deps
  else deps.

Definition bumped (manifestDependencies : list PackagePath)
    (deps : gmap string (option string)) : gmap string (option string) :=
  foldl bump deps manifestDependencies.

(** The end of an upgrade, from the world [w] in which the package.json
    [pj] was put together: the write of the file, the change of the
    working directory and [yarn install], up to the first of them that
    fails. *)
Definition finished (E : env) (this : t) (pj : PackageJson) (w : world)
  : promise unit * world :=
  let file := path_join (path this) "package.json" in
  let content := stringifyPackageJson E pj in
  let w1 := record (fs_writeFileSync file content) (set_packageJson pj w) in
  match fails E (fs_writeFileSync file content) with
  | Some e => (Rejected e, w1)
  | None =>
      let w2 := record (process_chdir (path this))
                  (write_file file content w1) in
      match fails E (process_chdir (path this)) with
      | Some e => (Rejected e, w2)
      | None =>
          (match fails E (yarn_install (path this)) with
           | Some e => Rejected e
           | None => Resolved tt
           end,
           record (yarn_install (path this))
             (record (kax_task "Running yarn install")
                (set_cwd (path this) w2)))
      end
  end.

(** Collaborators of which [process.chdir] throws. *)
Definition E_chdir_fails : env := {|
  fails := fun e =>
    match e with
    | process_chdir _ => Some (Error "ENOENT")
    | _ => None
    end;
  manifest := manifest UpgradeSpec.E_upgrade;
  tmpDir := tmpDir UpgradeSpec.E_upgrade;
  installedNativeDependencies :=
    installedNativeDependencies UpgradeSpec.E_upgrade;
  isDependencyApiOrApiImpl := isDependencyApiOrApiImpl UpgradeSpec.E_upgrade;
  fromString := fromString UpgradeSpec.E_upgrade;
  stringify := stringify UpgradeSpec.E_upgrade;
  getJsAndNativeDependencies :=
    getJsAndNativeDependencies UpgradeSpec.E_upgrade;
  stringifyPackageJson := stringifyPackageJson UpgradeSpec.E_upgrade;
|}.

(** A manifest that has [constructor@1.0.0]. *)
Definition E_constructor : env := {|
  fails := fun _ => None;
  manifest := manifest UpgradeSpec.E_upgrade;
  tmpDir := tmpDir UpgradeSpec.E_upgrade;
  installedNativeDependencies :=
    installedNativeDependencies UpgradeSpec.E_upgrade;
  isDependencyApiOrApiImpl := isDependencyApiOrApiImpl UpgradeSpec.E_upgrade;
  fromString := fromString UpgradeSpec.E_upgrade;
  stringify := stringify UpgradeSpec.E_upgrade;
  getJsAndNativeDependencies := fun _ =>
    [PackagePath.mk "react-native" (Some "0.59.0");
     PackagePath.mk "constructor" (Some "1.0.0")];
  stringifyPackageJson := stringifyPackageJson UpgradeSpec.E_upgrade;
|}.

(** A package.json that has no [dependencies]. *)
Definition w_bare : world := {|
  cwd := "/";
  files := ∅;
  packageJson :=
    {| PackageJson.dependencies := None;
       PackageJson.ern := PackageJson.ern (packageJson UpgradeSpec.w_ern);
       PackageJson.ernPlatformVersion := None |};
  trace := [];
|}.

End UpgradeDependenciesSpec.

Module SyncPublishSpec.

Import Sync SyncSpec.

(** Collaborators of which the publishers are rejected, and of which
    [getActiveCauldron] is. *)
Definition publishers_fail (e : event) : option error :=
  match e with
  | runContainerPublishers _ _ => Some (Error "PublishError")
  | _ => None
  end.

Definition no_cauldron (e : event) : option error :=
  match e with
  | getActiveCauldron => Some (Error "NoActiveCauldron")
  | _ => None
  end.

End SyncPublishSpec.

Module CreateSpec.

Import Create.

(** What makes or changes the project of the new MiniApp. *)
Definition is_project (e : event) : bool :=
  match e with
  | reactnative_init _ _ | fs_writeFileSync _ _ | writePackageJson _ _
  | shell_pushd _ | shell_rm _ _ | shell_cp _ _ => true
  | _ => false
  end.

Definition projected (t : list event) : list event := filter is_project t.

(** The version of react-native that [create] uses: the one that the
    manifest has, where there is no react-native app yet. *)
Definition reactNativeVersion (E : env) : option string :=
  if existsSync E (MiniApp.path_join "node_modules" "react-native") then None
  else
    match Manifest.getNativeDependency (manifest E)
            (fromString E "react-native") with
    | Some reactNativeDependency =>
        if truthy (PackagePath.version reactNativeDependency)
        then PackagePath.version reactNativeDependency
        else None
    | None => None
    end.

(** The directory of the new MiniApp. *)
Definition miniAppPathOf (miniAppName : string) (w : world) : string :=
  MiniApp.path_join (Shell.cwd (shell w)) miniAppName.

(** What [create] does to make the project, up to the moment it enters
    its directory. *)
Definition made (E : env) (miniAppName packageName platformVersion : string)
    (scope : option string) (dir reactNativeVersion : string)
  : list event :=
  [reactnative_init miniAppName reactNativeVersion;
   fs_writeFileSync (MiniApp.path_join dir ".npmignore") npmIgnoreContent;
   readPackageJson dir;
   writePackageJson dir
     (inject E miniAppName packageName platformVersion scope
        (generatedPackageJson E dir));
   shell_pushd dir].

(** Reliable collaborators, and a manifest with or without
    react-native. *)
Definition E_create (native : gmap string (option string)) : env := {|
  fails := fun _ => None;
  existsSync := fun _ => false;
  currentVersion := "0.31.0";
  manifest := Manifest.mk native ∅;
  fromString := PackagePath.new;
  generatedPackageJson := fun _ =>
    {| ern := None; private := Some true; keywords := None;
       name := Some "movies" |};
  MINIAPP := "ern-miniapp";
  semver_gte := fun _ _ => Some true;
|}.

Definition w_home : world := {|
  shell := {| Shell.cwd := "/home"; Shell.stack := [] |};
  trace := [];
|}.

End CreateSpec.

(** * Properties of [MiniApp.addDependency] *)

Module MiniAppFacts.

Import MiniApp MiniAppSpec.

(** ** The manifest gives entries of the base path it is asked for *)

Lemma entry_basePath m p q :
  Manifest.entry m p = Some q ->
  PackagePath.basePath q = PackagePath.basePath p.
Proof.
  unfold Manifest.entry. destruct (m !! PackagePath.basePath p); simpl;
    intros [= <-]; reflexivity.
Qed.

Lemma manifestDependency_basePath E d m :
  manifestDependency E d = Some m ->
  PackagePath.basePath m = PackagePath.basePath d.
Proof.
  unfold manifestDependency, Manifest.getNativeDependency,
    Manifest.getJsDependency.
  destruct (Manifest.entry (Manifest.native _) _) eqn:Hn.
  - intros [= <-]. apply (entry_basePath _ _ _ Hn).
  - intros Hj. apply (entry_basePath _ _ _ Hj).
Qed.

Lemma same_true p q b :
  PackagePath.same p q b = true <->
  PackagePath.basePath p = PackagePath.basePath q
  /\ (b = true \/ PackagePath.version p = PackagePath.version q).
Proof.
  unfold PackagePath.same.
  rewrite andb_true_iff, orb_true_iff, !bool_decide_eq_true. tauto.
Qed.

Lemma same_eq p q : PackagePath.same p q false = true <-> p = q.
Proof.
  rewrite same_true. destruct p, q; simpl. split.
  - intros [-> [[=] | ->]]. reflexivity.
  - intros [= -> ->]. auto.
Qed.

(** ** Installs along a trace *)

Lemma installs_record dir e w :
  installs dir (record e w)
  = (installs dir w ++ option_list (installed dir e))%list.
Proof.
  unfold installs, record; simpl. rewrite omap_app. simpl.
  destruct (installed dir e); reflexivity.
Qed.

Lemma installs_set_cwd dir d w : installs dir (set_cwd d w) = installs dir w.
Proof. reflexivity. Qed.

(** ** Calls of the collaborators *)

Lemma call_run {R} E e w :
  @call R E e w
  = (match fails E e with Some err => Throw err | None => Normal tt end,
     record e w).
Proof. unfold call, bind, emit, modify. destruct (fails E e); reflexivity. Qed.

Lemma call_reliable {R} E e w :
  reliable E -> @call R E e w = (Normal tt, record e w).
Proof. intros H. rewrite call_run, H. reflexivity. Qed.

Lemma yarnAdd_run {R} E message p o w :
  @yarnAdd R E message p o w
  = (match fails E (yarn_add (cwd w) p o) with
     | Some err => Throw err
     | None => Normal tt
     end,
     record (yarn_add (cwd w) p o) (record (kax_task message) w)).
Proof.
  unfold yarnAdd, bind, emit, modify, get. simpl. rewrite call_run.
  simpl. destruct (fails E _); reflexivity.
Qed.

Lemma getNativeDependency_reliable {R} E p w :
  reliable E ->
  @getNativeDependency R E p w
  = (Normal (Manifest.getNativeDependency (manifest E) p),
     record (manifest_getNativeDependency p) w).
Proof.
  intros H. unfold getNativeDependency, bind. rewrite (call_reliable _ _ _ H).
  reflexivity.
Qed.

Lemma getJsDependency_reliable {R} E p w :
  reliable E ->
  @getJsDependency R E p w
  = (Normal (Manifest.getJsDependency (manifest E) p),
     record (manifest_getJsDependency p) w).
Proof.
  intros H. unfold getJsDependency, bind. rewrite (call_reliable _ _ _ H).
  reflexivity.
Qed.

(** ** A [null] dependency *)

(** C9. For a [null] or [undefined] dependency, [addDependency] resolves
    with no PackagePath and raises nothing; all it does is log the error
    "dependency cant be null": no manifest lookup, no install, and the
    files, the package.json and the working directory are as before. *)
Theorem addDependency_null E this dev peer w :
  addDependency E this None dev peer w
  = (Resolved None, record (log_error "dependency cant be null") w).
Proof. reflexivity. Qed.

(** ** A dev or peer dependency *)

(** C6. With the dev or the peer flag set, [addDependency] does what
    [addDevOrPeerDependency] does and nothing else: all it does is the
    [yarn add] of the dependency with the dev (or peer) option, in the
    current directory, and it resolves with [undefined] unless that
    [yarn add] fails; there is no manifest lookup, no throwaway install,
    no scan and no version comparison, whatever the manifest and the
    scanner say. *)
Theorem addDependency_dev_or_peer E this d dev peer w :
  dev || peer = true ->
  let staged :=
    yarn_add (cwd w) (fromString E (PackagePath.toString d))
      (if dev then Dev else Peer) in
  addDependency E this (Some d) dev peer w
  = run None (addDevOrPeerDependency E d dev) w
  /\ exists message,
      addDependency E this (Some d) dev peer w
      = (match fails E staged with
         | Some err => Rejected err
         | None => Resolved None
         end,
         record staged (record (kax_task message) w)).
Proof.
  intros Hflag. unfold addDependency, addDependencyBody. rewrite Hflag.
  split; [reflexivity |].
  unfold addDevOrPeerDependency, run.
  destruct dev; eexists; rewrite yarnAdd_run; destruct (fails E _);
    reflexivity.
Qed.

Lemma addDependency_dev_or_peer_witness :
  true || false = true
  /\ addDependency E_empty miniapp (Some (PackagePath.new "jest"))
       true false w_start
     = run None (addDevOrPeerDependency E_empty (PackagePath.new "jest") true)
         w_start
  /\ fst (addDependency E_empty miniapp (Some (PackagePath.new "jest"))
            true false w_start) = Resolved None.
Proof.
  split; [reflexivity |].
  destruct (addDependency_dev_or_peer E_empty miniapp (PackagePath.new "jest")
              true false w_start eq_refl) as [Hrun [message Hres]].
  split; [exact Hrun |]. rewrite Hres. reflexivity.
Defined.

(** ** A dependency that the manifest declares *)

Lemma installs_lookedUp dir E d w :
  installs dir (lookedUp E d w) = installs dir w.
Proof.
  unfold lookedUp. destruct (Manifest.getNativeDependency _ _);
    rewrite !installs_record; simpl; rewrite ?app_nil_r; reflexivity.
Qed.

Lemma installs_added dir this p message w :
  installs dir (added this p message w)
  = (installs dir w
     ++ if bool_decide (path this = dir) then [(p, NoOptions)] else [])%list.
Proof.
  unfold added. rewrite !installs_record, installs_set_cwd, installs_record.
  simpl. rewrite !app_nil_r.
  destruct (bool_decide _); simpl; rewrite ?app_nil_r; reflexivity.
Qed.

Lemma addDependency_declared E this d m w :
  reliable E ->
  manifestDependency E d = Some m ->
  addDependency E this (Some d) false false w
  = if truthy (PackagePath.version d) then
      let w1 :=
        record (log_debug ("Dependency:" ++ PackagePath.toString d
          ++ " defined in manifest, performing version match"))
          (lookedUp E d w) in
      if PackagePath.same d m false then
        (Resolved (Some m),
         added this m ("Adding " ++ PackagePath.toString m ++ " to "
                       ++ name this) w1)
      else (Rejected (Error (versionMismatchMessage d)), w1)
    else
      (Resolved (Some m),
       added this m ("Adding " ++ PackagePath.toString m ++ " to "
                     ++ name this) (lookedUp E d w)).
Proof.
  intros Hrel.
  unfold manifestDependency, lookedUp, addDependency, addDependencyBody.
  cbn [orb]. unfold run, bind at 1 2.
  rewrite (getNativeDependency_reliable _ _ _ Hrel).
  destruct (Manifest.getNativeDependency _ _) as [n|] eqn:Hn.
  - intros [= ->]. unfold ret at 1.
    destruct (truthy _); [destruct (PackagePath.same d m false) |];
      unfold bind, chdir, emit, modify, ret, throw, return_;
      cbn -[PackagePath.toString]; rewrite ?yarnAdd_run, ?Hrel; reflexivity.
  - rewrite (getJsDependency_reliable _ _ _ Hrel). intros ->.
    destruct (truthy _); [destruct (PackagePath.same d m false) |];
      unfold bind, chdir, emit, modify, ret, throw, return_;
      cbn -[PackagePath.toString]; rewrite ?yarnAdd_run, ?Hrel; reflexivity.
Qed.

(** C4. A dependency that the manifest declares and that carries no
    explicit version (its version is [undefined], or the empty string,
    which the code takes for none) is accepted: [addDependency] resolves
    with the manifest's PackagePath for its base path, and that is the
    package added to the MiniApp (the calls of the manifest and of yarn
    succeeding). *)
Theorem addDependency_unversioned E this d m w :
  reliable E ->
  manifestDependency E d = Some m ->
  truthy (PackagePath.version d) = false ->
  exists w',
    addDependency E this (Some d) false false w = (Resolved (Some m), w')
    /\ PackagePath.basePath m = PackagePath.basePath d
    /\ installs (path this) w'
       = (installs (path this) w ++ [(m, NoOptions)])%list.
Proof.
  intros Hrel Hm Hv. rewrite (addDependency_declared _ _ _ _ _ Hrel Hm), Hv.
  eexists; split; [reflexivity |]. split.
  - apply (manifestDependency_basePath _ _ _ Hm).
  - rewrite installs_added, installs_lookedUp.
    rewrite bool_decide_eq_true_2; reflexivity.
Qed.

(** With the manifest [{ "react-native": "0.59.0" }], adding
    [react-native] gives [react-native@0.59.0]. *)
Lemma addDependency_unversioned_witness :
  reliable E_rn
  /\ manifestDependency E_rn (react_native None)
  = Some (react_native (Some "0.59.0"))
  /\ truthy (PackagePath.version (react_native None)) = false
  /\ exists w',
      addDependency E_rn miniapp (Some (react_native None)) false false
        w_start
      = (Resolved (Some (react_native (Some "0.59.0"))), w')
      /\ PackagePath.basePath (react_native (Some "0.59.0"))
         = PackagePath.basePath (react_native None)
      /\ installs (path miniapp) w'
         = (installs (path miniapp) w_start
            ++ [(react_native (Some "0.59.0"), NoOptions)])%list.
Proof.
  split; [intros e; reflexivity |].
  split; [vm_compute; reflexivity |]. split; [reflexivity |].
  apply (addDependency_unversioned E_rn miniapp (react_native None)
           (react_native (Some "0.59.0")) w_start);
    [intros e; reflexivity | vm_compute; reflexivity | reflexivity].
Defined.

(** C3. For a dependency [d] that the manifest declares and that carries
    an explicit version [v]: if the manifest's version is the same string,
    [addDependency] resolves with [d] unchanged (the manifest's entry is
    [d]) and adds it to the MiniApp; if the manifest's version differs
    ([v] being a version that the code sees, not the empty string), it is
    rejected with the error "d was not added to the MiniApp" and nothing
    is added to the MiniApp (the calls of the manifest and of yarn
    succeeding). *)
Theorem addDependency_versioned E this d m v w :
  reliable E ->
  manifestDependency E d = Some m ->
  PackagePath.version d = Some v ->
  (PackagePath.version m = Some v ->
   m = d
   /\ exists w',
       addDependency E this (Some d) false false w = (Resolved (Some d), w')
       /\ installs (path this) w'
          = (installs (path this) w ++ [(d, NoOptions)])%list)
  /\ (v <> EmptyString -> PackagePath.version m <> Some v ->
      exists w',
        addDependency E this (Some d) false false w
        = (Rejected (Error (versionMismatchMessage d)), w')
        /\ installs (path this) w' = installs (path this) w).
Proof.
  intros Hrel Hm Hv. pose proof (manifestDependency_basePath _ _ _ Hm) as Hb.
  rewrite (addDependency_declared _ _ _ _ _ Hrel Hm). split.
  - intros Hmv.
    assert (m = d) as ->.
    { destruct m, d; simpl in *; congruence. }
    split; [reflexivity |].
    rewrite (proj2 (same_eq d d) eq_refl).
    destruct (truthy _); eexists; (split; [reflexivity |]);
      rewrite installs_added, ?installs_record, installs_lookedUp;
      rewrite bool_decide_eq_true_2 by reflexivity;
      simpl; rewrite ?app_nil_r; reflexivity.
  - intros Hne Hdiff.
    assert (truthy (PackagePath.version d) = true) as ->.
    { rewrite Hv. simpl. destruct (String.eqb_spec v EmptyString);
        [contradiction | reflexivity]. }
    destruct (PackagePath.same d m false) eqn:Hs.
    + apply same_eq in Hs. subst m. congruence.
    + eexists; split; [reflexivity |].
      rewrite installs_record, installs_lookedUp. simpl.
      apply app_nil_r.
Qed.

Lemma addDependency_versioned_witness :
  reliable E_rn
  /\ manifestDependency E_rn (react_native (Some "0.59.0"))
     = Some (react_native (Some "0.59.0"))
  /\ manifestDependency E_rn (react_native (Some "0.60.0"))
     = Some (react_native (Some "0.59.0"))
  /\ "0.60.0" <> EmptyString
  /\ PackagePath.version (react_native (Some "0.59.0")) <> Some "0.60.0"
  /\ (exists w',
        addDependency E_rn miniapp (Some (react_native (Some "0.59.0")))
          false false w_start
        = (Resolved (Some (react_native (Some "0.59.0"))), w')
        /\ installs (path miniapp) w'
           = (installs (path miniapp) w_start
              ++ [(react_native (Some "0.59.0"), NoOptions)])%list)
  /\ (exists w',
        addDependency E_rn miniapp (Some (react_native (Some "0.60.0")))
          false false w_start
        = (Rejected
             (Error (versionMismatchMessage (react_native (Some "0.60.0")))),
           w')
        /\ installs (path miniapp) w' = installs (path miniapp) w_start).
Proof.
  assert (Hrel : reliable E_rn) by (intros e; reflexivity).
  assert (Hsame : manifestDependency E_rn (react_native (Some "0.59.0"))
                  = Some (react_native (Some "0.59.0")))
    by (vm_compute; reflexivity).
  assert (Hm : manifestDependency E_rn (react_native (Some "0.60.0"))
               = Some (react_native (Some "0.59.0")))
    by (vm_compute; reflexivity).
  assert (Hne : "0.60.0" <> EmptyString) by discriminate.
  assert (Hdiff : PackagePath.version (react_native (Some "0.59.0"))
                  <> Some "0.60.0") by discriminate.
  split; [exact Hrel |]. split; [exact Hsame |]. split; [exact Hm |].
  split; [exact Hne |]. split; [exact Hdiff |]. split.
  - exact (proj2 (proj1 (addDependency_versioned E_rn miniapp
                           (react_native (Some "0.59.0"))
                           (react_native (Some "0.59.0")) "0.59.0" w_start
                           Hrel Hsame eq_refl) eq_refl)).
  - exact (proj2 (addDependency_versioned E_rn miniapp
                    (react_native (Some "0.60.0"))
                    (react_native (Some "0.59.0")) "0.60.0" w_start
                    Hrel Hm eq_refl) Hne Hdiff).
Defined.

(** ** A dependency that the manifest does not declare *)

Lemma quiet_refl w : quiet w w.
Proof. split; [| split; [| split]]; reflexivity. Qed.

Lemma quiet_trans w1 w2 w3 : quiet w1 w2 -> quiet w2 w3 -> quiet w1 w3.
Proof.
  intros (?&?&?&H12) (?&?&?&H23).
  split; [| split; [| split]];
    [congruence | congruence | congruence |].
  intros dir. rewrite H23. apply H12.
Qed.

Lemma quiet_record e w :
  (forall dir, installed dir e = None) -> quiet w (record e w).
Proof.
  intros He. split; [| split; [| split]]; try reflexivity.
  intros dir. rewrite installs_record, He. apply app_nil_r.
Qed.

Lemma same_new dependency depBase :
  PackagePath.same dependency (PackagePath.new depBase) true
  = bool_decide (PackagePath.basePath dependency = depBase).
Proof. unfold PackagePath.same. simpl. apply andb_true_r. Qed.

(** The three ways a turn of the loop ends. *)
Lemma checkNativeDependency_passes E dependency dep w :
  reliable E ->
  passes E dependency dep = true ->
  exists w', checkNativeDependency E dependency dep w = (Normal tt, w')
             /\ quiet w w'.
Proof.
  intros Hrel. unfold passes, checkNativeDependency. rewrite same_new.
  destruct (bool_decide _).
  - intros ->. unfold bind at 1. rewrite (call_reliable _ _ _ Hrel).
    eexists; split; [reflexivity |].
    repeat (eapply quiet_trans; [| apply quiet_record; reflexivity]).
    apply quiet_refl.
  - unfold bind. rewrite (getNativeDependency_reliable _ _ _ Hrel).
    unfold ret. destruct (Manifest.getNativeDependency _ _).
    + intros ->. eexists; split; [reflexivity |].
      apply quiet_record; reflexivity.
    + intros _. eexists; split; [reflexivity |].
      apply quiet_record; reflexivity.
Qed.

Lemma checkNativeDependency_unsupported E dependency dep w :
  reliable E ->
  PackagePath.basePath dependency = PackagePath.basePath (packagePath dep) ->
  passes E dependency dep = false ->
  checkNativeDependency E dependency dep w
  = (Return None,
     record (log_error (notSupportedMessage dep))
       (record (utils_isDependencyApiOrApiImpl
                  (PackagePath.basePath (packagePath dep))) w)).
Proof.
  intros Hrel. unfold passes, checkNativeDependency. rewrite same_new.
  intros Hb. rewrite bool_decide_eq_true_2 by exact Hb. intros ->.
  unfold bind at 1. rewrite (call_reliable _ _ _ Hrel). reflexivity.
Qed.

Lemma checkNativeDependency_conflict E dependency dep w :
  reliable E ->
  PackagePath.basePath dependency <> PackagePath.basePath (packagePath dep) ->
  passes E dependency dep = false ->
  checkNativeDependency E dependency dep w
  = (Throw (Error (transitiveMessage dep)),
     record (manifest_getNativeDependency
               (PackagePath.new (PackagePath.basePath (packagePath dep)))) w).
Proof.
  intros Hrel. unfold passes, checkNativeDependency. rewrite same_new.
  intros Hb. rewrite bool_decide_eq_false_2 by exact Hb.
  unfold bind. rewrite (getNativeDependency_reliable _ _ _ Hrel).
  destruct (Manifest.getNativeDependency _ _); [| discriminate].
  intros ->. reflexivity.
Qed.

(** The loop runs to its end when every scanned entry passes. *)
Lemma checkNativeDependencies_pass E dependency deps : forall w,
  reliable E ->
  forallb (passes E dependency) deps = true ->
  exists w', checkNativeDependencies E dependency deps w = (Normal tt, w')
             /\ quiet w w'.
Proof.
  induction deps as [| dep deps IH]; intros w Hrel Hall; simpl in *.
  - eexists; split; [reflexivity | apply quiet_refl].
  - apply andb_true_iff in Hall as [Hdep Hdeps].
    destruct (checkNativeDependency_passes E dependency dep w Hrel Hdep)
      as (w1 & Hturn & Hq1).
    destruct (IH w1 Hrel Hdeps) as (w2 & Hrest & Hq2).
    exists w2. split; [| eapply quiet_trans; eassumption].
    unfold bind. rewrite Hturn. exact Hrest.
Qed.

(** The loop stops at the first scanned entry that does not pass, with
    what the turn of that entry gives. *)
Lemma checkNativeDependencies_stop E dependency pre dep post : forall w,
  reliable E ->
  forallb (passes E dependency) pre = true ->
  passes E dependency dep = false ->
  exists w1,
    quiet w w1
    /\ checkNativeDependencies E dependency (pre ++ dep :: post) w
       = match checkNativeDependency E dependency dep w1 with
         | (Normal _, w2) => checkNativeDependencies E dependency post w2
         | stopped => stopped
         end.
Proof.
  induction pre as [| p pre IH]; intros w Hrel Hall Hdep; simpl in *.
  - exists w. split; [apply quiet_refl |]. unfold bind.
    destruct (checkNativeDependency E dependency dep w) as [[| |] ?];
      reflexivity.
  - apply andb_true_iff in Hall as [Hp Hpre].
    destruct (checkNativeDependency_passes E dependency p w Hrel Hp)
      as (w0 & Hturn & Hq0).
    destruct (IH w0 Hrel Hpre Hdep) as (w1 & Hq1 & Hloop).
    exists w1. split; [eapply quiet_trans; eassumption |].
    unfold bind at 1. rewrite Hturn. exact Hloop.
Qed.

(** Some scanned entry does not pass: there is a first one. *)
Lemma first_failing E dependency deps :
  forallb (passes E dependency) deps = false ->
  exists pre dep post,
    deps = (pre ++ dep :: post)%list
    /\ forallb (passes E dependency) pre = true
    /\ passes E dependency dep = false.
Proof.
  induction deps as [| d deps IH]; simpl; [discriminate |].
  destruct (passes E dependency d) eqn:Hd; simpl.
  - intros H. destruct (IH H) as (pre & dep & post & -> & Hpre & Hdep).
    exists (d :: pre), dep, post. simpl. rewrite Hd. auto.
  - intros _. exists [], d, deps. auto.
Qed.

Lemma installs_scanned dir E d w :
  tmpDir E <> dir -> installs dir (scanned E d w) = installs dir w.
Proof.
  intros Hdir. unfold scanned.
  rewrite !installs_record, installs_set_cwd, !installs_record,
    installs_lookedUp.
  simpl. rewrite bool_decide_eq_false_2 by exact Hdir. simpl.
  rewrite !app_nil_r. reflexivity.
Qed.

(** What [addDependency] does with a dependency that the manifest does not
    declare: the throwaway install, the loop over what the scan found, and,
    if the loop runs to its end, the install into the MiniApp. *)
Lemma addDependency_undeclared E this d w :
  reliable E ->
  manifestDependency E d = None ->
  addDependency E this (Some d) false false w
  = let accept w' :=
      (Resolved (Some d),
       added this (fromString E (PackagePath.toString d))
         ("Adding " ++ PackagePath.toString d ++ " to " ++ name this) w') in
    match scan E d with
    | [] => accept (record (log_debug "Pure JS dependency") (scanned E d w))
    | deps =>
        match checkNativeDependencies E d deps
                (record (log_debug
                           ("One or more native dependencies identified: "
                            ++ stringify E deps)) (scanned E d w)) with
        | (Normal _, w') => accept w'
        | (Return r, w') => (Resolved r, w')
        | (Throw e, w') => (Rejected e, w')
        end
    end.
Proof.
  intros Hrel.
  unfold manifestDependency, scanned, lookedUp, scan, addDependency,
    addDependencyBody.
  cbn [orb]. unfold run, bind at 1 2.
  rewrite (getNativeDependency_reliable _ _ _ Hrel).
  destruct (Manifest.getNativeDependency _ _) eqn:Hn; [discriminate |].
  rewrite (getJsDependency_reliable _ _ _ Hrel). intros ->.
  unfold bind at 1 2 3 4 5, chdir, emit, modify.
  cbn -[checkNativeDependencies PackagePath.toString].
  rewrite !Hrel. cbn -[checkNativeDependencies PackagePath.toString].
  destruct (all _) as [| dep deps].
  - unfold bind, return_, modify, get.
    cbn -[PackagePath.toString]. rewrite ?Hrel. reflexivity.
  - unfold bind at 1 2.
    match goal with
    | |- context [checkNativeDependencies ?E ?d ?l ?w] =>
        destruct (checkNativeDependencies E d l w) as [[[] | r | e] w']
    end; try reflexivity.
    unfold bind, return_, modify, get.
    cbn -[PackagePath.toString]. rewrite ?Hrel. reflexivity.
Qed.

Lemma installs_quiet dir w w' : quiet w w' -> installs dir w' = installs dir w.
Proof. intros (_ & _ & _ & H). apply H. Qed.

Lemma last_record e w : last (trace (record e w)) = Some e.
Proof. unfold record; simpl. apply last_snoc. Qed.

(** The result of [addDependency] for an undeclared dependency when some
    scanned entry does not pass: it is decided by the first such entry. *)
Lemma addDependency_stopped E this d w pre dep post :
  reliable E ->
  manifestDependency E d = None ->
  scan E d = (pre ++ dep :: post)%list ->
  forallb (passes E d) pre = true ->
  passes E d dep = false ->
  tmpDir E <> path this ->
  exists w',
    installs (path this) w' = installs (path this) w
    /\ if bool_decide (PackagePath.basePath d
                       = PackagePath.basePath (packagePath dep))
       then addDependency E this (Some d) false false w = (Resolved None, w')
            /\ last (trace w') = Some (log_error (notSupportedMessage dep))
       else addDependency E this (Some d) false false w
            = (Rejected (Error (transitiveMessage dep)), w').
Proof.
  intros Hrel Hm Hscan Hpre Hdep Htmp.
  rewrite (addDependency_undeclared _ _ _ _ Hrel Hm), Hscan. cbv zeta.
  destruct (checkNativeDependencies_stop E d pre dep post
              (record (log_debug
                         ("One or more native dependencies identified: "
                          ++ stringify E (pre ++ dep :: post)))
                 (scanned E d w)) Hrel Hpre Hdep) as (w1 & Hq & Hloop).
  assert (Hw1 : installs (path this) w1 = installs (path this) w).
  { rewrite (installs_quiet _ _ _ Hq), installs_record. simpl.
    rewrite app_nil_r. apply installs_scanned, Htmp. }
  assert (Hcons : exists x l, (pre ++ dep :: post)%list = x :: l).
  { destruct pre; simpl; eauto. }
  destruct Hcons as (x & l & Hcons). rewrite Hcons in *.
  rewrite Hloop. clear Hloop.
  destruct (decide (PackagePath.basePath d
                    = PackagePath.basePath (packagePath dep))) as [Hb | Hb].
  - rewrite (checkNativeDependency_unsupported _ _ _ _ Hrel Hb Hdep).
    rewrite bool_decide_eq_true_2 by exact Hb.
    eexists. split; [| split; [reflexivity | apply last_record]].
    rewrite !installs_record. simpl. rewrite !app_nil_r. exact Hw1.
  - rewrite (checkNativeDependency_conflict _ _ _ _ Hrel Hb Hdep).
    rewrite bool_decide_eq_false_2 by exact Hb.
    eexists. split; [| reflexivity].
    rewrite installs_record. simpl. rewrite app_nil_r. exact Hw1.
Qed.

(** The result of [addDependency] for an undeclared dependency when every
    scanned entry passes: the dependency is added as it is. *)
Lemma addDependency_passed E this d w :
  reliable E ->
  manifestDependency E d = None ->
  forallb (passes E d) (scan E d) = true ->
  tmpDir E <> path this ->
  exists w',
    addDependency E this (Some d) false false w = (Resolved (Some d), w')
    /\ installs (path this) w'
       = (installs (path this) w
          ++ [(fromString E (PackagePath.toString d), NoOptions)])%list.
Proof.
  intros Hrel Hm Hall Htmp.
  rewrite (addDependency_undeclared _ _ _ _ Hrel Hm). cbv zeta.
  destruct (scan E d) as [| x l] eqn:Hscan.
  - eexists. split; [reflexivity |].
    rewrite installs_added, installs_record, installs_scanned by exact Htmp.
    rewrite bool_decide_eq_true_2 by reflexivity. simpl.
    rewrite app_nil_r. reflexivity.
  - destruct (checkNativeDependencies_pass E d (x :: l)
                (record (log_debug
                           ("One or more native dependencies identified: "
                            ++ stringify E (x :: l)))
                   (scanned E d w)) Hrel Hall) as (w1 & Hloop & Hq).
    rewrite Hloop. eexists. split; [reflexivity |].
    rewrite installs_added, (installs_quiet _ _ _ Hq), installs_record,
      installs_scanned by exact Htmp.
    rewrite bool_decide_eq_true_2 by reflexivity. simpl.
    rewrite app_nil_r. reflexivity.
Qed.

Lemma last_char_app (x s : string) :
  s <> EmptyString -> last_char (x ++ s) = last_char s.
Proof.
  intros Hs. induction x as [| a x IH]; [reflexivity |].
  simpl. rewrite IH. destruct (x ++ s) eqn:Hx; [| reflexivity].
  destruct x; simpl in Hx; [contradiction | discriminate].
Qed.

(** *** A native candidate that the manifest does not declare *)

(** C1, amended. For a candidate that the manifest does not declare, whose
    throwaway install contains a native dependency of the candidate's base
    path, and that is not an api or api-impl: [addDependency] does not add
    the candidate to the MiniApp and gives no PackagePath.  The loop over
    the scan leaves at the first entry that fails: when that entry is of
    another package, which the manifest has at another version, the
    promise is rejected with the error of that transitive dependency, not
    with one about the candidate.  How the promise is settled when the
    first entry that fails is the candidate's own is left open here.  (The
    calls of the collaborators succeed, and the throwaway directory is not
    the directory of the MiniApp.) *)
Theorem addDependency_unsupported E this d w :
  reliable E ->
  manifestDependency E d = None ->
  (exists own, In own (scan E d)
               /\ PackagePath.basePath (packagePath own)
                  = PackagePath.basePath d) ->
  isDependencyApiOrApiImpl E (PackagePath.basePath d) = false ->
  tmpDir E <> path this ->
  exists pre dep post,
    scan E d = (pre ++ dep :: post)%list
    /\ forallb (passes E d) pre = true
    /\ passes E d dep = false
    /\ installs (path this)
         (snd (addDependency E this (Some d) false false w))
       = installs (path this) w
    /\ (forall p,
          fst (addDependency E this (Some d) false false w)
          <> Resolved (Some p))
    /\ (PackagePath.basePath (packagePath dep) <> PackagePath.basePath d ->
        fst (addDependency E this (Some d) false false w)
        = Rejected (Error (transitiveMessage dep))
        /\ exists manifestDep,
             Manifest.getNativeDependency (manifest E)
               (PackagePath.new (PackagePath.basePath (packagePath dep)))
             = Some manifestDep
             /\ PackagePath.version manifestDep
                <> PackagePath.version (packagePath dep)).
Proof.
  intros Hrel Hm (own & Hin & Hown) Hapi Htmp.
  assert (Hfail : forallb (passes E d) (scan E d) = false).
  { apply not_true_is_false. intros Hall.
    rewrite forallb_forall in Hall. specialize (Hall own Hin).
    unfold passes in Hall. rewrite bool_decide_eq_true_2 in Hall by congruence.
    congruence. }
  destruct (first_failing _ _ _ Hfail) as (pre & dep & post & Hs & Hpre & Hdep).
  destruct (addDependency_stopped E this d w pre dep post
              Hrel Hm Hs Hpre Hdep Htmp) as (w' & Hinst & Hres).
  exists pre, dep, post. repeat (split; [assumption |]).
  destruct (bool_decide _) eqn:Hb.
  - apply bool_decide_eq_true in Hb. destruct Hres as [-> _].
    split; [exact Hinst |]. split; [discriminate | congruence].
  - apply bool_decide_eq_false in Hb. rewrite Hres.
    split; [exact Hinst |]. split; [discriminate |]. intros _.
    split; [reflexivity |].
    unfold passes in Hdep. rewrite bool_decide_eq_false_2 in Hdep by exact Hb.
    destruct (Manifest.getNativeDependency _ _) as [m |] eqn:Hlook;
      [| discriminate].
    exists m. split; [reflexivity |]. intros Hv.
    assert (packagePath dep = m) as Heq.
    { unfold Manifest.getNativeDependency in Hlook.
      apply entry_basePath in Hlook. simpl in Hlook.
      destruct (packagePath dep), m; simpl in *; congruence. }
    apply same_eq in Heq. congruence.
Qed.

(** The candidate [some-native-lib], scanned after [react-native-maps],
    which the manifest has at another version. *)
Lemma addDependency_unsupported_witness :
  let d := PackagePath.new "some-native-lib" in
  exists pre dep post,
    scan E_native d = (pre ++ dep :: post)%list
    /\ forallb (passes E_native d) pre = true
    /\ passes E_native d dep = false
    /\ installs (path miniapp)
         (snd (addDependency E_native miniapp (Some d) false false w_start))
       = installs (path miniapp) w_start
    /\ (forall p,
          fst (addDependency E_native miniapp (Some d) false false w_start)
          <> Resolved (Some p))
    /\ (PackagePath.basePath (packagePath dep) <> PackagePath.basePath d ->
        fst (addDependency E_native miniapp (Some d) false false w_start)
        = Rejected (Error (transitiveMessage dep))
        /\ exists manifestDep,
             Manifest.getNativeDependency (manifest E_native)
               (PackagePath.new (PackagePath.basePath (packagePath dep)))
             = Some manifestDep
             /\ PackagePath.version manifestDep
                <> PackagePath.version (packagePath dep)).
Proof.
  apply (addDependency_unsupported E_native miniapp
           (PackagePath.new "some-native-lib") w_start).
  - intros e. reflexivity.
  - vm_compute; reflexivity.
  - exists (native "some-native-lib" "1.0.0"). split.
    + right. left. reflexivity.
    + reflexivity.
  - reflexivity.
  - discriminate.
Defined.

(** C1 as stated fails: the candidate [some-native-lib] is native, not
    declared and not an api, and yet [addDependency] is rejected with the
    error of the transitive dependency [react-native-maps], which is
    scanned first, and with no error about the candidate. *)
Lemma addDependency_unsupported_counterexample :
  let d := PackagePath.new "some-native-lib" in
  manifestDependency E_native d = None
  /\ In (native "some-native-lib" "1.0.0") (scan E_native d)
  /\ isDependencyApiOrApiImpl E_native (PackagePath.basePath d) = false
  /\ fst (addDependency E_native miniapp (Some d) false false w_start)
     = Rejected (Error (transitiveMessage (native "react-native-maps" "0.25.0")))
  /\ forall dep,
      fst (addDependency E_native miniapp (Some d) false false w_start)
      <> Rejected (Error (notSupportedMessage dep)).
Proof.
  cbv zeta.
  assert (Hres : fst (addDependency E_native miniapp
                        (Some (PackagePath.new "some-native-lib"))
                        false false w_start)
                 = Rejected (Error (transitiveMessage
                                      (native "react-native-maps" "0.25.0"))))
    by (vm_compute; reflexivity).
  split; [vm_compute; reflexivity |].
  split; [right; left; reflexivity |].
  split; [reflexivity |]. split; [exact Hres |].
  intros dep. rewrite Hres. intros [= H].
  apply (f_equal last_char) in H. unfold notSupportedMessage in H.
  rewrite last_char_app in H by discriminate. vm_compute in H.
  discriminate H.
Qed.

(** *** Transitive native dependencies of an undeclared candidate *)

(** C5, amended. Let the candidate be undeclared and [dep] be a scanned
    native dependency of another base path, which the loop reaches (every
    entry scanned before it passes).  (1) If the manifest has [dep]'s base
    path at a version other than the installed one, [addDependency] is
    rejected with the error "[Transitive Dependency] dep was not added to
    the MiniApp" and nothing is added.  (2) If the manifest has it at the
    installed version, or does not have it, the turn of [dep] does nothing
    but the manifest lookup and the loop goes on.  (3) When every scanned
    entry passes, the candidate is accepted: it is returned unchanged and
    added to the MiniApp.  (The calls of the collaborators succeed, and the
    throwaway directory is not the directory of the MiniApp.) *)
Theorem addDependency_transitive E this d w pre dep post :
  reliable E ->
  manifestDependency E d = None ->
  scan E d = (pre ++ dep :: post)%list ->
  PackagePath.basePath (packagePath dep) <> PackagePath.basePath d ->
  forallb (passes E d) pre = true ->
  tmpDir E <> path this ->
  let depBase := PackagePath.new (PackagePath.basePath (packagePath dep)) in
  (forall manifestDep,
     Manifest.getNativeDependency (manifest E) depBase = Some manifestDep ->
     PackagePath.version manifestDep <> PackagePath.version (packagePath dep) ->
     exists w',
       addDependency E this (Some d) false false w
       = (Rejected (Error (transitiveMessage dep)), w')
       /\ installs (path this) w' = installs (path this) w)
  /\ ((Manifest.getNativeDependency (manifest E) depBase = None
       \/ exists manifestDep,
           Manifest.getNativeDependency (manifest E) depBase = Some manifestDep
           /\ PackagePath.version manifestDep
              = PackagePath.version (packagePath dep)) ->
      passes E d dep = true
      /\ forall w1,
          checkNativeDependency E d dep w1
          = (Normal tt, record (manifest_getNativeDependency depBase) w1))
  /\ (forallb (passes E d) (scan E d) = true ->
      exists w',
        addDependency E this (Some d) false false w = (Resolved (Some d), w')
        /\ installs (path this) w'
           = (installs (path this) w
              ++ [(fromString E (PackagePath.toString d), NoOptions)])%list).
Proof.
  intros Hrel Hm Hscan Hb Hpre Htmp depBase.
  assert (Hb' : PackagePath.basePath d
                <> PackagePath.basePath (packagePath dep)) by congruence.
  split; [| split].
  - intros m Hlook Hv.
    assert (Hdep : passes E d dep = false).
    { unfold passes. rewrite bool_decide_eq_false_2 by exact Hb'.
      fold depBase. rewrite Hlook. apply not_true_is_false. intros Hs.
      apply same_eq in Hs. subst m. congruence. }
    destruct (addDependency_stopped E this d w pre dep post
                Hrel Hm Hscan Hpre Hdep Htmp) as (w' & Hinst & Hres).
    rewrite bool_decide_eq_false_2 in Hres by exact Hb'. eauto.
  - intros Hcase.
    assert (Hdep : passes E d dep = true
                   /\ forall m,
                       Manifest.getNativeDependency (manifest E) depBase
                       = Some m ->
                       PackagePath.same (packagePath dep) m false = true).
    { unfold passes. rewrite bool_decide_eq_false_2 by exact Hb'.
      fold depBase. destruct Hcase as [-> | (m & Hlook & Hv)].
      - split; [reflexivity | discriminate].
      - rewrite Hlook.
        assert (packagePath dep = m) as Heq.
        { unfold Manifest.getNativeDependency in Hlook.
          apply entry_basePath in Hlook. simpl in Hlook.
          destruct (packagePath dep), m; simpl in *; congruence. }
        apply same_eq in Heq. split; [exact Heq |]. congruence. }
    destruct Hdep as [Hdep Hsame]. split; [exact Hdep |].
    intros w1. unfold checkNativeDependency. rewrite same_new.
    rewrite bool_decide_eq_false_2 by exact Hb'.
    unfold bind. rewrite (getNativeDependency_reliable _ _ _ Hrel).
    fold depBase.
    destruct (Manifest.getNativeDependency (manifest E) depBase) as [m |]
      eqn:Hlook; [| reflexivity].
    rewrite (Hsame m eq_refl). reflexivity.
  - intros Hall. apply (addDependency_passed E this d w Hrel Hm Hall Htmp).
Qed.

Lemma addDependency_transitive_witness :
  let d := PackagePath.new "native-base" in
  let dep := native "react-native-maps" "0.25.0" in
  manifestDependency E_native d = None
  /\ scan E_native d = ([] ++ dep :: [])%list
  /\ Manifest.getNativeDependency (manifest E_native)
       (PackagePath.new "react-native-maps")
     = Some (PackagePath.mk "react-native-maps" (Some "0.24.0"))
  /\ exists w',
      addDependency E_native miniapp (Some d) false false w_start
      = (Rejected (Error (transitiveMessage dep)), w')
      /\ installs (path miniapp) w' = installs (path miniapp) w_start.
Proof.
  cbv zeta.
  assert (Hm : manifestDependency E_native (PackagePath.new "native-base")
               = None) by (vm_compute; reflexivity).
  assert (Hlook : Manifest.getNativeDependency (manifest E_native)
                    (PackagePath.new "react-native-maps")
                  = Some (PackagePath.mk "react-native-maps" (Some "0.24.0")))
    by (vm_compute; reflexivity).
  split; [exact Hm |]. split; [reflexivity |]. split; [exact Hlook |].
  refine (proj1 (addDependency_transitive E_native miniapp
                   (PackagePath.new "native-base") w_start []
                   (native "react-native-maps" "0.25.0") []
                   (fun e => eq_refl) Hm eq_refl _ eq_refl _) _ Hlook _);
    discriminate.
Defined.

(** C5 as stated fails: [other-native-lib] is not declared, and its scan
    finds [react-native-maps@0.25.0], which the manifest has at 0.24.0; but
    the scan finds the candidate itself first, so that [addDependency] logs
    that the plugin is not supported and resolves with [undefined]: it is
    not rejected with the error of the transitive dependency. *)
Lemma addDependency_transitive_counterexample :
  let d := PackagePath.new "other-native-lib" in
  let dep := native "react-native-maps" "0.25.0" in
  manifestDependency E_native d = None
  /\ In dep (scan E_native d)
  /\ PackagePath.basePath (packagePath dep) <> PackagePath.basePath d
  /\ Manifest.getNativeDependency (manifest E_native)
       (PackagePath.new (PackagePath.basePath (packagePath dep)))
     = Some (PackagePath.mk "react-native-maps" (Some "0.24.0"))
  /\ fst (addDependency E_native miniapp (Some d) false false w_start)
     = Resolved None
  /\ fst (addDependency E_native miniapp (Some d) false false w_start)
     <> Rejected (Error (transitiveMessage dep)).
Proof.
  cbv zeta.
  assert (Hres : fst (addDependency E_native miniapp
                        (Some (PackagePath.new "other-native-lib"))
                        false false w_start) = Resolved None)
    by (vm_compute; reflexivity).
  split; [vm_compute; reflexivity |].
  split; [right; left; reflexivity |].
  split; [discriminate |].
  split; [vm_compute; reflexivity |].
  split; [exact Hres |].
  rewrite Hres. discriminate.
Qed.

End MiniAppFacts.

(** * Properties of [MiniApp.upgradeToPlatformVersion] *)

Module UpgradeFacts.

Import MiniApp UpgradeSpec.

Lemma untouched_refl w : untouched w w.
Proof.
  split; [| split; [| split]]; try reflexivity.
  exists []. split; [symmetry; apply app_nil_r | reflexivity].
Qed.

Lemma untouched_trans w1 w2 w3 :
  untouched w1 w2 -> untouched w2 w3 -> untouched w1 w3.
Proof.
  intros (Hf1 & Hc1 & He1 & t1 & Ht1 & Hh1) (Hf2 & Hc2 & He2 & t2 & Ht2 & Hh2).
  split; [| split; [| split]]; [congruence | congruence | congruence |].
  exists (t1 ++ t2)%list. split.
  - rewrite Ht2, Ht1. symmetry. apply app_assoc.
  - rewrite forallb_app, Hh1, Hh2. reflexivity.
Qed.

Lemma untouched_record e w : harmless e = true -> untouched w (record e w).
Proof.
  intros He. split; [| split; [| split]]; try reflexivity.
  exists [e]. split; [reflexivity |]. simpl. rewrite He. reflexivity.
Qed.

(** A turn of the loop over the manifest's dependencies ends normally or
    with a TypeError, and leaves the disk untouched. *)
Lemma upgradeDependency_untouched manifestDependency w :
  exists c w',
    upgradeDependency manifestDependency w = (c, w')
    /\ untouched w w'
    /\ (c = Normal tt \/ exists m, c = Throw (TypeError m)).
Proof.
  unfold upgradeDependency, bind, get.
  destruct (PackageJson.dependencies (packageJson w)) as [deps |].
  - destruct (truthy_version _); [destruct (negb _) |].
    + do 2 eexists. split; [reflexivity |]. split; [| left; reflexivity].
      unfold emit, modify.
      split; [| split; [| split]]; try reflexivity.
      eexists [_]. split; reflexivity.
    + do 2 eexists. split; [reflexivity |].
      split; [apply untouched_refl | left; reflexivity].
    + do 2 eexists. split; [reflexivity |].
      split; [apply untouched_refl | left; reflexivity].
  - do 2 eexists. split; [reflexivity |].
    split; [apply untouched_refl | right; eauto].
Qed.

Lemma upgradeDependencies_untouched manifestDependencies : forall w,
  exists c w',
    upgradeDependencies manifestDependencies w = (c, w')
    /\ untouched w w'
    /\ (c = Normal tt \/ exists m, c = Throw (TypeError m)).
Proof.
  induction manifestDependencies as [| md rest IH]; intros w; simpl.
  - do 2 eexists. split; [reflexivity |].
    split; [apply untouched_refl | left; reflexivity].
  - destruct (upgradeDependency_untouched md w)
      as (c1 & w1 & Hturn & Hu1 & [-> | (m & ->)]).
    + destruct (IH w1) as (c2 & w2 & Hrest & Hu2 & Hc2).
      exists c2, w2. unfold bind. rewrite Hturn.
      split; [exact Hrest |].
      split; [eapply untouched_trans; eassumption | exact Hc2].
    + do 2 eexists. unfold bind. rewrite Hturn.
      split; [reflexivity |]. split; [exact Hu1 | right; eauto].
Qed.

(** C10. When the package.json of the MiniApp has no [ern] object,
    [upgradeToPlatformVersion] is rejected, and up to then nothing was
    written: the files on disk are the same, the working directory is the
    same, and the trace has gained no [fs.writeFileSync] and no [yarn
    install]. *)
Theorem upgradeToPlatformVersion_without_ern E this versionToUpgradeTo w :
  PackageJson.ern (packageJson w) = None ->
  exists e w',
    upgradeToPlatformVersion E this versionToUpgradeTo w = (Rejected e, w')
    /\ files w' = files w
    /\ cwd w' = cwd w
    /\ exists t, trace w' = (trace w ++ t)%list /\ forallb harmless t = true.
Proof.
  intros Hern.
  unfold upgradeToPlatformVersion, upgradeToPlatformVersionBody, run.
  unfold bind at 1. rewrite MiniAppFacts.call_run.
  set (w0 := record (manifest_getJsAndNativeDependencies versionToUpgradeTo) w).
  assert (Hu0 : untouched w w0) by (apply untouched_record; reflexivity).
  destruct (fails E _) as [e |].
  - exists e, w0. split; [reflexivity |].
    destruct Hu0 as (? & ? & ? & ?). auto.
  - cbv zeta. unfold bind at 1.
    destruct (upgradeDependencies_untouched
                (getJsAndNativeDependencies E versionToUpgradeTo) w0)
      as (c & w1 & Hloop & Hu1 & Hc).
    rewrite Hloop.
    pose proof (untouched_trans _ _ _ Hu0 Hu1) as (Hf & Hc' & He & Ht).
    destruct Hc as [-> | (m & ->)].
    + unfold bind, get. rewrite He, Hern.
      do 2 eexists. split; [reflexivity |]. auto.
    + do 2 eexists. split; [reflexivity |]. auto.
Qed.

(** A package.json without [ern]: the upgrade is rejected and the file on
    disk keeps its content. *)
Lemma upgradeToPlatformVersion_without_ern_witness :
  PackageJson.ern (packageJson MiniAppSpec.w_start) = None
  /\ exists e w',
      upgradeToPlatformVersion E_upgrade
        {| path := "/miniapp"; name := "miniapp" |} "0.31.0"
        MiniAppSpec.w_start = (Rejected e, w')
      /\ files w' = files MiniAppSpec.w_start
      /\ cwd w' = cwd MiniAppSpec.w_start
      /\ exists t, trace w' = (trace MiniAppSpec.w_start ++ t)%list
                   /\ forallb harmless t = true.
Proof.
  split; [reflexivity |].
  apply (upgradeToPlatformVersion_without_ern E_upgrade
           {| path := "/miniapp"; name := "miniapp" |} "0.31.0"
           MiniAppSpec.w_start).
  reflexivity.
Defined.

(** With an [ern] object the upgrade goes through: the dependency that
    the MiniApp has is moved to the manifest's version, no dependency is
    added, and the package.json is written. *)
Lemma upgradeToPlatformVersion_with_ern :
  let r := upgradeToPlatformVersion E_upgrade
             {| path := "/miniapp"; name := "miniapp" |} "0.31.0" w_ern in
  fst r = Resolved tt
  /\ files (snd r) !! "/miniapp/package.json" = Some "0.31.0"
  /\ PackageJson.dependencies (packageJson (snd r))
     = Some {[ "react-native" := Some "0.59.0" ]}.
Proof. vm_compute. repeat split. Qed.

End UpgradeFacts.

(** * Properties of [syncCauldronContainer] *)

Module SyncFacts.

Import Sync SyncSpec.

(** ** The native dependencies handed to the Cauldron *)

Lemma differenceBy_elem_of {A B : Type} `{EqDecision B}
    (array values : list A) (iteratee : A -> B) (x : A) :
  x ∈ differenceBy array values iteratee
  <-> x ∈ array /\ iteratee x ∉ iteratee <$> values.
Proof. unfold differenceBy. rewrite list_elem_of_filter. tauto. Qed.

Lemma differenceBy_NoDup {A B : Type} `{EqDecision B}
    (array values : list A) (iteratee : A -> B) :
  NoDup (iteratee <$> array) ->
  NoDup (iteratee <$> differenceBy array values iteratee).
Proof.
  unfold differenceBy. induction array as [| a array IH]; simpl.
  - intros _. constructor.
  - rewrite NoDup_cons. intros [Ha Hnd]. rewrite filter_cons.
    destruct (decide _); [| exact (IH Hnd)].
    simpl. apply NoDup_cons. split; [| exact (IH Hnd)].
    intros Hin. apply Ha. apply list_elem_of_fmap in Hin as (y & Hy & Hin).
    apply list_elem_of_filter in Hin as [_ Hin].
    apply list_elem_of_fmap. eauto.
Qed.

(** The list that the sync computes is the discovered dependencies
    together with the current ones whose base path was not discovered. *)
Lemma nativeDependencies_union (current discovered : list PackagePath) :
  let result := nativeDependencies current discovered in
  (forall d, d ∈ result
             <-> d ∈ discovered
                 \/ (d ∈ current
                     /\ PackagePath.basePath d
                        ∉ PackagePath.basePath <$> discovered))
  /\ (forall d, d ∈ result ->
                PackagePath.basePath d ∈ PackagePath.basePath <$> discovered ->
                d ∈ discovered)
  /\ (NoDup (PackagePath.basePath <$> current) ->
      NoDup (PackagePath.basePath <$> discovered) ->
      NoDup (PackagePath.basePath <$> result)).
Proof.
  cbv zeta. unfold nativeDependencies.
  assert (Hmem : forall d,
    d ∈ (differenceBy current discovered PackagePath.basePath
         ++ discovered)%list
    <-> d ∈ discovered
        \/ (d ∈ current
            /\ PackagePath.basePath d ∉ PackagePath.basePath <$> discovered)).
  { intros d. rewrite elem_of_app, differenceBy_elem_of. tauto. }
  split; [exact Hmem |]. split.
  - intros d Hd Hbase. apply Hmem in Hd as [Hd | [_ Hd]];
      [exact Hd | contradiction].
  - intros Hc Hd. rewrite fmap_app. apply NoDup_app.
    split; [apply differenceBy_NoDup, Hc |]. split; [| exact Hd].
    intros b Hb. apply list_elem_of_fmap in Hb as (x & -> & Hx).
    apply differenceBy_elem_of in Hx as [_ Hx]. exact Hx.
Qed.

(** ** A program logic for the bodies of the functions *)

Lemma triple_ret {A} (P : world -> Prop) (a : A) Q X :
  (forall w, P w -> Q a w) -> triple P (ret a) Q X.
Proof. intros H w Hw. apply H, Hw. Qed.

Lemma triple_throw {A} (P : world -> Prop) e (Q : A -> world -> Prop) X :
  (forall w, P w -> X e w) -> triple P (throw e) Q X.
Proof. intros H w Hw. apply H, Hw. Qed.

Lemma triple_modify (P : world -> Prop) f Q X :
  (forall w, P w -> Q tt (f w)) -> triple P (modify f) Q X.
Proof. intros H w Hw. apply H, Hw. Qed.

Lemma triple_get (P : world -> Prop) Q X :
  (forall w, P w -> Q w w) -> triple P get Q X.
Proof. intros H w Hw. apply H, Hw. Qed.

Lemma triple_bind {A B} (P : world -> Prop) (m : M world unit A)
    (k : A -> M world unit B) R Q X :
  triple P m R X -> (forall a, triple (R a) (k a) Q X) ->
  triple P (bind m k) Q X.
Proof.
  intros Hm Hk w Hw. unfold bind. specialize (Hm w Hw).
  destruct (m w) as [[a | r | e] w']; [| contradiction | exact Hm].
  apply (Hk a w' Hm).
Qed.

Lemma triple_pure {A} (phi : Prop) (P : world -> Prop) (m : M world unit A)
    Q X :
  (phi -> triple P m Q X) -> triple (fun w => phi /\ P w) m Q X.
Proof. intros H w [Hphi Hw]. apply (H Hphi w Hw). Qed.

Section TryBlock.

Variable E : env.
(** The world in which the [try] block is entered. *)
Variable w0 : world.

Local Abbreviation at_ := (SyncSpec.at_ w0).
Local Abbreviation thrown := (SyncSpec.thrown w0).
Local Abbreviation untouched := (SyncSpec.untouched w0).
Local Abbreviation begun := (SyncSpec.begun w0).
Local Abbreviation in_transaction := (SyncSpec.in_transaction w0).
Local Abbreviation committed := (SyncSpec.committed w0).
Local Abbreviation newContainerVersion := (SyncSpec.newContainerVersion E).

Lemma quiet_snoc t e :
  is_publish e = false -> is_begin e = false ->
  quiet_trace t -> quiet_trace (t ++ [e]).
Proof.
  intros Hp Hb [H1 H2]. unfold quiet_trace.
  rewrite !existsb_app, H1, H2. simpl. rewrite Hp, Hb. auto.
Qed.

Lemma unpublished_snoc t e :
  is_publish e = false -> unpublished t -> unpublished (t ++ [e]).
Proof.
  intros Hp H. unfold unpublished in *. rewrite existsb_app, H. simpl.
  rewrite Hp. reflexivity.
Qed.

Lemma quiet_unpublished_snoc t e :
  is_publish e = false -> quiet_trace t -> unpublished (t ++ [e]).
Proof. intros Hp [H _]. apply unpublished_snoc; assumption. Qed.

Lemma untouched_thrown e w : at_ untouched quiet_trace w -> thrown e w.
Proof.
  intros [Hs (t & Ht & Hp & Hb)]. split; [rewrite Hs; reflexivity |].
  exists t. split; [exact Ht |]. split; [exact Hp |]. congruence.
Qed.

Lemma begun_thrown e w : at_ begun unpublished w -> thrown e w.
Proof.
  intros [[Hs Hc] (t & Ht & Hp)]. split; [rewrite Hs; reflexivity |].
  exists t. auto.
Qed.

Lemma in_transaction_thrown psi e w :
  at_ (in_transaction psi) unpublished w -> thrown e w.
Proof.
  intros [(Hc & _ & Hs & _) (t & Ht & Hp)]. split; [exact Hs |].
  exists t. auto.
Qed.

(** The primitives. *)
Lemma emit_at phi tphi tphi' e X :
  (forall t, tphi t -> tphi' (t ++ [e])%list) ->
  triple (at_ phi tphi) (emit e) (fun _ => at_ phi tphi') X.
Proof.
  intros Ht. apply triple_modify. intros w [Hphi (t & Hw & Htphi)].
  split; [exact Hphi |]. exists (t ++ [e])%list. split; [| auto].
  simpl. rewrite Hw. symmetry. apply app_assoc.
Qed.

Lemma call_at phi tphi tphi' e X :
  (forall t, tphi t -> tphi' (t ++ [e])%list) ->
  (forall err w, at_ phi tphi' w -> X err w) ->
  triple (at_ phi tphi) (call E e) (fun _ => at_ phi tphi') X.
Proof.
  intros Ht HX. unfold call. eapply triple_bind.
  - apply emit_at, Ht.
  - intros []. destruct (fails E e) as [err |].
    + apply triple_throw. intros w. apply HX.
    + apply triple_ret. auto.
Qed.

Lemma method_at phi tphi tphi' name e X :
  (forall t, tphi t -> tphi' (t ++ [e])%list) ->
  (forall err w, at_ phi tphi w -> X err w) ->
  (forall err w, at_ (fun s c => phi s c /\ c = true) tphi' w -> X err w) ->
  triple (at_ phi tphi) (method E name e)
    (fun _ => at_ (fun s c => phi s c /\ c = true) tphi') X.
Proof.
  intros Ht HX HX' w Hw. unfold method, bind, get. simpl.
  destruct (cauldron w) eqn:Hc.
  - assert (Hpre : at_ (fun s c => phi s c /\ c = true) tphi w).
    { destruct Hw as [Hphi Htr].
      split; [split; [exact Hphi | exact Hc] | exact Htr]. }
    apply (call_at (fun s c => phi s c /\ c = true) tphi tphi' e X Ht HX').
    exact Hpre.
  - apply HX, Hw.
Qed.

Lemma mutate_at phi phi' tphi f X :
  (forall s c, phi s c -> phi' (Cauldron.mutate f s) c) ->
  triple (at_ phi tphi) (mutate f) (fun _ => at_ phi' tphi) X.
Proof.
  intros Hf. apply triple_modify. intros w [Hphi Htr].
  split; [apply Hf, Hphi | exact Htr].
Qed.

Lemma mutate_in_transaction psi psi' f s c :
  (forall d, psi d -> psi' (f d)) ->
  in_transaction psi s c -> in_transaction psi' (Cauldron.mutate f s) c.
Proof.
  intros Hf (Hc & Hw0 & Hp & d & Hd & Hpsi). unfold Cauldron.mutate.
  rewrite Hd. split; [exact Hc |]. split; [exact Hw0 |].
  split; [exact Hp |]. exists (f d). auto.
Qed.

Lemma method_untouched name e :
  is_publish e = false -> is_begin e = false ->
  triple (at_ untouched quiet_trace) (method E name e)
    (fun _ => at_ untouched quiet_trace) thrown.
Proof.
  intros Hp Hb. intros w Hw.
  pose proof (method_at untouched quiet_trace quiet_trace name e thrown
                (fun t => quiet_snoc t e Hp Hb)
                (fun err w => untouched_thrown err w)
                (fun err w H =>
                   untouched_thrown err w
                     (conj (proj1 (proj1 H)) (proj2 H))) w Hw) as H.
  destruct (method E name e w) as [[[] | | err] w']; try exact H.
  destruct H as [[Hs _] Htr]. split; assumption.
Qed.

Lemma method_begin name :
  triple (at_ untouched quiet_trace)
    (method E name cauldron_beginTransaction)
    (fun _ => at_ begun unpublished) thrown.
Proof.
  apply (method_at untouched quiet_trace unpublished name
           cauldron_beginTransaction thrown).
  - intros t. apply quiet_unpublished_snoc. reflexivity.
  - apply untouched_thrown.
  - intros err w. apply begun_thrown.
Qed.

Lemma method_in_transaction psi name e :
  is_publish e = false ->
  triple (at_ (in_transaction psi) unpublished) (method E name e)
    (fun _ => at_ (in_transaction psi) unpublished) thrown.
Proof.
  intros Hp w Hw.
  pose proof (method_at (in_transaction psi) unpublished unpublished name e
                thrown (fun t => unpublished_snoc t e Hp)
                (in_transaction_thrown psi)
                (fun err w H =>
                   in_transaction_thrown psi err w
                     (conj (proj1 (proj1 H)) (proj2 H))) w Hw) as H.
  destruct (method E name e w) as [[[] | | err] w']; try exact H.
  destruct H as [[Hs _] Htr]. split; assumption.
Qed.

Lemma call_in_transaction psi e :
  is_publish e = false ->
  triple (at_ (in_transaction psi) unpublished) (call E e)
    (fun _ => at_ (in_transaction psi) unpublished) thrown.
Proof.
  intros Hp. apply call_at.
  - intros t. apply unpublished_snoc, Hp.
  - apply in_transaction_thrown.
Qed.

Lemma emit_in_transaction psi e :
  is_publish e = false ->
  triple (at_ (in_transaction psi) unpublished) (emit e)
    (fun _ => at_ (in_transaction psi) unpublished) thrown.
Proof. intros Hp. apply emit_at. intros t. apply unpublished_snoc, Hp. Qed.

Lemma mutate_in_transaction_triple psi psi' f :
  (forall d, psi d -> psi' (f d)) ->
  triple (at_ (in_transaction psi) unpublished) (mutate f)
    (fun _ => at_ (in_transaction psi') unpublished) thrown.
Proof.
  intros Hf. apply mutate_at. intros s c. apply mutate_in_transaction, Hf.
Qed.

Lemma view_any phi tphi X :
  triple (at_ phi tphi) view (fun _ => at_ phi tphi) X.
Proof. intros w Hw. exact Hw. Qed.

Lemma view_untouched tphi X :
  triple (at_ untouched tphi) view
    (fun d w => d = Cauldron.view (store w0) /\ at_ untouched tphi w) X.
Proof.
  intros w Hw. split; [| exact Hw]. destruct Hw as [Hs _].
  simpl. rewrite Hs. reflexivity.
Qed.

Ltac tx :=
  eapply triple_bind;
  [ first [ apply method_in_transaction; reflexivity
          | apply call_in_transaction; reflexivity
          | apply emit_in_transaction; reflexivity
          | apply view_any ]
  | intros ? ].

Lemma tryBlock_triple stateUpdateFunc napDescriptor commitMessage
    containerVersion outDir :
  triple (at_ untouched quiet_trace)
    (tryBlock E stateUpdateFunc napDescriptor commitMessage containerVersion
       outDir)
    (fun v w =>
       v = newContainerVersion containerVersion (Cauldron.view (store w0))
       /\ at_ (committed (fun d => Cauldron.containerVersion d = v))
            unpublished w)
    thrown.
Proof.
  unfold tryBlock.
  eapply triple_bind.
  { apply call_at with (tphi' := quiet_trace).
    - intros t. apply quiet_snoc; reflexivity.
    - apply untouched_thrown. }
  intros [].
  eapply triple_bind.
  { apply triple_modify with (Q := fun _ => at_ untouched quiet_trace).
    intros w Hw. exact Hw. }
  intros [].
  eapply triple_bind with
    (R := fun v w =>
            v = newContainerVersion containerVersion
                  (Cauldron.view (store w0))
            /\ at_ untouched quiet_trace w).
  { unfold SyncSpec.newContainerVersion. destruct (truthy containerVersion).
    - apply triple_ret. auto.
    - eapply triple_bind; [apply method_untouched; reflexivity |].
      intros []. eapply triple_bind; [apply view_untouched |].
      intros napVersion. cbv beta. apply triple_pure. intros ->.
      eapply triple_bind with
        (R := fun stored w =>
           stored = (if Cauldron.detachContainerVersionFromRoot
                          (Cauldron.view (store w0))
                     then Cauldron.containerVersion (Cauldron.view (store w0))
                     else Cauldron.topLevelContainerVersion
                            (Cauldron.view (store w0)))
           /\ at_ untouched quiet_trace w).
      + destruct (Cauldron.detachContainerVersionFromRoot _).
        * eapply triple_bind; [apply method_untouched; reflexivity |].
          intros []. eapply triple_bind; [apply view_untouched |].
          intros d. cbv beta. apply triple_pure. intros ->.
          apply triple_ret. auto.
        * eapply triple_bind; [apply method_untouched; reflexivity |].
          intros []. eapply triple_bind; [apply view_untouched |].
          intros d. cbv beta. apply triple_pure. intros ->.
          apply triple_ret. auto.
      + intros stored. cbv beta. apply triple_pure. intros ->.
        destruct (if Cauldron.detachContainerVersionFromRoot _ then _ else _)
          as [v |] eqn:Hstored.
        * destruct (truthy (Some v)); apply triple_ret; auto.
        * apply triple_ret; auto. }
  intros v. cbv beta. apply triple_pure. intros Hv.
  eapply triple_bind; [apply method_begin |]. intros [].
  eapply triple_bind.
  { apply triple_get with
      (Q := fun w1 w => w1 = w /\ at_ begun unpublished w). auto. }
  intros w1.
  eapply triple_bind with
    (R := fun _ => at_ (in_transaction (fun _ => True)) unpublished).
  { intros w [<- Hw]. destruct Hw as [[Hs Hc] Htr].
    unfold Cauldron.beginTransaction. rewrite Hs.
    destruct (Cauldron.working (store w0)) eqn:Hw0.
    - apply begun_thrown. split; [split |]; assumption.
    - unfold modify, SyncSpec.at_, SyncSpec.in_transaction. simpl.
      split; [| exact Htr].
      split; [exact Hc |]. split; [exact Hw0 |].
      split; [reflexivity |]. eauto. }
  intros [].
  eapply triple_bind; [apply emit_in_transaction; reflexivity |]. intros [].
  eapply triple_bind; [apply view_any |]. intros d.
  eapply triple_bind;
    [apply mutate_in_transaction_triple with (psi' := fun _ => True); auto |].
  intros [].
  eapply triple_bind with
    (R := fun _ => at_ (in_transaction (fun _ => True)) unpublished).
  { destruct (stateUpdateFunc d).2.
    - apply triple_throw. intros w. apply in_transaction_thrown.
    - apply triple_ret. auto. }
  intros [].
  do 10 tx.
  eapply triple_bind;
    [apply mutate_in_transaction_triple with (psi' := fun _ => True); auto |].
  intros [].
  do 3 tx.
  eapply triple_bind;
    [apply mutate_in_transaction_triple
       with (psi' := fun d => Cauldron.containerVersion d = v);
     reflexivity |].
  intros [].
  tx.
  eapply triple_bind;
    [apply mutate_in_transaction_triple
       with (psi' := fun d => Cauldron.containerVersion d = v); auto |].
  intros [].
  tx.
  eapply triple_bind;
    [apply mutate_in_transaction_triple
       with (psi' := fun d => Cauldron.containerVersion d = v); auto |].
  intros [].
  do 3 tx.
  eapply triple_bind with
    (R := fun _ => at_ (committed (fun d => Cauldron.containerVersion d = v))
                     unpublished).
  { apply triple_modify.
    intros w [(Hc & Hw0 & Hp & d' & Hd & Hpsi) Htr].
    split; [| exact Htr]. unfold SyncSpec.committed, Cauldron.commitTransaction.
    simpl. rewrite Hd. simpl. auto. }
  intros [].
  eapply triple_bind.
  { apply emit_at with (tphi' := unpublished).
    intros t. apply unpublished_snoc. reflexivity. }
  intros []. apply triple_ret. auto.
Qed.

(** The same steps, for any condition on the events that excludes the
    publishers. *)
Lemma in_transaction_thrown_any psi (tphi : list event -> Prop) e w :
  (forall t, tphi t -> unpublished t) ->
  at_ (in_transaction psi) tphi w -> thrown e w.
Proof.
  intros Hu [Hphi (t & Ht & Htphi)].
  apply (in_transaction_thrown psi). split; [exact Hphi |].
  exists t. split; [exact Ht | apply Hu, Htphi].
Qed.

Lemma method_in_transaction_any psi (tphi tphi' : list event -> Prop)
    name e :
  (forall t, tphi t -> tphi' (t ++ [e])%list) ->
  (forall t, tphi t -> unpublished t) ->
  (forall t, tphi' t -> unpublished t) ->
  triple (at_ (in_transaction psi) tphi) (method E name e)
    (fun _ => at_ (in_transaction psi) tphi') thrown.
Proof.
  intros Hstep Hu Hu' w Hw.
  pose proof (method_at (in_transaction psi) tphi tphi' name e thrown Hstep
                (fun err w => in_transaction_thrown_any psi tphi err w Hu)
                (fun err w H =>
                   in_transaction_thrown_any psi tphi' err w Hu'
                     (conj (proj1 (proj1 H)) (proj2 H))) w Hw) as H.
  destruct (method E name e w) as [[[] | | err] w']; try exact H.
  destruct H as [[Hs _] Htr]. split; assumption.
Qed.

Lemma call_in_transaction_any psi (tphi : list event -> Prop) e :
  (forall t, tphi t -> tphi (t ++ [e])%list) ->
  (forall t, tphi t -> unpublished t) ->
  triple (at_ (in_transaction psi) tphi) (call E e)
    (fun _ => at_ (in_transaction psi) tphi) thrown.
Proof.
  intros Hstep Hu. apply call_at; [exact Hstep |].
  intros err w. apply in_transaction_thrown_any, Hu.
Qed.

Lemma view_in_transaction psi (tphi : list event -> Prop) X :
  triple (at_ (in_transaction psi) tphi) view
    (fun d w => psi d /\ at_ (in_transaction psi) tphi w) X.
Proof.
  intros w Hw. split; [| exact Hw].
  destruct Hw as [(_ & _ & _ & d & Hd & Hpsi) _].
  simpl. unfold Cauldron.view. rewrite Hd. exact Hpsi.
Qed.

Lemma handed_snoc l t e :
  is_publish e = false -> handed l t -> handed l (t ++ [e]).
Proof.
  intros Hp [Hu Hin]. split; [apply unpublished_snoc; assumption |].
  apply in_or_app. left. exact Hin.
Qed.

Lemma handed_unpublished l t : handed l t -> unpublished t.
Proof. intros [Hu _]. exact Hu. Qed.

Ltac handed_tx :=
  eapply triple_bind;
  [ first [ apply method_in_transaction_any;
            [ intros ?; apply handed_snoc; reflexivity
            | apply handed_unpublished | apply handed_unpublished ]
          | apply call_in_transaction_any;
            [ intros ?; apply handed_snoc; reflexivity
            | apply handed_unpublished ]
          | apply emit_at; intros ?; apply handed_snoc; reflexivity ]
  | intros ? ].

(** The [try] block that runs to its end has handed to the Cauldron the
    list that the sync computes from the Cauldron as the state update
    leaves it, and has committed it. *)
Lemma tryBlock_handed stateUpdateFunc napDescriptor commitMessage
    containerVersion outDir :
  let d1 := updated stateUpdateFunc w0 in
  let l := nativeDependencies (Cauldron.nativeDependencies d1)
             (resolved E d1) in
  triple (at_ untouched quiet_trace)
    (tryBlock E stateUpdateFunc napDescriptor commitMessage containerVersion
       outDir)
    (fun _ =>
       at_ (committed (fun d => Cauldron.nativeDependencies d = l))
         (handed l))
    thrown.
Proof.
  intros d1 l. unfold tryBlock.
  eapply triple_bind.
  { apply call_at with (tphi' := quiet_trace).
    - intros t. apply quiet_snoc; reflexivity.
    - apply untouched_thrown. }
  intros [].
  eapply triple_bind.
  { apply triple_modify with (Q := fun _ => at_ untouched quiet_trace).
    intros w Hw. exact Hw. }
  intros [].
  eapply triple_bind with (R := fun _ => at_ untouched quiet_trace).
  { destruct (truthy containerVersion).
    - apply triple_ret. auto.
    - eapply triple_bind; [apply method_untouched; reflexivity |].
      intros []. eapply triple_bind; [apply view_any |].
      intros napVersion.
      eapply triple_bind with (R := fun _ => at_ untouched quiet_trace).
      + destruct (Cauldron.detachContainerVersionFromRoot _).
        * eapply triple_bind; [apply method_untouched; reflexivity |].
          intros []. eapply triple_bind; [apply view_any |].
          intros d. apply triple_ret. auto.
        * eapply triple_bind; [apply method_untouched; reflexivity |].
          intros []. eapply triple_bind; [apply view_any |].
          intros d. apply triple_ret. auto.
      + intros [v |]; [destruct (truthy (Some v)) |]; apply triple_ret; auto. }
  intros v.
  eapply triple_bind; [apply method_begin |]. intros [].
  eapply triple_bind.
  { apply triple_get with
      (Q := fun w1 w => w1 = w /\ at_ begun unpublished w). auto. }
  intros w1.
  eapply triple_bind with
    (R := fun _ =>
       at_ (in_transaction
              (fun d => d = Cauldron.persisted (store w0))) unpublished).
  { intros w [<- Hw]. destruct Hw as [[Hs Hc] Htr].
    unfold Cauldron.beginTransaction. rewrite Hs.
    destruct (Cauldron.working (store w0)) eqn:Hw0.
    - apply begun_thrown. split; [split |]; assumption.
    - unfold modify, SyncSpec.at_, SyncSpec.in_transaction. simpl.
      split; [| exact Htr].
      split; [exact Hc |]. split; [exact Hw0 |].
      split; [reflexivity |]. eauto. }
  intros [].
  eapply triple_bind; [apply emit_in_transaction; reflexivity |]. intros [].
  eapply triple_bind; [apply view_in_transaction |]. intros d.
  cbv beta. apply triple_pure. intros ->.
  eapply triple_bind;
    [apply mutate_in_transaction_triple with (psi' := fun d => d = d1);
     reflexivity |].
  intros [].
  eapply triple_bind with
    (R := fun _ => at_ (in_transaction (fun d => d = d1)) unpublished).
  { destruct (stateUpdateFunc _).2.
    - apply triple_throw. intros w. apply in_transaction_thrown.
    - apply triple_ret. auto. }
  intros [].
  do 5 tx.
  eapply triple_bind; [apply view_in_transaction |]. intros composite.
  cbv beta. apply triple_pure. intros ->.
  tx.
  eapply triple_bind; [apply view_in_transaction |]. intros d.
  cbv beta. apply triple_pure. intros ->.
  tx.
  fold l.
  eapply triple_bind.
  { apply method_in_transaction_any with (tphi' := handed l).
    - intros t Hu. split; [apply unpublished_snoc; [reflexivity | exact Hu] |].
      apply in_or_app. right. left. reflexivity.
    - auto.
    - apply handed_unpublished. }
  intros [].
  eapply triple_bind.
  { apply mutate_at with
      (phi' := in_transaction (fun d => Cauldron.nativeDependencies d = l)).
    intros s c.
    apply mutate_in_transaction. reflexivity. }
  intros [].
  do 3 handed_tx.
  eapply triple_bind.
  { apply mutate_at with
      (phi' := in_transaction (fun d => Cauldron.nativeDependencies d = l)).
    intros s c. apply mutate_in_transaction. auto. }
  intros [].
  handed_tx.
  eapply triple_bind.
  { apply mutate_at with
      (phi' := in_transaction (fun d => Cauldron.nativeDependencies d = l)).
    intros s c. apply mutate_in_transaction. auto. }
  intros [].
  handed_tx.
  eapply triple_bind.
  { apply mutate_at with
      (phi' := in_transaction (fun d => Cauldron.nativeDependencies d = l)).
    intros s c. apply mutate_in_transaction. auto. }
  intros [].
  do 3 handed_tx.
  eapply triple_bind with
    (R := fun _ =>
       at_ (committed (fun d => Cauldron.nativeDependencies d = l))
         (handed l)).
  { apply triple_modify.
    intros w [(Hc & Hw0 & Hp & d' & Hd & Hpsi) Htr].
    split; [| exact Htr]. unfold SyncSpec.committed, Cauldron.commitTransaction.
    simpl. rewrite Hd. simpl. auto. }
  intros [].
  eapply triple_bind.
  { apply emit_at with (tphi' := handed l).
    intros t. apply handed_snoc. reflexivity. }
  intros []. apply triple_ret. auto.
Qed.

End TryBlock.

(** ** The whole function *)

Lemma syncCauldronContainer_cases E f nap msg cv w :
  truthy (platform nap) = true ->
  syncCauldronContainer E f nap msg cv w
  = match tryBlock E f nap msg cv (outDirOf E nap) (set_cauldron false w) with
    | (Normal v, w1) =>
        let w2 := record (runContainerPublishers (outDirOf E nap) v) w1 in
        match fails E (runContainerPublishers (outDirOf E nap) v) with
        | Some e => (Rejected e, w2)
        | None => (Resolved tt, w2)
        end
    | (Return r, w1) => (Resolved r, w1)
    | (Throw e, w1) => (Rejected e, caught e w1)
    end.
Proof.
  intros Hp. unfold syncCauldronContainer, syncCauldronContainerBody, run.
  rewrite Hp. cbn [negb]. fold (outDirOf E nap).
  unfold bind at 1, modify at 1. unfold bind at 1, try_catch.
  destruct (tryBlock _ _ _ _ _ _ _) as [[v | r | e] w1].
  - unfold call, emit, bind, modify. cbv zeta.
    destruct (fails E _); reflexivity.
  - reflexivity.
  - unfold catchBlock, caught, emit, bind, modify, get, throw.
    destruct (cauldron w1) eqn:Hc; simpl; rewrite Hc; reflexivity.
Qed.

Lemma entered w :
  at_ (set_cauldron false w) (untouched (set_cauldron false w)) quiet_trace
    (set_cauldron false w).
Proof.
  split; [reflexivity |]. exists []. split; [| split; reflexivity].
  symmetry. apply app_nil_r.
Qed.

Lemma existsb_is_begin t :
  In cauldron_beginTransaction t -> existsb is_begin t = true.
Proof. intros H. apply existsb_exists. eauto. Qed.

(** C7. Whenever [syncCauldronContainer] is rejected after
    [beginTransaction] was called and before the commit has completed (the
    publishers, which come next, have not been called), the last things it
    did are to log the error and to call [discardTransaction], after the
    call of [beginTransaction]; the error it is rejected with is the one
    that was raised; no transaction is left open, and the durable content
    of the Cauldron is what it was before the call. *)
Theorem syncCauldronContainer_discards E stateUpdateFunc napDescriptor
    commitMessage containerVersion w e w' t :
  syncCauldronContainer E stateUpdateFunc napDescriptor commitMessage
    containerVersion w = (Rejected e, w') ->
  trace w' = (trace w ++ t)%list ->
  In cauldron_beginTransaction t ->
  (forall p v, ~ In (runContainerPublishers p v) t) ->
  (exists t1 t2,
     t = (t1 ++ cauldron_beginTransaction :: t2
          ++ [log_error ("[syncCauldronContainer] An error occurred: "
                         ++ error_toString e);
              cauldron_discardTransaction])%list)
  /\ Cauldron.working (store w') = None
  /\ Cauldron.persisted (store w') = Cauldron.persisted (store w).
Proof.
  intros Hrun Htrace Hbegin Hpub.
  destruct (truthy (platform napDescriptor)) eqn:Hp.
  - rewrite (syncCauldronContainer_cases _ _ _ _ _ _ Hp) in Hrun.
    pose proof (tryBlock_triple E (set_cauldron false w) stateUpdateFunc
                  napDescriptor commitMessage containerVersion
                  (outDirOf E napDescriptor) _ (entered w)) as Htry.
    destruct (tryBlock _ _ _ _ _ _ _) as [[v | r | e1] w1];
      [| contradiction |].
    + (* the error comes from the publishers *)
      exfalso. cbv zeta in Hrun.
      destruct Htry as [_ [_ (t1 & Ht1 & _)]].
      destruct (fails E _); [| discriminate].
      injection Hrun as _ <-. simpl in Htrace, Ht1.
      rewrite Ht1, <- app_assoc in Htrace. apply app_inv_head in Htrace.
      apply (Hpub (outDirOf E napDescriptor) v). rewrite <- Htrace.
      apply in_or_app. right. left. reflexivity.
    + (* the error comes from the try block *)
      injection Hrun as <- <-.
      destruct Htry as [Hpers (t1 & Ht1 & _ & Hc)]. simpl in Ht1, Hpers.
      assert (Hin : In cauldron_beginTransaction t1).
      { unfold caught in Htrace.
        destruct (cauldron w1); simpl in Htrace;
          rewrite Ht1, <- ?app_assoc in Htrace;
          apply app_inv_head in Htrace; subst t;
          repeat (apply in_app_or in Hbegin as [Hbegin | Hbegin]);
          try exact Hbegin;
          destruct Hbegin as [Hbegin | []]; discriminate Hbegin. }
      specialize (Hc (existsb_is_begin _ Hin)).
      unfold caught in *. rewrite Hc in *. simpl in *.
      split; [| split; [reflexivity | exact Hpers]].
      rewrite Ht1, <- !app_assoc in Htrace. apply app_inv_head in Htrace.
      apply in_split in Hin as (a & b & ->). exists a, b.
      rewrite <- Htrace, <- app_assoc. reflexivity.
  - exfalso. unfold syncCauldronContainer, syncCauldronContainerBody, run in Hrun.
    rewrite Hp in Hrun. simpl in Hrun. injection Hrun as _ <-.
    rewrite <- (app_nil_r (trace w)) in Htrace at 1.
    apply app_inv_head in Htrace. subst t. destruct Hbegin.
Qed.

(** The commit fails: the transaction is discarded and the Cauldron keeps
    its content. *)
Lemma syncCauldronContainer_discards_witness :
  let r := syncCauldronContainer (E_with commit_fails) keep descriptor0
             (inl "sync") None w_idle in
  r = (Rejected (Error "CommitError"), snd r)
  /\ In cauldron_beginTransaction (trace (snd r))
  /\ (forall p v, ~ In (runContainerPublishers p v) (trace (snd r)))
  /\ (exists t1 t2,
        trace (snd r)
        = (t1 ++ cauldron_beginTransaction :: t2
           ++ [log_error ("[syncCauldronContainer] An error occurred: "
                          ++ error_toString (Error "CommitError"));
               cauldron_discardTransaction])%list)
  /\ Cauldron.working (store (snd r)) = None
  /\ Cauldron.persisted (store (snd r)) = Cauldron.persisted (store w_idle).
Proof.
  cbv zeta.
  set (r := syncCauldronContainer (E_with commit_fails) keep descriptor0
              (inl "sync") None w_idle).
  assert (Hrun : r = (Rejected (Error "CommitError"), snd r))
    by (vm_compute; reflexivity).
  assert (Hbegin : In cauldron_beginTransaction (trace (snd r)))
    by (vm_compute; tauto).
  assert (Hpub : forall p v, ~ In (runContainerPublishers p v) (trace (snd r))).
  { intros p v. vm_compute. intros H.
    repeat (destruct H as [H | H]; [discriminate H |]). exact H. }
  split; [exact Hrun |]. split; [exact Hbegin |]. split; [exact Hpub |].
  exact (syncCauldronContainer_discards (E_with commit_fails) keep descriptor0
           (inl "sync") None w_idle (Error "CommitError") (snd r)
           (trace (snd r)) Hrun eq_refl Hbegin Hpub).
Defined.

(** ** The container version that a sync records *)

(** C8. After a sync that succeeds no transaction is open, and the
    container version in the durable Cauldron is: the version that the
    caller pinned, if any (a non-empty string); otherwise
    [semver.inc(v, 'patch')] of the version [v] that the Cauldron had when
    the sync started; otherwise, with no such version, 1.0.0. *)
Theorem syncCauldronContainer_version E stateUpdateFunc napDescriptor
    commitMessage containerVersion w w' :
  syncCauldronContainer E stateUpdateFunc napDescriptor commitMessage
    containerVersion w = (Resolved tt, w') ->
  let recorded :=
    Cauldron.containerVersion (Cauldron.persisted (store w')) in
  let stored := storedContainerVersion (Cauldron.persisted (store w)) in
  Cauldron.working (store w') = None
  /\ (truthy containerVersion = true -> recorded = containerVersion)
  /\ (truthy containerVersion = false ->
      forall v, stored = Some v -> v <> EmptyString ->
                recorded = semver_inc_patch E v)
  /\ (truthy containerVersion = false -> truthy stored = false ->
      recorded = Some "1.0.0").
Proof.
  intros Hrun.
  destruct (truthy (platform napDescriptor)) eqn:Hp.
  - rewrite (syncCauldronContainer_cases _ _ _ _ _ _ Hp) in Hrun.
    pose proof (tryBlock_triple E (set_cauldron false w) stateUpdateFunc
                  napDescriptor commitMessage containerVersion
                  (outDirOf E napDescriptor) _ (entered w)) as Htry.
    destruct (tryBlock _ _ _ _ _ _ _) as [[v | r | e1] w1];
      [| contradiction | discriminate].
    cbv zeta in Hrun. destruct (fails E _); [discriminate |].
    injection Hrun as <-.
    destruct Htry as [Hv [(Hw0 & Hw1 & Hrec) _]]. simpl in *.
    unfold Cauldron.view in Hv. rewrite Hw0 in Hv. simpl in Hv.
    split; [exact Hw1 |]. rewrite Hrec, Hv. clear.
    unfold newContainerVersion, storedContainerVersion.
    destruct (truthy containerVersion).
    + split; [reflexivity |]. split; intros; discriminate.
    + split; [discriminate |]. split.
      * intros _ v0 -> Hne. simpl.
        destruct (String.eqb_spec v0 EmptyString); [contradiction |].
        reflexivity.
      * intros _.
        destruct (if Cauldron.detachContainerVersionFromRoot _ then _ else _)
          as [v0 |]; [| reflexivity].
        intros ->. reflexivity.
  - unfold syncCauldronContainer, syncCauldronContainerBody, run in Hrun.
    rewrite Hp in Hrun. discriminate.
Qed.

(** A sync of the Cauldron at 1.2.3 with no pinned version records 1.2.4,
    and with the version 3.0.0 pinned it records 3.0.0. *)
Lemma syncCauldronContainer_version_witness :
  let r := syncCauldronContainer (E_with never_fails) keep descriptor0
             (inl "sync") None w_idle in
  let r' := syncCauldronContainer (E_with never_fails) keep descriptor0
              (inl "sync") (Some "3.0.0") w_idle in
  (r = (Resolved tt, snd r)
   /\ Cauldron.containerVersion (Cauldron.persisted (store (snd r)))
      = Some "1.2.4")
  /\ (r' = (Resolved tt, snd r')
      /\ Cauldron.containerVersion (Cauldron.persisted (store (snd r')))
         = Some "3.0.0").
Proof.
  cbv zeta. split.
  - assert (Hrun : syncCauldronContainer (E_with never_fails) keep descriptor0
                     (inl "sync") None w_idle
                   = (Resolved tt,
                      snd (syncCauldronContainer (E_with never_fails) keep
                             descriptor0 (inl "sync") None w_idle)))
      by (vm_compute; reflexivity).
    split; [exact Hrun |].
    destruct (syncCauldronContainer_version _ _ _ _ _ _ _ Hrun)
      as (_ & _ & Hinc & _).
    apply (Hinc eq_refl "1.2.3"); [reflexivity | discriminate].
  - assert (Hrun : syncCauldronContainer (E_with never_fails) keep descriptor0
                     (inl "sync") (Some "3.0.0") w_idle
                   = (Resolved tt,
                      snd (syncCauldronContainer (E_with never_fails) keep
                             descriptor0 (inl "sync") (Some "3.0.0") w_idle)))
      by (vm_compute; reflexivity).
    split; [exact Hrun |].
    destruct (syncCauldronContainer_version _ _ _ _ _ _ _ Hrun)
      as (_ & Hpin & _).
    apply (Hpin eq_refl).
Defined.

(** ** The native dependencies that a sync records *)

(** A sync that succeeds has computed the list from the native
    dependencies of the Cauldron, read after the state update, and from
    what the Composite resolves; it has handed the list to
    [cauldron.syncContainerNativeDependencies], and the durable Cauldron
    has it. *)
Lemma syncCauldronContainer_handed E stateUpdateFunc napDescriptor
    commitMessage containerVersion w w' :
  syncCauldronContainer E stateUpdateFunc napDescriptor commitMessage
    containerVersion w = (Resolved tt, w') ->
  let l := nativeDependencies
             (Cauldron.nativeDependencies (updated stateUpdateFunc w))
             (resolved E (updated stateUpdateFunc w)) in
  Cauldron.nativeDependencies (Cauldron.persisted (store w')) = l
  /\ exists t,
       trace w' = (trace w ++ t)%list
       /\ In (cauldron_syncContainerNativeDependencies l) t.
Proof.
  intros Hrun. cbv zeta.
  destruct (truthy (platform napDescriptor)) eqn:Hp.
  - rewrite (syncCauldronContainer_cases _ _ _ _ _ _ Hp) in Hrun.
    pose proof (tryBlock_handed E (set_cauldron false w) stateUpdateFunc
                  napDescriptor commitMessage containerVersion
                  (outDirOf E napDescriptor) _ (entered w)) as Htry.
    destruct (tryBlock _ _ _ _ _ _ _) as [[v | r | e1] w1];
      [| contradiction | discriminate].
    cbv zeta in Hrun. destruct (fails E _); [discriminate |].
    injection Hrun as <-.
    destruct Htry as [(_ & _ & Hrec) (t & Ht & _ & Hin)].
    simpl in Hrec, Ht. split; [exact Hrec |].
    exists (t ++ [runContainerPublishers (outDirOf E napDescriptor) v])%list.
    split; [simpl; rewrite Ht; symmetry; apply app_assoc |].
    apply in_or_app. left. exact Hin.
  - unfold syncCauldronContainer, syncCauldronContainerBody, run in Hrun.
    rewrite Hp in Hrun. discriminate.
Qed.

(** C2. A sync that succeeds has handed to
    [cauldron.syncContainerNativeDependencies], and the durable Cauldron
    has as the native dependencies of the container, exactly the
    discovered dependencies (the ones that the Composite resolves)
    together with the current ones (the ones that the Cauldron has when
    the sync reads them, after the state update) whose base path was not
    discovered: a current entry that is not discovered again is carried
    forward as it is, a discovered base path is represented by discovered
    entries only, and, the current and the discovered dependencies being
    sets (each with one entry per base path), so is the result. *)
Theorem syncCauldronContainer_nativeDependencies E stateUpdateFunc
    napDescriptor commitMessage containerVersion w w' :
  syncCauldronContainer E stateUpdateFunc napDescriptor commitMessage
    containerVersion w = (Resolved tt, w') ->
  let current := Cauldron.nativeDependencies (updated stateUpdateFunc w) in
  let discovered := resolved E (updated stateUpdateFunc w) in
  let result :=
    Cauldron.nativeDependencies (Cauldron.persisted (store w')) in
  (exists t,
     trace w' = (trace w ++ t)%list
     /\ In (cauldron_syncContainerNativeDependencies result) t)
  /\ (forall d, d ∈ result
                <-> d ∈ discovered
                    \/ (d ∈ current
                        /\ PackagePath.basePath d
                           ∉ PackagePath.basePath <$> discovered))
  /\ (forall d, d ∈ result ->
                PackagePath.basePath d ∈ PackagePath.basePath <$> discovered ->
                d ∈ discovered)
  /\ (NoDup (PackagePath.basePath <$> current) ->
      NoDup (PackagePath.basePath <$> discovered) ->
      NoDup (PackagePath.basePath <$> result)).
Proof.
  intros Hrun current discovered result.
  destruct (syncCauldronContainer_handed _ _ _ _ _ _ _ Hrun)
    as [Hrec Hhanded].
  fold current discovered result in Hrec. rewrite Hrec.
  split; [exact Hhanded |].
  apply nativeDependencies_union.
Qed.

(** The store has [{A, B}], the Composite resolves [{B', C}]: the sync
    hands [{A, B', C}] to the Cauldron, which records it. *)
Lemma syncCauldronContainer_nativeDependencies_witness :
  let r := syncCauldronContainer (E_with never_fails) keep descriptor0
             (inl "sync") None w_idle in
  r = (Resolved tt, snd r)
  /\ Cauldron.nativeDependencies (Cauldron.persisted (store w_idle))
     = [dep_A; dep_B]
  /\ resolved (E_with never_fails) (updated keep w_idle) = [dep_B'; dep_C]
  /\ Cauldron.nativeDependencies (Cauldron.persisted (store (snd r)))
     = [dep_A; dep_B'; dep_C]
  /\ In (cauldron_syncContainerNativeDependencies [dep_A; dep_B'; dep_C])
       (trace (snd r))
  /\ NoDup (PackagePath.basePath
            <$> Cauldron.nativeDependencies
                  (Cauldron.persisted (store (snd r)))).
Proof.
  cbv zeta.
  set (r := syncCauldronContainer (E_with never_fails) keep descriptor0
              (inl "sync") None w_idle).
  assert (Hrun : r = (Resolved tt, snd r)) by (vm_compute; reflexivity).
  assert (Hrec : Cauldron.nativeDependencies
                   (Cauldron.persisted (store (snd r)))
                 = [dep_A; dep_B'; dep_C]) by (vm_compute; reflexivity).
  destruct (syncCauldronContainer_nativeDependencies (E_with never_fails)
              keep descriptor0 (inl "sync") None w_idle (snd r) Hrun)
    as ((t & Ht & Hin) & _ & _ & Hnd).
  split; [exact Hrun |]. split; [reflexivity |]. split; [reflexivity |].
  split; [exact Hrec |]. split.
  - rewrite Ht. simpl. rewrite <- Hrec. exact Hin.
  - apply Hnd; apply (bool_decide_unpack _); vm_compute; exact I.
Defined.

End SyncFacts.

(** * Laws of the computations, and of the directory stack *)

Module MonadFacts.

Lemma bind_bind {W R A B C} (m : M W R A) (f : A -> M W R B)
    (g : B -> M W R C) w :
  bind (bind m f) g w = bind m (fun x => bind (f x) g) w.
Proof. unfold bind. destruct (m w) as [[a | r | e] w']; reflexivity. Qed.

Lemma popd_pushd dir s : Shell.popd (Shell.pushd dir s) = Some s.
Proof. destruct s. reflexivity. Qed.

End MonadFacts.

(** * Properties of the native dependency list of a sync *)

Module SyncListFacts.

Import Sync SyncSpec.

Lemma differenceBy_all {A B : Type} `{EqDecision B}
    (array values : list A) (iteratee : A -> B) :
  (forall x, x ∈ array -> iteratee x ∉ iteratee <$> values) ->
  differenceBy array values iteratee = array.
Proof.
  unfold differenceBy. induction array as [| a array IH]; intros Hall.
  - reflexivity.
  - rewrite filter_cons_True by (apply Hall; left).
    f_equal. apply IH. intros x Hx. apply Hall. right. exact Hx.
Qed.

Lemma differenceBy_none {A B : Type} `{EqDecision B}
    (array values : list A) (iteratee : A -> B) :
  (forall x, x ∈ array -> iteratee x ∈ iteratee <$> values) ->
  differenceBy array values iteratee = [].
Proof.
  unfold differenceBy. induction array as [| a array IH]; intros Hall.
  - reflexivity.
  - rewrite filter_cons_False.
    + apply IH. intros x Hx. apply Hall. right. exact Hx.
    + intros Hn. apply Hn, Hall. left.
Qed.

(** X1. Handing the result of a sync to a sync with the same discovered
    dependencies gives the same list again: nothing is duplicated and
    nothing is lost. *)
Theorem nativeDependencies_idempotent (current discovered : list PackagePath) :
  nativeDependencies (nativeDependencies current discovered) discovered
  = nativeDependencies current discovered.
Proof.
  unfold nativeDependencies. f_equal.
  unfold differenceBy at 1. rewrite filter_app. fold (differenceBy
    (differenceBy current discovered PackagePath.basePath) discovered
    PackagePath.basePath).
  fold (differenceBy discovered discovered PackagePath.basePath).
  rewrite (differenceBy_none discovered), app_nil_r.
  - apply differenceBy_all. intros x Hx.
    apply list_elem_of_filter in Hx as [Hx _]. exact Hx.
  - intros x Hx. apply list_elem_of_fmap_2. exact Hx.
Qed.

Lemma nativeDependencies_basePaths (current discovered : list PackagePath)
    (b : string) :
  b ∈ PackagePath.basePath <$> nativeDependencies current discovered
  <-> b ∈ PackagePath.basePath <$> current
      \/ b ∈ PackagePath.basePath <$> discovered.
Proof.
  unfold nativeDependencies. rewrite fmap_app, elem_of_app. split.
  - intros [Hb | Hb]; [left | right; exact Hb].
    apply list_elem_of_fmap in Hb as (x & -> & Hx).
    apply list_elem_of_filter in Hx as [_ Hx].
    apply list_elem_of_fmap_2. exact Hx.
  - intros [Hb | Hb]; [| right; exact Hb].
    destruct (decide (b ∈ PackagePath.basePath <$> discovered)) as [Hd | Hd];
      [right; exact Hd | left].
    apply list_elem_of_fmap in Hb as (x & -> & Hx).
    apply list_elem_of_fmap_2. apply list_elem_of_filter. auto.
Qed.

(** X2. A sync that succeeds has handed a list to
    [cauldron.syncContainerNativeDependencies], the one that the durable
    Cauldron then has, whose base paths are those of the Cauldron, as the
    sync reads it after the state update, together with those that the
    Composite resolves: a sync never drops a base path that the Cauldron
    has, and brings in none that was not discovered. *)
Theorem syncCauldronContainer_basePaths E stateUpdateFunc napDescriptor
    commitMessage containerVersion w w' :
  syncCauldronContainer E stateUpdateFunc napDescriptor commitMessage
    containerVersion w = (Resolved tt, w') ->
  let handed := Cauldron.nativeDependencies (Cauldron.persisted (store w')) in
  (exists t,
     trace w' = (trace w ++ t)%list
     /\ In (cauldron_syncContainerNativeDependencies handed) t)
  /\ forall b,
       b ∈ PackagePath.basePath <$> handed
       <-> b ∈ PackagePath.basePath
                <$> Cauldron.nativeDependencies (updated stateUpdateFunc w)
           \/ b ∈ PackagePath.basePath
                   <$> resolved E (updated stateUpdateFunc w).
Proof.
  intros Hrun handed.
  destruct (SyncFacts.syncCauldronContainer_handed _ _ _ _ _ _ _ Hrun)
    as [Hrec Hhanded].
  cbv zeta in Hrec, Hhanded. subst handed. rewrite Hrec.
  split; [exact Hhanded |]. intros b. apply nativeDependencies_basePaths.
Qed.

(** The store has [{A, B}], the Composite resolves [{B', C}]: the base
    paths of [A], [B] and [C] are handed over, and no other. *)
Lemma syncCauldronContainer_basePaths_witness :
  let r := syncCauldronContainer (E_with never_fails) keep descriptor0
             (inl "sync") None w_idle in
  r = (Resolved tt, snd r)
  /\ forall b,
       b ∈ PackagePath.basePath
           <$> Cauldron.nativeDependencies (Cauldron.persisted (store (snd r)))
       <-> b ∈ PackagePath.basePath <$> [dep_A; dep_B]
           \/ b ∈ PackagePath.basePath <$> [dep_B'; dep_C].
Proof.
  cbv zeta.
  set (r := syncCauldronContainer (E_with never_fails) keep descriptor0
              (inl "sync") None w_idle).
  assert (Hrun : r = (Resolved tt, snd r)) by (vm_compute; reflexivity).
  split; [exact Hrun |].
  exact (proj2 (syncCauldronContainer_basePaths (E_with never_fails) keep
                  descriptor0 (inl "sync") None w_idle (snd r) Hrun)).
Defined.



End SyncListFacts.

(** * Properties of MiniApp.getJsDependencies and
      MiniApp.manifestConformingDependency *)

Module MiniAppRestFacts.

Import MiniApp MiniAppSpec MiniAppRest MiniAppRestSpec.

(** X4. When the scan of the MiniApp's [node_modules] succeeds,
    [getJsDependencies] resolves with the dependencies of the package.json
    whose base path is the base path of no native dependency, in the order
    of the package.json; it does nothing but the scan; and when the scan
    finds no native dependency, it gives all of them. *)
Theorem getJsDependencies_partition E this nativeDependenciesIn
    packageJsonDependencies w :
  let dir := path_join (path this) "node_modules" in
  let natives :=
    (fun d => PackagePath.basePath (packagePath d))
      <$> all (nativeDependenciesIn dir) in
  fails E (findNativeDependencies dir) = None ->
  exists js,
    getJsDependencies E this nativeDependenciesIn packageJsonDependencies w
    = (Resolved js, record (findNativeDependencies dir) w)
    /\ (forall d, d ∈ js
                  <-> d ∈ packageJsonDependencies
                      /\ PackagePath.basePath d ∉ natives)
    /\ sublist js packageJsonDependencies
    /\ (all (nativeDependenciesIn dir) = [] -> js = packageJsonDependencies).
Proof.
  intros dir natives Hok.
  unfold getJsDependencies, getJsDependenciesBody, getNativeDependencies,
    run_value, bind.
  fold dir. rewrite MiniAppFacts.call_run, Hok. unfold ret, return_.
  eexists. split; [reflexivity |]. fold natives. split; [| split].
  - intros d. rewrite list_elem_of_filter. tauto.
  - apply sublist_filter.
  - intros Hnil. subst natives. rewrite Hnil. simpl.
    induction packageJsonDependencies as [| p l IH]; [reflexivity |].
    rewrite filter_cons_True by apply not_elem_of_nil. f_equal. exact IH.
Qed.

Lemma getJsDependencies_partition_witness :
  let packageJsonDependencies :=
    [PackagePath.mk "react-native" (Some "0.59.0");
     PackagePath.mk "lodash" (Some "4.17.0")] in
  let natives := scan_of [native "react-native" "0.59.0"] in
  fails E_empty (findNativeDependencies "/miniapp/node_modules") = None
  /\ exists js,
      getJsDependencies E_empty miniapp natives packageJsonDependencies w_start
      = (Resolved js,
         record (findNativeDependencies "/miniapp/node_modules") w_start)
      /\ (forall d, d ∈ js
                    <-> d ∈ packageJsonDependencies
                        /\ PackagePath.basePath d
                           ∉ (fun d => PackagePath.basePath (packagePath d))
                               <$> all (natives "/miniapp/node_modules"))
      /\ sublist js packageJsonDependencies
      /\ (all (natives "/miniapp/node_modules") = [] ->
          js = packageJsonDependencies).
Proof.
  split; [reflexivity |].
  apply (getJsDependencies_partition E_empty miniapp
           (scan_of [native "react-native" "0.59.0"])
           [PackagePath.mk "react-native" (Some "0.59.0");
            PackagePath.mk "lodash" (Some "4.17.0")] w_start).
  reflexivity.
Defined.

(** X5. [manifestConformingDependency] always returns a PackagePath, the
    dependency or the manifest's: its version is the one asked for when
    one is asked for (a non-empty string), and the manifest's otherwise.
    It returns the manifest's PackagePath without a word, and the
    dependency after four warnings. *)
Theorem manifestConformingDependency_version this (dependency
    manifestDependency : PackagePath) w :
  exists p w',
    manifestConformingDependency this dependency manifestDependency w
    = (Resolved p, w')
    /\ PackagePath.version p
       = (if truthy (PackagePath.version dependency)
          then PackagePath.version dependency
          else PackagePath.version manifestDependency)
    /\ ((p = manifestDependency /\ w' = w)
        \/ (p = dependency
            /\ PackagePath.version dependency
               <> PackagePath.version manifestDependency
            /\ exists m1 m2 m3 m4,
                trace w' = (trace w ++ [log_warn m1; log_warn m2;
                                        log_warn m3; log_warn m4])%list)).
Proof.
  unfold manifestConformingDependency, manifestConformingDependencyBody,
    run_value.
  destruct (truthy (PackagePath.version dependency)) eqn:Ht; simpl.
  - destruct (bool_decide _) eqn:Hv.
    + apply bool_decide_eq_true in Hv. do 2 eexists.
      split; [reflexivity |]. split; [symmetry; exact Hv | left; auto].
    + apply bool_decide_eq_false in Hv. do 2 eexists.
      split; [reflexivity |]. split; [reflexivity | right].
      split; [reflexivity |]. split; [exact Hv |].
      do 4 eexists. simpl. rewrite <- !app_assoc. reflexivity.
  - do 2 eexists. split; [reflexivity |]. split; [reflexivity | left; auto].
Qed.

(** X6. For a dependency that the manifest declares, [addDependency] and
    [manifestConformingDependency] agree wherever [addDependency] accepts:
    the PackagePath it resolves with is the one that
    [manifestConformingDependency] returns, without a warning.  They part
    on a version mismatch: [addDependency] is rejected, and
    [manifestConformingDependency] returns the dependency with its own
    version. *)
Theorem addDependency_conforming E this d m w :
  reliable E ->
  manifestDependency E d = Some m ->
  match fst (addDependency E this (Some d) false false w) with
  | Resolved (Some p) =>
      manifestConformingDependency this d m w = (Resolved p, w)
  | Resolved None => False
  | Rejected e =>
      e = Error (versionMismatchMessage d)
      /\ fst (manifestConformingDependency this d m w) = Resolved d
  end.
Proof.
  intros Hrel Hm.
  rewrite (MiniAppFacts.addDependency_declared _ _ _ _ _ Hrel Hm).
  pose proof (MiniAppFacts.manifestDependency_basePath _ _ _ Hm) as Hb.
  unfold manifestConformingDependency, manifestConformingDependencyBody,
    run_value.
  destruct (truthy (PackagePath.version d)) eqn:Ht; simpl.
  - destruct (PackagePath.same d m false) eqn:Hs; simpl.
    + apply MiniAppFacts.same_eq in Hs. subst m.
      rewrite bool_decide_eq_true_2 by reflexivity. reflexivity.
    + split; [reflexivity |].
      rewrite bool_decide_eq_false_2; [reflexivity |].
      intros Hv. assert (d = m) as Heq.
      { destruct d, m; simpl in *; congruence. }
      apply MiniAppFacts.same_eq in Heq. congruence.
  - reflexivity.
Qed.

Lemma addDependency_conforming_witness :
  reliable E_rn
  /\ manifestDependency E_rn (react_native None)
     = Some (react_native (Some "0.59.0"))
  /\ manifestConformingDependency miniapp (react_native None)
       (react_native (Some "0.59.0")) w_start
     = (Resolved (react_native (Some "0.59.0")), w_start).
Proof.
  assert (Hrel : reliable E_rn) by (intros e; reflexivity).
  assert (Hm : manifestDependency E_rn (react_native None)
               = Some (react_native (Some "0.59.0")))
    by (vm_compute; reflexivity).
  split; [exact Hrel |]. split; [exact Hm |].
  pose proof (addDependency_conforming E_rn miniapp (react_native None)
                (react_native (Some "0.59.0")) w_start Hrel Hm) as H.
  exact H.
Defined.

End MiniAppRestFacts.

(** * Properties of MiniApp.link and MiniApp.unlink *)

Module LinksFacts.

Import Links LinksSpec.

Lemma truthy_Some (s : string) :
  truthy (Some s) = true <-> s <> EmptyString.
Proof.
  simpl. destruct (String.eqb_spec s EmptyString); simpl; split;
    congruence.
Qed.






(** X10. [link] followed by [unlink] gives back the links that were there
    before, when the MiniApp was not linked and its path is not the empty
    string. *)
Theorem link_unlink this w w1 w2 :
  links w !! name this = None ->
  path this <> EmptyString ->
  link this w = (Resolved tt, w1) ->
  unlink this w1 = (Resolved tt, w2) ->
  links w2 = links w.
Proof.
  intros Hnone Hpath.
  unfold link, linkBody, unlink, unlinkBody, getValue, run, bind, get, ret.
  simpl. fold (links w). unfold member_of. rewrite Hnone.
  assert (Hback : forall t,
    links {| miniAppsLinks :=
               Some (delete (name this)
                       (<[name this := path this]> (links w)));
             trace := t |} = links w).
  { intros t. unfold links at 1. simpl. rewrite delete_insert_eq.
    apply delete_id. exact Hnone. }
  destruct (bool_decide (name this ∈ Object_prototype)); simpl;
    intros [= <-]; simpl; rewrite lookup_insert_eq; simpl;
    (destruct (String.eqb_spec (path this) EmptyString); [contradiction |]);
    simpl; intros [= <-]; apply Hback.
Qed.

Lemma link_unlink_witness :
  let w1 := snd (link linked_miniapp w_unlinked) in
  let w2 := snd (unlink linked_miniapp w1) in
  links w_unlinked !! name linked_miniapp = None
  /\ path linked_miniapp <> EmptyString
  /\ link linked_miniapp w_unlinked = (Resolved tt, w1)
  /\ unlink linked_miniapp w1 = (Resolved tt, w2)
  /\ links w2 = links w_unlinked.
Proof.
  cbv zeta.
  assert (H0 : links w_unlinked !! name linked_miniapp = None)
    by (vm_compute; reflexivity).
  assert (Hp : path linked_miniapp <> EmptyString) by discriminate.
  assert (H1 : link linked_miniapp w_unlinked
               = (Resolved tt, snd (link linked_miniapp w_unlinked)))
    by (vm_compute; reflexivity).
  assert (H2 : unlink linked_miniapp (snd (link linked_miniapp w_unlinked))
               = (Resolved tt,
                  snd (unlink linked_miniapp
                         (snd (link linked_miniapp w_unlinked)))))
    by (vm_compute; reflexivity).
  split; [exact H0 |]. split; [exact Hp |]. split; [exact H1 |].
  split; [exact H2 |].
  exact (link_unlink linked_miniapp w_unlinked _ _ H0 Hp H1 H2).
Defined.

End LinksFacts.

(** * Properties of launchOnSimulator *)

Module LaunchOnSimulatorFacts.

Import LaunchOnSimulator LaunchOnSimulatorSpec MonadFacts.

Lemma launch_calls_snoc t e :
  calls (t ++ [e]) = (calls t ++ if is_call e then [e] else [])%list.
Proof.
  unfold calls. rewrite filter_app. f_equal.
  rewrite filter_cons. destruct (is_call e); reflexivity.
Qed.

Lemma launch_bind_emit {A} e (k : unit -> M world unit A) w :
  bind (emit e) k w = k tt (record e w).
Proof. reflexivity. Qed.

Lemma launch_bind_call {A} E e (k : unit -> M world unit A) w :
  bind (call E e) k w
  = match fails E e with
    | Some err => (Throw err, record e w)
    | None => k tt (record e w)
    end.
Proof.
  unfold call, bind, emit, modify. destruct (fails E e); reflexivity.
Qed.

Lemma launch_call_run E e w :
  call E e w
  = (match fails E e with Some err => Throw err | None => Normal tt end,
     record e w).
Proof.
  unfold call, bind, emit, modify. destruct (fails E e); reflexivity.
Qed.

Lemma launch_popd_run w s :
  Shell.popd (shell w) = Some s ->
  @popd w = (Normal tt, set_shell s (record shell_popd w)).
Proof. intros H. unfold popd, bind, emit, modify, get. simpl. rewrite H. reflexivity. Qed.

Local Ltac finish H :=
  subst; simpl; rewrite ?launch_calls_snoc, <- ?app_assoc; simpl; auto.

(** X11. The calls that [launchOnSimulator] makes are the steps of the
    launch, in order, up to and including the first one that fails: a step
    is taken only if all the steps before it succeeded.  The call resolves
    if no step fails, and is rejected with the error of the first step that
    does.  In every case the shell is back where it was: the directory
    that [pushd] entered is left again. *)
Theorem launchOnSimulator_steps E pathToIosRunner w :
  let r := launchOnSimulator E pathToIosRunner w in
  calls (trace (snd r))
  = (calls (trace w) ++ upto_first_failure E (steps E pathToIosRunner))%list
  /\ fst r = outcome E (steps E pathToIosRunner)
  /\ shell (snd r) = shell w.
Proof.
  cbv zeta. remember (launchOnSimulator E pathToIosRunner w) as r eqn:Hr.
  unfold launchOnSimulator, launchOnSimulatorBody, steps, run in *.
  simpl upto_first_failure. simpl outcome.
  rewrite launch_bind_call in Hr.
  destruct (fails E ios_askUserToSelectAniPhoneSimulator) as [e |];
    [solve [finish Hr] |].
  cbv beta in Hr. rewrite launch_bind_emit in Hr. cbv beta in Hr.
  rewrite launch_bind_call in Hr.
  destruct (fails E ios_killAllRunningSimulators) as [e |];
    [solve [finish Hr] |].
  cbv beta in Hr. rewrite launch_bind_emit in Hr. cbv beta in Hr.
  rewrite launch_bind_call in Hr.
  destruct (fails E (ios_launchSimulator (udid E))) as [e |];
    [solve [finish Hr] |].
  cbv beta in Hr. unfold pushd in Hr. rewrite bind_bind, launch_bind_call in Hr.
  destruct (fails E (shell_pushd pathToIosRunner)) as [e |];
    [solve [finish Hr] |].
  cbv beta in Hr. unfold bind at 1, modify at 1 in Hr.
  unfold try_finally in Hr.
  rewrite launch_bind_emit in Hr. cbv beta in Hr. rewrite launch_bind_call in Hr.
  destruct (fails E (buildIosRunner pathToIosRunner (udid E))) as [e |].
  { erewrite launch_popd_run in Hr by (simpl; apply popd_pushd). finish Hr. }
  cbv beta in Hr. rewrite launch_bind_emit in Hr. cbv beta in Hr.
  rewrite launch_bind_call in Hr.
  destruct (fails E (ios_installApplicationOnSimulator _ _)) as [e |].
  { erewrite launch_popd_run in Hr by (simpl; apply popd_pushd). finish Hr. }
  cbv beta in Hr. rewrite launch_bind_emit in Hr. cbv beta in Hr.
  rewrite launch_call_run in Hr.
  destruct (fails E (ios_launchApplication _ _)) as [e |].
  { erewrite launch_popd_run in Hr by (simpl; apply popd_pushd). finish Hr. }
  erewrite launch_popd_run in Hr by (simpl; apply popd_pushd). finish Hr.
Qed.

End LaunchOnSimulatorFacts.

(** * Properties of the command [list dependencies] *)

Module ListDependenciesFacts.

Import ListDependencies ListDependenciesSpec MonadFacts.

Lemma list_outputs_snoc t e :
  outputs (t ++ [e]) = (outputs t ++ if is_output e then [e] else [])%list.
Proof.
  unfold outputs. rewrite filter_app. f_equal.
  rewrite filter_cons. destruct (is_output e); reflexivity.
Qed.

Lemma list_bind_emit {A} e (k : unit -> M world unit A) w :
  bind (emit e) k w = k tt (record e w).
Proof. reflexivity. Qed.

Lemma list_bind_call {A} E e (k : unit -> M world unit A) w :
  bind (call E e) k w
  = match fails E e with
    | Some err => (Throw err, record e w)
    | None => k tt (record e w)
    end.
Proof.
  unfold call, bind, emit, modify. destruct (fails E e); reflexivity.
Qed.

Lemma list_call_run E e w :
  call E e w
  = (match fails E e with Some err => Throw err | None => Normal tt end,
     record e w).
Proof.
  unfold call, bind, emit, modify. destruct (fails E e); reflexivity.
Qed.

Lemma list_popd_run w s :
  Shell.popd (shell w) = Some s ->
  @popd w = (Normal tt, set_shell s (record shell_popd w)).
Proof.
  intros H. unfold popd, bind, emit, modify, get. simpl. rewrite H.
  reflexivity.
Qed.

Lemma logEach_run l w :
  logEach l w
  = (Normal tt, {| shell := shell w; trace := trace w ++ map line l |}).
Proof.
  revert w. induction l as [| d l IH]; intros w; simpl.
  - rewrite app_nil_r. destruct w. reflexivity.
  - rewrite list_bind_emit, IH. simpl. rewrite <- app_assoc. reflexivity.
Qed.

Lemma logDependencies_run E l type w :
  logDependencies E l type w
  = (Normal tt, {| shell := shell w; trace := trace w ++ group E l type |}).
Proof.
  destruct l as [| d l]; simpl.
  - rewrite app_nil_r. destruct w. reflexivity.
  - rewrite list_bind_emit. rewrite list_bind_emit, logEach_run. simpl.
    rewrite <- !app_assoc. reflexivity.
Qed.

Lemma bind_logDependencies {A} E l type (k : unit -> M world unit A) w :
  bind (logDependencies E l type) k w
  = k tt {| shell := shell w; trace := trace w ++ group E l type |}.
Proof. unfold bind. rewrite logDependencies_run. reflexivity. Qed.

Lemma outputs_app a b : outputs (a ++ b) = (outputs a ++ outputs b)%list.
Proof. apply filter_app. Qed.

Lemma outputs_cons e l :
  is_output e = true -> outputs (e :: l) = e :: outputs l.
Proof.
  intros H. unfold outputs. apply filter_cons_True. rewrite H. exact I.
Qed.

Lemma outputs_line l : outputs (map line l) = map line l.
Proof.
  induction l as [| d l IH]; [reflexivity |].
  simpl. rewrite outputs_cons by reflexivity. f_equal. exact IH.
Qed.

Lemma outputs_group E l type : outputs (group E l type) = group E l type.
Proof.
  destruct l as [| d l]; [reflexivity |].
  unfold group. rewrite outputs_cons by reflexivity.
  f_equal. apply outputs_line.
Qed.

Lemma outputs_report E json deps :
  outputs (report E json deps) = report E json deps.
Proof.
  unfold report. destruct json; [reflexivity |].
  rewrite outputs_cons by reflexivity.
  rewrite !outputs_app, !outputs_group. reflexivity.
Qed.

Lemma list_bind_modify {A} f (k : unit -> M world unit A) w :
  bind (modify f) k w = k tt (f w).
Proof. reflexivity. Qed.

Lemma list_bind_get {A} (k : world -> M world unit A) w :
  bind get k w = k w w.
Proof. reflexivity. Qed.

Lemma list_bind_ret {A B} (a : A) (k : A -> M world unit B) w :
  bind (ret a) k w = k a w.
Proof. reflexivity. Qed.

Local Ltac tail Hr :=
  rewrite list_bind_call in Hr;
  match type of Hr with
  | context [fails ?E (findNativeDependencies ?d)] =>
      destruct (fails E (findNativeDependencies d)) as [err |]
  end;
  [subst; eexists; split; [reflexivity |]; simpl;
   rewrite ?list_outputs_snoc, <- ?app_assoc; simpl;
   rewrite ?app_nil_r; auto
  |];
  match goal with
  | |- context [report _ ?json _] => unfold report; destruct json
  end;
  cbv iota in Hr;
  [| rewrite list_bind_emit, !bind_logDependencies, logDependencies_run in Hr];
  subst; eexists; (split; [reflexivity |]); simpl;
  rewrite <- ?app_assoc, ?outputs_app, ?list_outputs_snoc, ?outputs_group;
  simpl; rewrite ?app_nil_r, <- ?app_assoc; auto.

(** How a run ends, where it leaves the shell, and what it has written. *)
Lemma commandHandler_run E module json w :
  exists w',
    commandHandler E module json w
    = (match first_failure E (steps E module w) with
       | Some err => Rejected err
       | None => Resolved tt
       end, w')
    /\ shell w' = shell w
    /\ outputs (trace w')
       = (outputs (trace w)
          ++ match first_failure E (steps E module w) with
             | Some _ => []
             | None => report E json (found E (scannedDir E module w))
             end)%list.
Proof.
  remember (commandHandler E module json w) as r eqn:Hr.
  unfold commandHandler, commandHandlerBody, run, steps, scannedDir in *.
  rewrite list_bind_get in Hr.
  destruct (truthy module) eqn:Hm.
  - rewrite !bind_bind, list_bind_emit in Hr. unfold pushd in Hr.
    rewrite !bind_bind, list_bind_call in Hr. simpl first_failure.
    destruct (fails E (shell_pushd (tmpDir E))) as [err |].
    { subst. eexists. split; [reflexivity |]. simpl.
      rewrite !list_outputs_snoc. simpl. rewrite !app_nil_r. auto. }
    rewrite list_bind_modify, bind_bind in Hr. unfold bind at 1 in Hr.
    unfold try_finally at 1 in Hr. rewrite list_bind_call in Hr.
    destruct (fails E yarn_init) as [err |].
    { erewrite list_popd_run in Hr by (simpl; apply popd_pushd).
      subst. eexists. split; [reflexivity |]. simpl.
      rewrite !list_outputs_snoc. simpl. rewrite !app_nil_r. auto. }
    rewrite list_call_run in Hr.
    destruct (fails E (yarn_add _)) as [err |].
    { erewrite list_popd_run in Hr by (simpl; apply popd_pushd).
      subst. eexists. split; [reflexivity |]. simpl.
      rewrite !list_outputs_snoc. simpl. rewrite !app_nil_r. auto. }
    erewrite list_popd_run in Hr by (simpl; apply popd_pushd).
    rewrite list_bind_ret in Hr. tail Hr.
  - rewrite list_bind_ret in Hr. simpl first_failure. tail Hr.
Qed.

(** X12. Whatever happens, the command leaves the shell in the directory
    it was started in, with the directory stack it was started with: the
    temporary directory that it enters to install the module is left
    again, also when the installation fails. *)
Theorem commandHandler_shell E module json w :
  shell (snd (commandHandler E module json w)) = shell w.
Proof.
  destruct (commandHandler_run E module json w) as (w' & -> & Hs & _).
  exact Hs.
Qed.

(** X13. When none of the awaited calls is rejected (the installation of
    the module in a temporary directory, if a module is given, and the
    scan), the command resolves and writes the report of what the scan
    found in [node_modules] of the temporary directory, or of the working
    directory if no module is given: with [json], the single JSON record
    and nothing else; without, the title line and then the four groups
    in their order, a group with no dependency being left out, heading
    included. *)
Theorem commandHandler_report E module json w :
  first_failure E (steps E module w) = None ->
  fst (commandHandler E module json w) = Resolved tt
  /\ outputs (trace (snd (commandHandler E module json w)))
     = (outputs (trace w)
        ++ report E json (found E (scannedDir E module w)))%list.
Proof.
  intros H.
  destruct (commandHandler_run E module json w) as (w' & -> & _ & Ho).
  rewrite H in *. auto.
Qed.

Lemma commandHandler_report_witness :
  first_failure (E_list false) (steps (E_list false) (Some "movie-api") w_list)
  = None
  /\ fst (commandHandler (E_list false) (Some "movie-api") false w_list)
     = Resolved tt
  /\ outputs (trace (snd (commandHandler (E_list false) (Some "movie-api")
                            false w_list)))
     = [console_log "Native dependencies :"; console_log "=== APIs ===";
        console_log "movie-api@1.0.0"].
Proof.
  split; [reflexivity |].
  exact (commandHandler_report (E_list false) (Some "movie-api") false w_list
           eq_refl).
Defined.

(** X14. When one of the awaited calls is rejected, the command is
    rejected with the error of the first one that is, and it writes
    nothing: no report of a module that could not be installed, or of a
    scan that failed. *)
Theorem commandHandler_rejected E module json w err :
  first_failure E (steps E module w) = Some err ->
  fst (commandHandler E module json w) = Rejected err
  /\ outputs (trace (snd (commandHandler E module json w)))
     = outputs (trace w).
Proof.
  intros H.
  destruct (commandHandler_run E module json w) as (w' & -> & _ & Ho).
  rewrite H in *. rewrite app_nil_r in Ho. auto.
Qed.

Lemma commandHandler_rejected_witness :
  first_failure (E_list true) (steps (E_list true) (Some "movie-api") w_list)
  = Some (Error "yarn add")
  /\ fst (commandHandler (E_list true) (Some "movie-api") true w_list)
     = Rejected (Error "yarn add")
  /\ outputs (trace (snd (commandHandler (E_list true) (Some "movie-api")
                            true w_list)))
     = outputs (trace w_list).
Proof.
  split; [reflexivity |].
  exact (commandHandler_rejected (E_list true) (Some "movie-api") true w_list
           (Error "yarn add") eq_refl).
Defined.

End ListDependenciesFacts.

(** * Properties of MiniApp.fromPackagePath *)

Module FromPackagePathFacts.

Import FromPackagePath FromPackagePathSpec MonadFacts.

Lemma from_bind_emit {A} e (k : unit -> M world MiniApp A) w :
  bind (emit e) k w = k tt (record e w).
Proof. reflexivity. Qed.

Lemma from_bind_modify {A} f (k : unit -> M world MiniApp A) w :
  bind (modify f) k w = k tt (f w).
Proof. reflexivity. Qed.

Lemma from_bind_get {A} (k : world -> M world MiniApp A) w :
  bind get k w = k w w.
Proof. reflexivity. Qed.

Lemma from_bind_ret {A B} (a : A) (k : A -> M world MiniApp B) w :
  bind (ret a) k w = k a w.
Proof. reflexivity. Qed.

Lemma from_bind_throw {A B} e (k : A -> M world MiniApp B) w :
  bind (throw e) k w = (Throw e, w).
Proof. reflexivity. Qed.

Lemma from_bind_call {A} E e (k : unit -> M world MiniApp A) w :
  bind (call E e) k w
  = match fails E e with
    | Some err => (Throw err, record e w)
    | None => k tt (record e w)
    end.
Proof.
  unfold call, bind, emit, modify. destruct (fails E e); reflexivity.
Qed.

Lemma from_call_run E e w :
  call E e w
  = (match fails E e with Some err => Throw err | None => Normal tt end,
     record e w).
Proof.
  unfold call, bind, emit, modify. destruct (fails E e); reflexivity.
Qed.

Lemma from_popd_run w s :
  Shell.popd (shell w) = Some s ->
  @popd w = (Normal tt, set_shell s (record shell_popd w)).
Proof.
  intros H. unfold popd, bind, emit, modify, get. simpl. rewrite H.
  reflexivity.
Qed.

Local Ltac leaf Hr :=
  subst; simpl;
  (split; [reflexivity |]); (split; [reflexivity |]);
  (split; [congruence |]);
  rewrite <- ?app_assoc; eexists; split; [reflexivity | reflexivity].

(** The installation keeps the session cache, and the shell but for the
    working directory it is run in. *)
Lemma install_frame E p fsPackagePath w :
  miniAppFsPathByPackagePath (snd (install E p fsPackagePath w))
  = miniAppFsPathByPackagePath w
  /\ shell (snd (install E p fsPackagePath w)) = shell w
  /\ (forall a, fst (install E p fsPackagePath w) <> Return a)
  /\ exists t, trace (snd (install E p fsPackagePath w))
               = (trace w ++ t)%list
               /\ forallb is_install t = true.
Proof.
  remember (install E p fsPackagePath w) as r eqn:Hr.
  unfold install in Hr.
  rewrite from_bind_call in Hr.
  destruct (fails E yarn_init); [leaf Hr |].
  rewrite from_bind_call in Hr.
  destruct (fails E (yarn_add p)); [leaf Hr |].
  rewrite from_bind_call in Hr.
  destruct (fails E (readPackageJson ".")); [leaf Hr |].
  destruct (dependenciesKeys E p) as [keys |]; [| leaf Hr].
  rewrite from_bind_call in Hr.
  destruct (fails E (shell_rm None _)); [leaf Hr |].
  destruct (head keys) as [packageName |]; [| leaf Hr].
  rewrite from_bind_call in Hr.
  destruct (fails E (shell_mv _ _)); [leaf Hr |].
  rewrite from_call_run in Hr.
  destruct (fails E (shell_rm (Some "-rf") _)); leaf Hr.
Qed.

Local Ltac settled Hr :=
  subst; simpl; auto.

(** The [else] branch keeps the shell and the session cache, and does not
    leave the function. *)
Lemma fromSession_frame E p w :
  shell (snd (fromSession E p w)) = shell w
  /\ miniAppFsPathByPackagePath (snd (fromSession E p w))
     = miniAppFsPathByPackagePath w
  /\ forall m, fst (fromSession E p w) <> Return m.
Proof.
  remember (fromSession E p w) as r eqn:Hr. unfold fromSession in Hr.
  rewrite from_bind_get in Hr.
  destruct (miniAppFsPathByPackagePath w !! fullPath E p) as [fs |].
  { subst. simpl. repeat split; congruence. }
  rewrite from_bind_emit in Hr. unfold pushd in Hr.
  rewrite !bind_bind, from_bind_call in Hr.
  destruct (fails E (shell_pushd (tmpDir E)));
    [subst; simpl; repeat split; congruence |].
  rewrite from_bind_modify in Hr. unfold bind at 1 in Hr.
  unfold try_finally at 1 in Hr.
  match type of Hr with
  | context [install E p (tmpDir E) ?w1] =>
      destruct (install_frame E p (tmpDir E) w1) as (Hic & His & Hir & _);
      destruct (install E p (tmpDir E) w1) as [c w2]
  end.
  simpl in Hic, His, Hir.
  erewrite from_popd_run in Hr by (rewrite His; simpl; apply popd_pushd).
  destruct c as [[] | m | e]; subst; simpl.
  - rewrite Hic. repeat split; congruence.
  - exfalso. exact (Hir m eq_refl).
  - rewrite Hic. repeat split; congruence.
Qed.

(** Where a call leaves the shell and the session cache. *)
Lemma fromPackagePath_post E p w :
  shell (snd (fromPackagePath E p w)) = shell w
  /\ match fst (fromPackagePath E p w) with
     | Resolved m =>
         packagePath m = p
         /\ fails E (new_MiniApp (miniAppPath m) p) = None
         /\ miniAppFsPathByPackagePath (snd (fromPackagePath E p w))
            = <[fullPath E p := miniAppPath m]> (miniAppFsPathByPackagePath w)
     | Rejected e =>
         miniAppFsPathByPackagePath (snd (fromPackagePath E p w))
         = miniAppFsPathByPackagePath w
         \/ exists fsPackagePath,
              fails E (new_MiniApp fsPackagePath p) = Some e
              /\ miniAppFsPathByPackagePath (snd (fromPackagePath E p w))
                 = <[fullPath E p := fsPackagePath]>
                     (miniAppFsPathByPackagePath w)
     end.
Proof.
  remember (fromPackagePath E p w) as r eqn:Hr.
  unfold fromPackagePath, fromPackagePathBody, run_value in Hr.
  assert (Hend :
    forall fs (w1 : world) r0,
      shell w1 = shell w ->
      miniAppFsPathByPackagePath w1 = miniAppFsPathByPackagePath w ->
      r0 = (let (c, w') :=
              bind (modify (set_cache (fullPath E p) fs))
                (fun _ => construct E fs p) w1 in
            match c with
            | Normal r | Return r => (Resolved r, w')
            | Throw e => (Rejected e, w')
            end) ->
      shell (snd r0) = shell w
      /\ match fst r0 with
         | Resolved m =>
             packagePath m = p
             /\ fails E (new_MiniApp (miniAppPath m) p) = None
             /\ miniAppFsPathByPackagePath (snd r0)
                = <[fullPath E p := miniAppPath m]>
                    (miniAppFsPathByPackagePath w)
         | Rejected e =>
             miniAppFsPathByPackagePath (snd r0)
             = miniAppFsPathByPackagePath w
             \/ exists fsPackagePath,
                  fails E (new_MiniApp fsPackagePath p) = Some e
                  /\ miniAppFsPathByPackagePath (snd r0)
                     = <[fullPath E p := fsPackagePath]>
                         (miniAppFsPathByPackagePath w)
         end).
  { intros fs w1 r0 Hs Hc Hr0. rewrite from_bind_modify in Hr0.
    unfold construct in Hr0.
    destruct (fails E (new_MiniApp fs p)) eqn:Hnew; subst r0; simpl;
      rewrite Hs, Hc; eauto. }
  destruct (package_cache_enabled E && negb (isFilePath E p)).
  - rewrite !bind_bind, from_bind_call in Hr.
    destruct (fails E (utils_isGitBranch p)); [settled Hr |].
    rewrite from_bind_ret in Hr.
    destruct (negb (isGitBranch E p)).
    + rewrite !bind_bind, from_bind_call in Hr.
      destruct (fails E (packageCache_isInCache p)); [settled Hr |].
      destruct (negb (isInCache E p)).
      * rewrite !bind_bind, from_bind_call in Hr.
        destruct (fails E (packageCache_addToCache p)); [settled Hr |].
        rewrite from_bind_ret in Hr.
        eapply Hend; [| | exact Hr]; reflexivity.
      * rewrite !bind_bind, from_bind_call in Hr.
        destruct (fails E (packageCache_getObjectCachePath p));
          [settled Hr |].
        rewrite from_bind_ret in Hr.
        eapply Hend; [| | exact Hr]; reflexivity.
    + unfold bind at 1 in Hr.
      destruct (fromSession_frame E p
                  (record (utils_isGitBranch p) w)) as (Hfs & Hfc & Hfr).
      destruct (fromSession E p (record (utils_isGitBranch p) w))
        as [[fs | m | e] w1]; simpl in Hfs, Hfc, Hfr.
      * eapply Hend; [| | exact Hr]; assumption.
      * exfalso. exact (Hfr m eq_refl).
      * subst r. simpl. rewrite Hfs, Hfc. auto.
  - rewrite from_bind_ret in Hr. unfold bind at 1 in Hr.
    destruct (fromSession_frame E p w) as (Hfs & Hfc & Hfr).
    destruct (fromSession E p w) as [[fs | m | e] w1];
      simpl in Hfs, Hfc, Hfr.
    + eapply Hend; [| | exact Hr]; assumption.
    + exfalso. exact (Hfr m eq_refl).
    + subst r. simpl. rewrite Hfs, Hfc. auto.
Qed.

(** With the package cache bypassed, a path that the session cache has is
    the answer, and nothing happens at all. *)
Lemma fromPackagePath_hit E p w fs :
  bypassed E p = true ->
  miniAppFsPathByPackagePath w !! fullPath E p = Some fs ->
  fails E (new_MiniApp fs p) = None ->
  fromPackagePath E p w
  = (Resolved {| miniAppPath := fs; packagePath := p |}, w).
Proof.
  unfold bypassed. intros Hb Hl Hnew. apply negb_true_iff in Hb.
  unfold fromPackagePath, fromPackagePathBody, run_value.
  rewrite Hb, from_bind_ret. unfold fromSession.
  rewrite bind_bind, from_bind_get, Hl, from_bind_ret, from_bind_modify.
  unfold construct. rewrite Hnew.
  simpl. f_equal. unfold set_cache. rewrite insert_id by exact Hl.
  destruct w. reflexivity.
Qed.

(** X15. However a call ends, it leaves the shell in the directory it was
    called in, with the same directory stack.  If it resolves, the MiniApp
    it gives is of the package asked for, and the session cache maps the
    full path of the package to the directory of that MiniApp, its other
    entries being kept.  If it is rejected, the session cache is what it
    was, with one exception: the session cache is written before the
    MiniApp is constructed, so that when it is the constructor that
    throws, the session cache has got the entry for a directory of which
    no MiniApp could be made. *)
Theorem fromPackagePath_settles E p w :
  shell (snd (fromPackagePath E p w)) = shell w
  /\ match fst (fromPackagePath E p w) with
     | Resolved m =>
         packagePath m = p
         /\ fails E (new_MiniApp (miniAppPath m) p) = None
         /\ miniAppFsPathByPackagePath (snd (fromPackagePath E p w))
            = <[fullPath E p := miniAppPath m]> (miniAppFsPathByPackagePath w)
     | Rejected e =>
         miniAppFsPathByPackagePath (snd (fromPackagePath E p w))
         = miniAppFsPathByPackagePath w
         \/ exists fsPackagePath,
              fails E (new_MiniApp fsPackagePath p) = Some e
              /\ miniAppFsPathByPackagePath (snd (fromPackagePath E p w))
                 = <[fullPath E p := fsPackagePath]>
                     (miniAppFsPathByPackagePath w)
     end.
Proof. exact (fromPackagePath_post E p w). Qed.

(** X16. With the package cache bypassed (it is disabled, or the package
    is one in the file system), the session cache makes a second call for
    the same package give the MiniApp of the first one without doing
    anything: nothing is installed again, and the world is left as it
    is. *)
Theorem fromPackagePath_twice E p w m w1 :
  bypassed E p = true ->
  fromPackagePath E p w = (Resolved m, w1) ->
  fromPackagePath E p w1 = (Resolved m, w1).
Proof.
  intros Hb H1. destruct (fromPackagePath_post E p w) as [_ Hpost].
  rewrite H1 in Hpost. simpl in Hpost. destruct Hpost as (Hp & Hnew & Hc).
  rewrite (fromPackagePath_hit E p w1 (miniAppPath m) Hb).
  - destruct m. simpl in Hp. subst. reflexivity.
  - rewrite Hc. apply lookup_insert_eq.
  - exact Hnew.
Qed.

Lemma fromPackagePath_twice_witness :
  bypassed (E_from false) movie = true
  /\ exists m w1,
       fromPackagePath (E_from false) movie w_fresh = (Resolved m, w1)
       /\ fromPackagePath (E_from false) movie w1 = (Resolved m, w1).
Proof.
  split; [reflexivity |].
  eexists. eexists. split; [reflexivity |].
  apply (fromPackagePath_twice (E_from false) movie w_fresh);
    reflexivity.
Defined.

(** X17. When the package cache is the one to answer (it is enabled, and
    the package is neither in the file system nor a git branch) and no
    call is rejected, the MiniApp is the one of the package cache: the
    cached copy if there is one, a copy that is added to the cache
    otherwise.  The session cache is not consulted, and nothing is
    installed in a temporary directory: the only calls are the three to
    [utils.isGitBranch] and to the package cache. *)
Theorem fromPackagePath_package_cache E p w :
  reliable E ->
  cached E p = true ->
  exists w',
    fromPackagePath E p w
    = (Resolved {| miniAppPath :=
                     if isInCache E p then getObjectCachePath E p
                     else addToCache E p;
                   packagePath := p |}, w')
    /\ trace w'
       = (trace w
          ++ [utils_isGitBranch p; packageCache_isInCache p;
              if isInCache E p then packageCache_getObjectCachePath p
              else packageCache_addToCache p])%list.
Proof.
  intros Hrel Hc. unfold cached in Hc.
  apply andb_true_iff in Hc as [Hc Hgit].
  unfold fromPackagePath, fromPackagePathBody, run_value.
  rewrite Hc, !bind_bind, from_bind_call, Hrel, from_bind_ret, Hgit.
  rewrite !bind_bind, from_bind_call, Hrel.
  destruct (isInCache E p); simpl negb; cbv iota;
    rewrite !bind_bind, from_bind_call, Hrel, from_bind_ret,
      from_bind_modify;
    unfold construct; rewrite Hrel;
    simpl; eexists; (split; [reflexivity |]); simpl;
    rewrite <- !app_assoc; reflexivity.
Qed.

Lemma fromPackagePath_package_cache_witness :
  reliable (E_from true) /\ cached (E_from true) movie = true
  /\ exists w',
       fromPackagePath (E_from true) movie w_fresh
       = (Resolved {| miniAppPath := "/cache/movie@1.0.0";
                      packagePath := movie |}, w')
       /\ trace w'
          = [utils_isGitBranch movie; packageCache_isInCache movie;
             packageCache_addToCache movie].
Proof.
  split; [intros e; reflexivity |]. split; [reflexivity |].
  exact (fromPackagePath_package_cache (E_from true) movie w_fresh
           (fun e => eq_refl) eq_refl).
Defined.

End FromPackagePathFacts.

(** * What [MiniApp.addDependency] does whatever its collaborators do *)

Module AddDependencyFacts.

Import MiniApp MiniAppSpec AddDependencySpec MiniAppFacts MonadFacts.

Lemma add_bind_call {R A} E e (k : unit -> M world R A) w :
  bind (call E e) k w
  = match fails E e with
    | Some err => (Throw err, record e w)
    | None => k tt (record e w)
    end.
Proof. unfold bind. rewrite call_run. destruct (fails E e); reflexivity. Qed.

Lemma add_bind_emit {R A} e (k : unit -> M world R A) w :
  bind (emit e) k w = k tt (record e w).
Proof. reflexivity. Qed.

Lemma add_bind_ret {R A B} (a : A) (k : A -> M world R B) w :
  bind (ret a) k w = k a w.
Proof. reflexivity. Qed.

Lemma add_bind_chdir {R A} dir (k : unit -> M world R A) w :
  bind (chdir dir) k w = k tt (set_cwd dir (record (process_chdir dir) w)).
Proof. reflexivity. Qed.

Lemma add_bind_yarnAdd {R A} E message p o (k : unit -> M world R A) w :
  bind (yarnAdd E message p o) k w
  = match fails E (yarn_add (cwd w) p o) with
    | Some err =>
        (Throw err, record (yarn_add (cwd w) p o) (record (kax_task message) w))
    | None =>
        k tt (record (yarn_add (cwd w) p o) (record (kax_task message) w))
    end.
Proof.
  unfold bind. rewrite yarnAdd_run. destruct (fails E _); reflexivity.
Qed.

Local Ltac quietly :=
  repeat (eapply quiet_trans; [| apply quiet_record; intros; reflexivity]);
  apply quiet_refl.

Local Ltac ended :=
  eexists; eexists; split; [reflexivity |]; split; [quietly | eauto].

(** A turn of the loop installs nothing, whatever the collaborators do, and
    if it leaves the function, it is with [null]. *)
Lemma checkNativeDependency_quiet E dependency dep w :
  exists c w',
    checkNativeDependency E dependency dep w = (c, w')
    /\ quiet w w'
    /\ (c = Normal tt \/ c = Return None \/ exists e, c = Throw e).
Proof.
  unfold checkNativeDependency.
  destruct (PackagePath.same dependency _ true).
  - rewrite add_bind_call. destruct (fails E _); [ended |].
    destruct (isDependencyApiOrApiImpl E _).
    + rewrite add_bind_emit. ended.
    + rewrite add_bind_emit. ended.
  - unfold getNativeDependency. rewrite bind_bind, add_bind_call.
    destruct (fails E _); [ended |].
    rewrite add_bind_ret.
    destruct (Manifest.getNativeDependency _ _) as [manifestDep |];
      [| ended].
    destruct (negb _); ended.
Qed.

Lemma checkNativeDependencies_quiet E dependency deps : forall w,
  exists c w',
    checkNativeDependencies E dependency deps w = (c, w')
    /\ quiet w w'
    /\ (c = Normal tt \/ c = Return None \/ exists e, c = Throw e).
Proof.
  induction deps as [| dep deps IH]; intros w.
  - exists (Normal tt), w. split; [reflexivity |].
    split; [apply quiet_refl | auto].
  - cbn [checkNativeDependencies]. unfold bind.
    destruct (checkNativeDependency_quiet E dependency dep w)
      as (c & w1 & -> & Hq & Hc).
    destruct Hc as [-> | [-> | [e ->]]].
    + destruct (IH w1) as (c' & w2 & -> & Hq' & Hc').
      exists c', w2. split; [reflexivity |].
      split; [exact (quiet_trans _ _ _ Hq Hq') | exact Hc'].
    + exists (Return None), w1. split; [reflexivity |].
      split; [exact Hq | auto].
    + exists (Throw e), w1. split; [reflexivity |].
      split; [exact Hq | eauto].
Qed.

Lemma installs_other dir e w :
  (forall d, installed d e = None) ->
  installs dir (record e w) = installs dir w.
Proof.
  intros H. rewrite installs_record, H. simpl. apply app_nil_r.
Qed.

Lemma installs_elsewhere dir cwd p o w :
  cwd <> dir -> installs dir (record (yarn_add cwd p o) w) = installs dir w.
Proof.
  intros H. rewrite installs_record. simpl.
  rewrite bool_decide_eq_false_2 by exact H. simpl. apply app_nil_r.
Qed.

Local Ltac kept Htmp :=
  repeat first
    [ rewrite installs_set_cwd
    | rewrite (installs_elsewhere _ _ _ _ _ Htmp)
    | rewrite installs_other by (intros; reflexivity) ];
  try reflexivity.

(** The end of [addDependency], after steps that have added nothing to
    the MiniApp: the [yarn add] in the directory of the MiniApp. *)
Lemma closing E this message q p (m : M world (option PackagePath) unit)
    w0 w r :
  (exists c w1,
     m w0 = (c, w1)
     /\ installs (path this) w1 = installs (path this) w
     /\ (c = Normal tt \/ c = Return None \/ exists e, c = Throw e)) ->
  r = run None
        (m;; chdir (path this);; yarnAdd E message q NoOptions;;
         return_ (Some p))%js w0 ->
  match fst r with
  | Resolved (Some p') =>
      p' = p
      /\ installs (path this) (snd r)
         = (installs (path this) w ++ [(q, NoOptions)])%list
      /\ cwd (snd r) = path this
  | Resolved None => installs (path this) (snd r) = installs (path this) w
  | Rejected e =>
      installs (path this) (snd r) = installs (path this) w
      \/ (installs (path this) (snd r)
          = (installs (path this) w ++ [(q, NoOptions)])%list
          /\ fails E (yarn_add (path this) q NoOptions) = Some e)
  end.
Proof.
  intros (c & w1 & Hm & Hi & Hc) Hr. unfold run, bind at 1 in Hr.
  rewrite Hm in Hr.
  assert (Hadded :
    installs (path this)
      (record (yarn_add (path this) q NoOptions)
         (record (kax_task message)
            (set_cwd (path this) (record (process_chdir (path this)) w1))))
    = (installs (path this) w ++ [(q, NoOptions)])%list).
  { change (installs (path this) (added this q message w1)
            = (installs (path this) w ++ [(q, NoOptions)])%list).
    rewrite installs_added, bool_decide_eq_true_2, Hi by reflexivity.
    reflexivity. }
  destruct Hc as [-> | [-> | [e ->]]].
  - rewrite add_bind_chdir, add_bind_yarnAdd in Hr. cbn [cwd set_cwd] in Hr.
    destruct (fails E (yarn_add (path this) q NoOptions)) eqn:Hf;
      subst r; cbn [fst snd return_].
    + right. split; [exact Hadded | reflexivity].
    + split; [reflexivity |]. split; [exact Hadded | reflexivity].
  - subst r. cbn [fst snd]. exact Hi.
  - subst r. cbn [fst snd]. left. exact Hi.
Qed.

Local Ltac declared Htmp Hr w :=
  cbv beta iota in Hr;
  eapply (closing _ _ _ _ _ _ _ w); [| exact Hr];
  destruct (truthy _);
  [rewrite add_bind_emit; destruct (negb _) |];
  (eexists; eexists; split; [reflexivity |]; split; [kept Htmp | eauto]).

(** X18. Whatever the collaborators do, and which of their calls are
    rejected: if [addDependency] resolves with a package, it is the entry
    of the manifest for the candidate, or the candidate itself if the
    manifest has none, its last step was to [yarn add] that package in the
    directory of the MiniApp, the only one it added there, and the process
    is in that directory; if it resolves with [null], it has added nothing
    to the MiniApp; if it is rejected, it has added nothing either, unless
    it is that last [yarn add] that was rejected. *)
Theorem addDependency_safe E this d w :
  tmpDir E <> path this ->
  match fst (addDependency E this (Some d) false false w) with
  | Resolved (Some p) =>
      p = toReturn E d
      /\ installs (path this)
           (snd (addDependency E this (Some d) false false w))
         = (installs (path this) w ++ [(toInstall E d, NoOptions)])%list
      /\ cwd (snd (addDependency E this (Some d) false false w)) = path this
  | Resolved None =>
      installs (path this) (snd (addDependency E this (Some d) false false w))
      = installs (path this) w
  | Rejected e =>
      installs (path this) (snd (addDependency E this (Some d) false false w))
      = installs (path this) w
      \/ (installs (path this)
            (snd (addDependency E this (Some d) false false w))
          = (installs (path this) w ++ [(toInstall E d, NoOptions)])%list
          /\ fails E (yarn_add (path this) (toInstall E d) NoOptions)
             = Some e)
  end.
Proof.
  intros Htmp.
  remember (addDependency E this (Some d) false false w) as r eqn:Hr.
  unfold addDependency, addDependencyBody, run in Hr. cbn [orb] in Hr.
  unfold toInstall, toReturn, manifestDependency.
  unfold getNativeDependency at 1 in Hr.
  rewrite !bind_bind, add_bind_call in Hr.
  destruct (fails E (manifest_getNativeDependency _)).
  { subst. cbn [fst snd]. left. kept Htmp. }
  rewrite add_bind_ret in Hr.
  destruct (Manifest.getNativeDependency _ _) as [m |].
  { rewrite add_bind_ret in Hr. declared Htmp Hr w. }
  unfold getJsDependency in Hr.
  rewrite !bind_bind, add_bind_call in Hr.
  destruct (fails E (manifest_getJsDependency _)).
  { subst. cbn [fst snd]. left. kept Htmp. }
  rewrite add_bind_ret in Hr.
  destruct (Manifest.getJsDependency _ _) as [m |].
  { declared Htmp Hr w. }
  cbv beta iota in Hr.
  eapply (closing _ _ _ _ _ _ _ w); [| exact Hr].
  rewrite add_bind_emit, add_bind_chdir, add_bind_yarnAdd.
  cbn [cwd set_cwd].
  destruct (fails E (yarn_add (tmpDir E) _ _)).
  { eexists; eexists; split; [reflexivity |]; split; [kept Htmp | eauto]. }
  rewrite add_bind_call.
  destruct (fails E (findNativeDependencies _)).
  { eexists; eexists; split; [reflexivity |]; split; [kept Htmp | eauto]. }
  destruct (all _) as [| dep deps].
  { eexists; eexists; split; [reflexivity |]; split; [kept Htmp | eauto]. }
  rewrite add_bind_emit.
  match goal with
  | |- context [checkNativeDependencies E d ?l ?w1] =>
      destruct (checkNativeDependencies_quiet E d l w1)
        as (c & w2 & Heq & Hq & Hc)
  end.
  exists c, w2. split; [exact Heq |]. split; [| exact Hc].
  rewrite (installs_quiet _ _ _ Hq). kept Htmp.
Qed.

Lemma addDependency_safe_witness :
  tmpDir (E_yarn_fails "/miniapp") <> path miniapp
  /\ match fst (addDependency (E_yarn_fails "/miniapp") miniapp
                  (Some (PackagePath.new "react-native-maps")) false false
                  w_start) with
     | Resolved (Some p) =>
         p = toReturn (E_yarn_fails "/miniapp")
               (PackagePath.new "react-native-maps")
         /\ installs (path miniapp)
              (snd (addDependency (E_yarn_fails "/miniapp") miniapp
                      (Some (PackagePath.new "react-native-maps")) false
                      false w_start))
            = (installs (path miniapp) w_start
               ++ [(toInstall (E_yarn_fails "/miniapp")
                      (PackagePath.new "react-native-maps"), NoOptions)])%list
         /\ cwd (snd (addDependency (E_yarn_fails "/miniapp") miniapp
                        (Some (PackagePath.new "react-native-maps")) false
                        false w_start)) = path miniapp
     | Resolved None =>
         installs (path miniapp)
           (snd (addDependency (E_yarn_fails "/miniapp") miniapp
                   (Some (PackagePath.new "react-native-maps")) false false
                   w_start))
         = installs (path miniapp) w_start
     | Rejected e =>
         installs (path miniapp)
           (snd (addDependency (E_yarn_fails "/miniapp") miniapp
                   (Some (PackagePath.new "react-native-maps")) false false
                   w_start))
         = installs (path miniapp) w_start
         \/ (installs (path miniapp)
               (snd (addDependency (E_yarn_fails "/miniapp") miniapp
                       (Some (PackagePath.new "react-native-maps")) false
                       false w_start))
             = (installs (path miniapp) w_start
                ++ [(toInstall (E_yarn_fails "/miniapp")
                       (PackagePath.new "react-native-maps"),
                     NoOptions)])%list
             /\ fails (E_yarn_fails "/miniapp")
                  (yarn_add (path miniapp)
                     (toInstall (E_yarn_fails "/miniapp")
                        (PackagePath.new "react-native-maps")) NoOptions)
                = Some e)
     end.
Proof.
  split; [discriminate |].
  apply (addDependency_safe (E_yarn_fails "/miniapp") miniapp
           (PackagePath.new "react-native-maps") w_start).
  discriminate.
Defined.

(** A turn of the loop that leaves the function does so with [null], for
    a scanned entry of the base path of the candidate that is no api or
    api-impl, and after the error was logged. *)
Lemma checkNativeDependency_returns E dependency dep w r w' :
  checkNativeDependency E dependency dep w = (Return r, w') ->
  r = None
  /\ PackagePath.basePath (packagePath dep) = PackagePath.basePath dependency
  /\ isDependencyApiOrApiImpl E (PackagePath.basePath dependency) = false
  /\ last (trace w') = Some (log_error (notSupportedMessage dep)).
Proof.
  unfold checkNativeDependency. rewrite same_new.
  destruct (bool_decide _) eqn:Hb.
  - apply bool_decide_eq_true in Hb. rewrite add_bind_call.
    destruct (fails E _); [discriminate |].
    destruct (isDependencyApiOrApiImpl E _) eqn:Hapi.
    + rewrite add_bind_emit. discriminate.
    + rewrite add_bind_emit. intros H. injection H as <- <-.
      rewrite Hb. split; [reflexivity |]. split; [reflexivity |].
      split; [exact Hapi | apply last_record].
  - unfold getNativeDependency. rewrite bind_bind, add_bind_call.
    destruct (fails E _); [discriminate |].
    rewrite add_bind_ret.
    destruct (Manifest.getNativeDependency _ _); [| discriminate].
    destruct (negb _); discriminate.
Qed.

Lemma checkNativeDependencies_returns E dependency deps : forall w r w',
  checkNativeDependencies E dependency deps w = (Return r, w') ->
  quiet w w'
  /\ r = None
  /\ isDependencyApiOrApiImpl E (PackagePath.basePath dependency) = false
  /\ exists dep,
       In dep deps
       /\ PackagePath.basePath (packagePath dep)
          = PackagePath.basePath dependency
       /\ last (trace w') = Some (log_error (notSupportedMessage dep)).
Proof.
  induction deps as [| dep deps IH]; intros w r w'; [discriminate |].
  cbn [checkNativeDependencies]. unfold bind.
  destruct (checkNativeDependency_quiet E dependency dep w)
    as (c & w1 & Heq & Hq & _).
  rewrite Heq. destruct c as [[] | r1 | e].
  - intros H. destruct (IH _ _ _ H) as (Hq' & -> & Hapi & own & Hin & Hown).
    split; [exact (quiet_trans _ _ _ Hq Hq') |]. split; [reflexivity |].
    split; [exact Hapi |]. exists own. split; [right; exact Hin | exact Hown].
  - intros H. injection H as <- <-.
    destruct (checkNativeDependency_returns _ _ _ _ _ _ Heq)
      as (-> & Hb & Hapi & Hlast).
    split; [exact Hq |]. split; [reflexivity |]. split; [exact Hapi |].
    exists dep. split; [left; reflexivity | auto].
  - discriminate.
Qed.

Local Ltac not_null H :=
  cbv beta iota in H;
  destruct (truthy _);
  [rewrite bind_bind, add_bind_emit in H; destruct (negb _) |];
  first [discriminate H
        | rewrite ?add_bind_ret, add_bind_chdir, add_bind_yarnAdd in H;
          destruct (fails _ _); discriminate H].

(** X19. Whatever the collaborators do, [addDependency] of a package (not
    as a dev or peer dependency) resolves with [null] in one case only:
    the manifest does not declare the package, the scan of its throwaway
    install has the package itself, and it is no api or api-impl.  The
    error that says so is the last thing logged, and the process is left in
    the temporary directory of the throwaway install: the working
    directory is not restored. *)
Theorem addDependency_turned_down E this d w w' :
  addDependency E this (Some d) false false w = (Resolved None, w') ->
  manifestDependency E d = None
  /\ isDependencyApiOrApiImpl E (PackagePath.basePath d) = false
  /\ cwd w' = tmpDir E
  /\ exists own,
       In own (scan E d)
       /\ PackagePath.basePath (packagePath own) = PackagePath.basePath d
       /\ last (trace w') = Some (log_error (notSupportedMessage own)).
Proof.
  intros H.
  unfold addDependency, addDependencyBody, run in H. cbn [orb] in H.
  unfold manifestDependency, scan.
  unfold getNativeDependency at 1 in H.
  rewrite !bind_bind, add_bind_call in H.
  destruct (fails E (manifest_getNativeDependency _)); [discriminate |].
  rewrite add_bind_ret in H.
  destruct (Manifest.getNativeDependency _ _) as [m |].
  { exfalso. rewrite add_bind_ret in H. not_null H. }
  unfold getJsDependency in H.
  rewrite !bind_bind, add_bind_call in H.
  destruct (fails E (manifest_getJsDependency _)); [discriminate |].
  rewrite add_bind_ret in H.
  destruct (Manifest.getJsDependency _ _) as [m |].
  { exfalso. not_null H. }
  cbv beta iota in H.
  rewrite !bind_bind, add_bind_emit, !bind_bind, add_bind_chdir,
    !bind_bind, add_bind_yarnAdd in H.
  cbn [cwd set_cwd] in H.
  destruct (fails E (yarn_add (tmpDir E) _ _)); [discriminate |].
  rewrite !bind_bind, add_bind_call in H.
  destruct (fails E (findNativeDependencies _)); [discriminate |].
  destruct (all _) as [| dep deps].
  { exfalso. rewrite add_bind_emit, add_bind_chdir, add_bind_yarnAdd in H.
    destruct (fails E _); discriminate. }
  rewrite bind_bind, add_bind_emit in H. unfold bind at 1 in H.
  match type of H with
  | context [checkNativeDependencies E d ?l ?w1] =>
      destruct (checkNativeDependencies E d l w1) as [[[] | r | e] w2]
        eqn:Hloop
  end.
  - exfalso. rewrite add_bind_chdir, add_bind_yarnAdd in H.
    destruct (fails E _); discriminate.
  - injection H as -> ->.
    destruct (checkNativeDependencies_returns _ _ _ _ _ _ Hloop)
      as (Hq & _ & Hapi & own & Hin & Hown & Hlast).
    split; [reflexivity |]. split; [exact Hapi |].
    split; [| exists own; auto].
    destruct Hq as (Hcwd & _). rewrite Hcwd. reflexivity.
  - discriminate.
Qed.

Lemma addDependency_turned_down_witness :
  addDependency E_native miniapp (Some (PackagePath.new "plain-native-lib"))
    false false w_start
  = (Resolved None,
     snd (addDependency E_native miniapp
            (Some (PackagePath.new "plain-native-lib")) false false w_start))
  /\ cwd (snd (addDependency E_native miniapp
                 (Some (PackagePath.new "plain-native-lib")) false false
                 w_start))
     = tmpDir E_native.
Proof.
  assert (H : addDependency E_native miniapp
                (Some (PackagePath.new "plain-native-lib")) false false
                w_start
              = (Resolved None,
                 snd (addDependency E_native miniapp
                        (Some (PackagePath.new "plain-native-lib")) false
                        false w_start)))
    by (vm_compute; reflexivity).
  split; [exact H |].
  exact (proj1 (proj2 (proj2
    (addDependency_turned_down E_native miniapp
       (PackagePath.new "plain-native-lib") w_start _ H)))).
Defined.

End AddDependencyFacts.

(** * More properties of [MiniApp.upgradeToPlatformVersion] *)

Module UpgradeDependenciesFacts.

Import MiniApp UpgradeSpec UpgradeDependenciesSpec UpgradeFacts.

Lemma member_of_ext {A} (m1 m2 : gmap string A) k :
  m1 !! k = m2 !! k -> member_of m1 k = member_of m2 k.
Proof. intros H. unfold member_of. rewrite H. reflexivity. Qed.

(** A turn of the loop on a package.json that has [dependencies]. *)
Lemma upgradeDependency_bump manifestDependency w deps :
  PackageJson.dependencies (packageJson w) = Some deps ->
  exists w',
    upgradeDependency manifestDependency w = (Normal tt, w')
    /\ PackageJson.dependencies (packageJson w')
       = Some (bump deps manifestDependency)
    /\ untouched w w'.
Proof.
  intros Hd. unfold upgradeDependency, bump, bind, get. rewrite Hd.
  destruct (truthy_version _) eqn:Ht.
  - destruct (is_version _ _) eqn:Heq; cbn [negb].
    + eexists. split; [reflexivity |]. split; [| apply untouched_refl].
      rewrite Hd. f_equal. symmetry. apply insert_id.
      unfold member_of in Ht, Heq.
      destruct (deps !! PackagePath.basePath manifestDependency) as [v |];
        [| destruct (bool_decide _); discriminate].
      apply bool_decide_eq_true in Heq. congruence.
    + eexists. split; [reflexivity |]. split; [reflexivity |].
      unfold emit, modify.
      split; [| split; [| split]]; try reflexivity.
      eexists [_]. split; reflexivity.
  - eexists. split; [reflexivity |]. split; [exact Hd |].
    apply untouched_refl.
Qed.

Lemma upgradeDependencies_bumped manifestDependencies : forall w deps,
  PackageJson.dependencies (packageJson w) = Some deps ->
  exists w',
    upgradeDependencies manifestDependencies w = (Normal tt, w')
    /\ PackageJson.dependencies (packageJson w')
       = Some (bumped manifestDependencies deps)
    /\ untouched w w'.
Proof.
  induction manifestDependencies as [| md rest IH]; intros w deps Hd.
  - exists w. split; [reflexivity |]. split; [exact Hd |].
    apply untouched_refl.
  - destruct (upgradeDependency_bump md w deps Hd) as (w1 & Hturn & Hd1 & Hu1).
    destruct (IH w1 _ Hd1) as (w2 & Hrest & Hd2 & Hu2).
    exists w2. cbn [upgradeDependencies]. unfold bind. rewrite Hturn.
    split; [exact Hrest |]. split; [exact Hd2 |].
    eapply untouched_trans; eassumption.
Qed.

(** The keys that the loop leaves alone. *)
Lemma bumped_other manifestDependencies : forall deps k,
  truthy_version (member_of deps k) = false
  \/ ~ In k (map PackagePath.basePath manifestDependencies) ->
  bumped manifestDependencies deps !! k = deps !! k.
Proof.
  induction manifestDependencies as [| md rest IH]; intros deps k Hk;
    [reflexivity |].
  cbn [bumped foldl]. fold (bumped rest (bump deps md)).
  assert (Hstep : bump deps md !! k = deps !! k).
  { unfold bump.
    destruct (truthy_version (member_of deps (PackagePath.basePath md)))
      eqn:Ht; [| reflexivity].
    apply lookup_insert_ne. intros <-.
    destruct Hk as [Hk | Hk]; [congruence |].
    apply Hk. left. reflexivity. }
  rewrite IH; [exact Hstep |].
  destruct Hk as [Hk | Hk];
    [left; rewrite (member_of_ext _ _ _ Hstep); exact Hk |].
  right. intros Hin. apply Hk. right. exact Hin.
Qed.

(** The keys to which the loop assigns the version of the manifest. *)
Lemma bumped_hit manifestDependencies : forall deps m,
  NoDup (map PackagePath.basePath manifestDependencies) ->
  In m manifestDependencies ->
  truthy_version (member_of deps (PackagePath.basePath m)) = true ->
  bumped manifestDependencies deps !! PackagePath.basePath m
  = Some (PackagePath.version m).
Proof.
  induction manifestDependencies as [| md rest IH]; intros deps m Hnd Hin Ht;
    [destruct Hin |].
  cbn [map] in Hnd. apply NoDup_cons in Hnd as [Hfresh Hnd].
  cbn [bumped foldl]. fold (bumped rest (bump deps md)).
  destruct Hin as [-> | Hin].
  - rewrite bumped_other.
    + unfold bump. rewrite Ht. apply lookup_insert_eq.
    + right. intros Hin. apply Hfresh. apply list_elem_of_In. exact Hin.
  - apply IH; [exact Hnd | exact Hin |].
    assert (Hne : PackagePath.basePath md <> PackagePath.basePath m).
    { intros Heq. apply Hfresh. rewrite Heq. apply list_elem_of_In.
      apply in_map. exact Hin. }
    rewrite <- Ht. f_equal. apply member_of_ext. unfold bump.
    destruct (truthy_version (member_of deps (PackagePath.basePath md)));
      [| reflexivity].
    apply lookup_insert_ne. exact Hne.
Qed.

Lemma bumped_idempotent manifestDependencies deps :
  NoDup (map PackagePath.basePath manifestDependencies) ->
  bumped manifestDependencies (bumped manifestDependencies deps)
  = bumped manifestDependencies deps.
Proof.
  intros Hnd. apply map_eq. intros k.
  destruct (truthy_version
              (member_of (bumped manifestDependencies deps) k)) eqn:Ht;
    [| apply bumped_other; left; exact Ht].
  destruct (in_dec string_dec k
              (map PackagePath.basePath manifestDependencies)) as [Hin | Hin];
    [| apply bumped_other; right; exact Hin].
  apply in_map_iff in Hin as (m & <- & Hin).
  assert (Ht0 : truthy_version (member_of deps (PackagePath.basePath m))
                = true).
  { destruct (truthy_version (member_of deps (PackagePath.basePath m)))
      eqn:Ht0; [reflexivity |].
    rewrite (member_of_ext _ deps) in Ht
      by (apply bumped_other; left; exact Ht0).
    congruence. }
  rewrite (bumped_hit _ _ m Hnd Hin Ht).
  rewrite (bumped_hit _ _ m Hnd Hin Ht0). reflexivity.
Qed.

(** The whole function on a package.json that has [dependencies], when the
    manifest answers. *)
Lemma upgradeToPlatformVersion_run E this versionToUpgradeTo w deps :
  fails E (manifest_getJsAndNativeDependencies versionToUpgradeTo) = None ->
  PackageJson.dependencies (packageJson w) = Some deps ->
  exists w1,
    untouched w w1
    /\ PackageJson.dependencies (packageJson w1)
       = Some (bumped (getJsAndNativeDependencies E versionToUpgradeTo) deps)
    /\ upgradeToPlatformVersion E this versionToUpgradeTo w
       = match PackageJson.ern (packageJson w) with
         | None => (Rejected (Error (noErnMessage (packageJson w1))), w1)
         | Some ern =>
             finished E this
               (set_ern_version versionToUpgradeTo ern (packageJson w1)) w1
         end.
Proof.
  intros Hf Hd.
  unfold upgradeToPlatformVersion, upgradeToPlatformVersionBody, run.
  unfold bind at 1. rewrite MiniAppFacts.call_run, Hf.
  set (w0 := record (manifest_getJsAndNativeDependencies versionToUpgradeTo) w).
  assert (Hu0 : untouched w w0) by (apply untouched_record; reflexivity).
  cbv zeta. unfold bind at 1.
  destruct (upgradeDependencies_bumped
              (getJsAndNativeDependencies E versionToUpgradeTo) w0 deps Hd)
    as (w1 & Hloop & Hd1 & Hu1).
  rewrite Hloop. exists w1.
  pose proof (untouched_trans _ _ _ Hu0 Hu1) as Hu.
  split; [exact Hu |]. split; [exact Hd1 |].
  destruct Hu as (_ & _ & He & _).
  unfold bind at 1, get. rewrite He.
  destruct (PackageJson.ern (packageJson w)) as [ern |]; [| reflexivity].
  cbv [finished bind modify get emit call throw ret].
  cbn [packageJson set_packageJson cwd set_cwd record write_file].
  destruct (fails E (fs_writeFileSync _ _)); [reflexivity |].
  destruct (fails E (process_chdir _)); [reflexivity |].
  destruct (fails E (yarn_install (path this))); reflexivity.
Qed.

(** The package.json that an upgrade leaves in memory has the
    dependencies that the loop has made. *)
Lemma finished_dependencies E this pj w :
  PackageJson.dependencies (packageJson (snd (finished E this pj w)))
  = PackageJson.dependencies pj.
Proof.
  unfold finished.
  destruct (fails E (fs_writeFileSync _ _)); [reflexivity |].
  destruct (fails E (process_chdir _)); reflexivity.
Qed.

Lemma upgradeToPlatformVersion_bumped E this versionToUpgradeTo w deps :
  fails E (manifest_getJsAndNativeDependencies versionToUpgradeTo) = None ->
  PackageJson.dependencies (packageJson w) = Some deps ->
  PackageJson.dependencies
    (packageJson (snd (upgradeToPlatformVersion E this versionToUpgradeTo w)))
  = Some (bumped (getJsAndNativeDependencies E versionToUpgradeTo) deps).
Proof.
  intros Hf Hd.
  destruct (upgradeToPlatformVersion_run E this versionToUpgradeTo w deps
              Hf Hd) as (w1 & _ & Hd1 & ->).
  destruct (PackageJson.ern (packageJson w)); [| exact Hd1].
  rewrite finished_dependencies. exact Hd1.
Qed.

(** X20. On a package.json that has [dependencies], and with a manifest
    that answers with at most one entry for a package: every dependency
    of the manifest for which the lookup in [dependencies] finds something
    truthy gets the version of the manifest, and every other entry of
    [dependencies] is left as it is.  The lookup finds the dependencies
    that the MiniApp has with a version that is not empty, and it also
    finds what a plain object inherits from [Object.prototype]: an entry
    is added for a dependency of the manifest named [constructor],
    [toString] and the like, and for no other.  This holds of the
    package.json in memory however the call ends, also when it is rejected
    for the lack of an [ern] object. *)
Theorem upgradeToPlatformVersion_dependencies E this versionToUpgradeTo w
    deps :
  fails E (manifest_getJsAndNativeDependencies versionToUpgradeTo) = None ->
  PackageJson.dependencies (packageJson w) = Some deps ->
  NoDup (map PackagePath.basePath
           (getJsAndNativeDependencies E versionToUpgradeTo)) ->
  exists deps',
    PackageJson.dependencies
      (packageJson (snd (upgradeToPlatformVersion E this versionToUpgradeTo w)))
    = Some deps'
    /\ (forall m,
          In m (getJsAndNativeDependencies E versionToUpgradeTo) ->
          truthy_version (member_of deps (PackagePath.basePath m)) = true ->
          deps' !! PackagePath.basePath m = Some (PackagePath.version m))
    /\ (forall k,
          truthy_version (member_of deps k) = false
          \/ ~ In k (map PackagePath.basePath
                       (getJsAndNativeDependencies E versionToUpgradeTo)) ->
          deps' !! k = deps !! k)
    /\ (forall k,
          deps !! k = None -> deps' !! k <> None ->
          k ∈ Object_prototype
          /\ In k (map PackagePath.basePath
                     (getJsAndNativeDependencies E versionToUpgradeTo))).
Proof.
  intros Hf Hd Hnd.
  exists (bumped (getJsAndNativeDependencies E versionToUpgradeTo) deps).
  split; [apply upgradeToPlatformVersion_bumped; assumption |].
  split; [| split].
  - intros m Hin Ht. apply bumped_hit; assumption.
  - intros k Hk. apply bumped_other. exact Hk.
  - intros k Hnone Hadded.
    destruct (truthy_version (member_of deps k)) eqn:Ht.
    + destruct (in_dec string_dec k
                  (map PackagePath.basePath
                     (getJsAndNativeDependencies E versionToUpgradeTo)))
        as [Hin | Hin].
      * split; [| exact Hin]. unfold member_of in Ht. rewrite Hnone in Ht.
        destruct (bool_decide (k ∈ Object_prototype)) eqn:Hk;
          [| discriminate].
        apply bool_decide_eq_true in Hk. exact Hk.
      * exfalso. apply Hadded. rewrite bumped_other by (right; exact Hin).
        exact Hnone.
    + exfalso. apply Hadded. rewrite bumped_other by (left; exact Ht).
      exact Hnone.
Qed.

(** The MiniApp has [react-native@0.57.0] and the manifest
    [react-native@0.59.0] and [constructor@1.0.0]: [react-native] is moved
    to [0.59.0], and [constructor@1.0.0] is added. *)
Lemma upgradeToPlatformVersion_dependencies_witness :
  exists deps',
    PackageJson.dependencies
      (packageJson
         (snd (upgradeToPlatformVersion E_constructor MiniAppSpec.miniapp
                 "0.31.0" w_ern)))
    = Some deps'
    /\ deps' !! "react-native" = Some (Some "0.59.0")
    /\ deps' !! "constructor" = Some (Some "1.0.0")
    /\ deps' !! "lodash" = None.
Proof.
  destruct (upgradeToPlatformVersion_dependencies E_constructor
              MiniAppSpec.miniapp "0.31.0" w_ern
              {[ "react-native" := Some "0.57.0" ]} eq_refl eq_refl)
    as (deps' & Hd & Hhit & Hother & _).
  { apply (bool_decide_unpack _). vm_compute. exact I. }
  exists deps'. split; [exact Hd |]. split; [| split].
  - apply (Hhit (PackagePath.mk "react-native" (Some "0.59.0")));
      [left; reflexivity | reflexivity].
  - apply (Hhit (PackagePath.mk "constructor" (Some "1.0.0")));
      [right; left; reflexivity | reflexivity].
  - rewrite (Hother "lodash"); [reflexivity |].
    left. reflexivity.
Defined.

(** X21. A second upgrade to the same version changes no dependency: the
    [dependencies] that the first one has left are the ones that the
    second one leaves. *)
Theorem upgradeToPlatformVersion_again E this versionToUpgradeTo w deps :
  fails E (manifest_getJsAndNativeDependencies versionToUpgradeTo) = None ->
  PackageJson.dependencies (packageJson w) = Some deps ->
  NoDup (map PackagePath.basePath
           (getJsAndNativeDependencies E versionToUpgradeTo)) ->
  PackageJson.dependencies
    (packageJson
       (snd (upgradeToPlatformVersion E this versionToUpgradeTo
               (snd (upgradeToPlatformVersion E this versionToUpgradeTo w)))))
  = PackageJson.dependencies
      (packageJson (snd (upgradeToPlatformVersion E this versionToUpgradeTo w))).
Proof.
  intros Hf Hd Hnd.
  pose proof (upgradeToPlatformVersion_bumped E this versionToUpgradeTo w
                deps Hf Hd) as Hfirst.
  rewrite (upgradeToPlatformVersion_bumped E this versionToUpgradeTo _ _
             Hf Hfirst).
  rewrite Hfirst, bumped_idempotent by exact Hnd. reflexivity.
Qed.

Lemma upgradeToPlatformVersion_again_witness :
  PackageJson.dependencies
    (packageJson
       (snd (upgradeToPlatformVersion E_upgrade MiniAppSpec.miniapp "0.31.0"
               (snd (upgradeToPlatformVersion E_upgrade MiniAppSpec.miniapp
                       "0.31.0" w_ern)))))
  = PackageJson.dependencies
      (packageJson
         (snd (upgradeToPlatformVersion E_upgrade MiniAppSpec.miniapp
                 "0.31.0" w_ern))).
Proof.
  apply (upgradeToPlatformVersion_again E_upgrade MiniAppSpec.miniapp
           "0.31.0" w_ern {[ "react-native" := Some "0.57.0" ]});
    [reflexivity | reflexivity |].
  apply (bool_decide_unpack _). vm_compute. exact I.
Defined.

(** X22. With [dependencies] and an [ern] object in the package.json, and
    a manifest that answers, the upgrade sets [ern.version] to the version
    asked for and then, after nothing but harmless steps, writes the
    package.json as it then is in memory to the file of the MiniApp, moves
    to the directory of the MiniApp and runs [yarn install] there, in this
    order and up to the first of the three that fails: it is rejected with
    the error of that one, and resolves if none fails.  Nothing is undone:
    the file stays written when the change of directory or [yarn install]
    fails. *)
Theorem upgradeToPlatformVersion_writes E this versionToUpgradeTo w deps ern :
  fails E (manifest_getJsAndNativeDependencies versionToUpgradeTo) = None ->
  PackageJson.dependencies (packageJson w) = Some deps ->
  PackageJson.ern (packageJson w) = Some ern ->
  exists outcome w' t,
    upgradeToPlatformVersion E this versionToUpgradeTo w = (outcome, w')
    /\ PackageJson.ern (packageJson w')
       = Some {| PackageJson.moduleName := PackageJson.moduleName ern;
                 PackageJson.moduleType := PackageJson.moduleType ern;
                 PackageJson.version := Some versionToUpgradeTo |}
    /\ forallb harmless t = true
    /\ let file := path_join (path this) "package.json" in
       let content := stringifyPackageJson E (packageJson w') in
       match fails E (fs_writeFileSync file content) with
       | Some e =>
           outcome = Rejected e
           /\ files w' = files w /\ cwd w' = cwd w
           /\ trace w' = (trace w ++ t ++ [fs_writeFileSync file content])%list
       | None =>
           files w' = <[file := content]> (files w)
           /\ match fails E (process_chdir (path this)) with
              | Some e =>
                  outcome = Rejected e
                  /\ cwd w' = cwd w
                  /\ trace w'
                     = (trace w ++ t
                        ++ [fs_writeFileSync file content;
                            process_chdir (path this)])%list
              | None =>
                  outcome = match fails E (yarn_install (path this)) with
                            | Some e => Rejected e
                            | None => Resolved tt
                            end
                  /\ cwd w' = path this
                  /\ trace w'
                     = (trace w ++ t
                        ++ [fs_writeFileSync file content;
                            process_chdir (path this);
                            kax_task "Running yarn install";
                            yarn_install (path this)])%list
              end
       end.
Proof.
  intros Hf Hd He.
  destruct (upgradeToPlatformVersion_run E this versionToUpgradeTo w deps
              Hf Hd) as (w1 & Hu & _ & ->).
  rewrite He. destruct Hu as (Hfiles & Hcwd & _ & t & Ht & Hh).
  unfold finished. cbv zeta.
  destruct (fails E (fs_writeFileSync _ _)) eqn:Hwrite.
  { eexists _, _, t. split; [reflexivity |].
    cbn [cwd files trace packageJson set_packageJson record].
    split; [reflexivity |]. split; [exact Hh |]. rewrite Hwrite.
    split; [reflexivity |]. split; [exact Hfiles |]. split; [exact Hcwd |].
    rewrite Ht, <- app_assoc. reflexivity. }
  destruct (fails E (process_chdir _)) eqn:Hchdir.
  { eexists _, _, t. split; [reflexivity |].
    cbn [cwd files trace packageJson set_packageJson record write_file].
    split; [reflexivity |]. split; [exact Hh |]. rewrite Hwrite.
    split; [rewrite Hfiles; reflexivity |]. split; [reflexivity |].
    split; [exact Hcwd |]. rewrite Ht, <- !app_assoc. reflexivity. }
  eexists _, _, t. split; [reflexivity |].
  cbn [cwd files trace packageJson set_packageJson record write_file
       set_cwd].
  split; [reflexivity |]. split; [exact Hh |]. rewrite Hwrite.
  split; [rewrite Hfiles; reflexivity |]. split; [reflexivity |].
  split; [reflexivity |]. rewrite Ht, <- !app_assoc. reflexivity.
Qed.

(** The change of directory fails: the upgrade is rejected, and the file
    has been written. *)
Lemma upgradeToPlatformVersion_writes_witness :
  exists w',
    upgradeToPlatformVersion E_chdir_fails MiniAppSpec.miniapp "0.31.0" w_ern
    = (Rejected (Error "ENOENT"), w')
    /\ files w' = {[ "/miniapp/package.json" := "0.31.0" ]}
    /\ cwd w' = cwd w_ern.
Proof.
  destruct (upgradeToPlatformVersion_writes E_chdir_fails MiniAppSpec.miniapp
              "0.31.0" w_ern {[ "react-native" := Some "0.57.0" ]} _
              eq_refl eq_refl eq_refl)
    as (outcome & w' & t & Hrun & Hern & _ & Hsteps).
  cbv zeta in Hsteps. cbn [fails E_chdir_fails] in Hsteps.
  destruct Hsteps as (Hfiles & -> & Hcwd & _).
  exists w'. split; [exact Hrun |]. split; [| exact Hcwd].
  rewrite Hfiles. unfold E_chdir_fails at 1. cbn [stringifyPackageJson].
  unfold E_upgrade at 1. cbn [stringifyPackageJson].
  rewrite Hern. apply (bool_decide_unpack _). vm_compute. exact I.
Defined.

(** X23. On a package.json that has no [dependencies] at all, an upgrade
    for which the manifest has any dependency is rejected with a
    TypeError at the first of them, whether there is an [ern] object or
    not, and nothing has happened but the query of the manifest: nothing
    is written, and the package.json in memory is as it was. *)
Theorem upgradeToPlatformVersion_no_dependencies E this versionToUpgradeTo w
    manifestDependency rest :
  fails E (manifest_getJsAndNativeDependencies versionToUpgradeTo) = None ->
  PackageJson.dependencies (packageJson w) = None ->
  getJsAndNativeDependencies E versionToUpgradeTo
  = manifestDependency :: rest ->
  exists message,
    upgradeToPlatformVersion E this versionToUpgradeTo w
    = (Rejected (TypeError message),
       record (manifest_getJsAndNativeDependencies versionToUpgradeTo) w).
Proof.
  intros Hf Hd Hl.
  unfold upgradeToPlatformVersion, upgradeToPlatformVersionBody, run.
  unfold bind at 1. rewrite MiniAppFacts.call_run, Hf. cbv zeta.
  rewrite Hl. cbn [upgradeDependencies]. unfold bind at 1 2.
  unfold upgradeDependency, bind, get.
  cbn [packageJson record]. rewrite Hd.
  eexists. reflexivity.
Qed.

Lemma upgradeToPlatformVersion_no_dependencies_witness :
  exists message,
    upgradeToPlatformVersion E_upgrade MiniAppSpec.miniapp "0.31.0" w_bare
    = (Rejected (TypeError message),
       record (manifest_getJsAndNativeDependencies "0.31.0") w_bare).
Proof.
  exact (upgradeToPlatformVersion_no_dependencies E_upgrade
           MiniAppSpec.miniapp "0.31.0" w_bare _ _ eq_refl eq_refl eq_refl).
Defined.

End UpgradeDependenciesFacts.

(** * More properties of [syncCauldronContainer] *)

Module SyncPublishFacts.

Import Sync SyncSpec SyncPublishSpec SyncFacts MonadFacts.

Lemma existsb_is_publish t p v :
  In (runContainerPublishers p v) t -> existsb is_publish t = true.
Proof. intros H. apply existsb_exists. eauto. Qed.

(** X24. The publishers are outside the transaction.  If a sync that is
    rejected has called them, then it is their call that was rejected, it
    was the last thing the sync did, and it was made with the directory
    of the container and the version recorded for it; the commit that
    came before stays: no transaction is open, and the durable Cauldron
    has the new container version. *)
Theorem syncCauldronContainer_published E stateUpdateFunc napDescriptor
    commitMessage containerVersion w e w' t p v :
  syncCauldronContainer E stateUpdateFunc napDescriptor commitMessage
    containerVersion w = (Rejected e, w') ->
  trace w' = (trace w ++ t)%list ->
  In (runContainerPublishers p v) t ->
  fails E (runContainerPublishers p v) = Some e
  /\ last t = Some (runContainerPublishers p v)
  /\ p = outDirOf E napDescriptor
  /\ v = newContainerVersion E containerVersion (Cauldron.view (store w))
  /\ Cauldron.working (store w') = None
  /\ Cauldron.containerVersion (Cauldron.persisted (store w')) = v.
Proof.
  intros Hrun Htrace Hin.
  destruct (truthy (platform napDescriptor)) eqn:Hp.
  - rewrite (syncCauldronContainer_cases _ _ _ _ _ _ Hp) in Hrun.
    pose proof (tryBlock_triple E (set_cauldron false w) stateUpdateFunc
                  napDescriptor commitMessage containerVersion
                  (outDirOf E napDescriptor) _ (entered w)) as Htry.
    destruct (tryBlock _ _ _ _ _ _ _) as [[v1 | r | e1] w1];
      [| contradiction |].
    + cbv zeta in Hrun.
      destruct Htry as [Hv [(_ & Hw1 & Hrec) (t1 & Ht1 & Hunp)]].
      destruct (fails E _) eqn:Hf; [| discriminate].
      injection Hrun as <- <-. simpl in Htrace, Ht1, Hv, Hw1, Hrec.
      rewrite Ht1, <- app_assoc in Htrace. apply app_inv_head in Htrace.
      subst t. apply in_app_or in Hin as [Hin | Hin].
      * apply existsb_is_publish in Hin. unfold unpublished in Hunp.
        congruence.
      * destruct Hin as [Hin | []]. injection Hin as <- <-.
        split; [exact Hf |]. split; [apply last_snoc |].
        split; [reflexivity |]. split; [exact Hv |].
        split; [exact Hw1 | exact Hrec].
    + exfalso. injection Hrun as <- <-.
      destruct Htry as [_ (t1 & Ht1 & Hunp & _)]. simpl in Ht1.
      unfold caught in Htrace.
      destruct (cauldron w1); simpl in Htrace;
        rewrite Ht1, <- ?app_assoc in Htrace;
        apply app_inv_head in Htrace; subst t;
        repeat (apply in_app_or in Hin as [Hin | Hin]);
        try (apply existsb_is_publish in Hin; congruence);
        repeat (destruct Hin as [Hin | Hin]; try discriminate Hin);
        destruct Hin.
  - exfalso.
    unfold syncCauldronContainer, syncCauldronContainerBody, run in Hrun.
    rewrite Hp in Hrun. simpl in Hrun. injection Hrun as _ <-.
    rewrite <- (app_nil_r (trace w)) in Htrace at 1.
    apply app_inv_head in Htrace. subst t. destruct Hin.
Qed.

Lemma syncCauldronContainer_published_witness :
  let r := syncCauldronContainer (E_with publishers_fail) keep descriptor0
             (inl "sync") None w_idle in
  r = (Rejected (Error "PublishError"), snd r)
  /\ In (runContainerPublishers "/containergen/android" (Some "1.2.4"))
       (trace (snd r))
  /\ Cauldron.working (store (snd r)) = None
  /\ Cauldron.containerVersion (Cauldron.persisted (store (snd r)))
     = Some "1.2.4".
Proof.
  cbv zeta.
  set (r := syncCauldronContainer (E_with publishers_fail) keep descriptor0
              (inl "sync") None w_idle).
  assert (Hrun : r = (Rejected (Error "PublishError"), snd r))
    by (vm_compute; reflexivity).
  assert (Hin : In (runContainerPublishers "/containergen/android"
                      (Some "1.2.4")) (trace (snd r))).
  { vm_compute. repeat first [left; reflexivity | right]. }
  split; [exact Hrun |]. split; [exact Hin |].
  destruct (syncCauldronContainer_published (E_with publishers_fail) keep
              descriptor0 (inl "sync") None w_idle (Error "PublishError")
              (snd r) (trace (snd r)) "/containergen/android" (Some "1.2.4")
              Hrun eq_refl Hin)
    as (_ & _ & _ & _ & Hw & Hv).
  split; [exact Hw | exact Hv].
Defined.

Lemma sync_bind_call {A} E e (k : unit -> M world unit A) w :
  bind (call E e) k w
  = match fails E e with
    | Some err => (Throw err, record e w)
    | None => k tt (record e w)
    end.
Proof.
  unfold call, bind, emit, modify. destruct (fails E e); reflexivity.
Qed.

Lemma sync_bind_modify {A} f (k : unit -> M world unit A) w :
  bind (modify f) k w = k tt (f w).
Proof. reflexivity. Qed.

Lemma sync_bind_ret {A B} (a : A) (k : A -> M world unit B) w :
  bind (ret a) k w = k a w.
Proof. reflexivity. Qed.

(** A method of a [cauldron] that is [undefined]. *)
Lemma sync_bind_method_undefined {A} E name e (k : unit -> M world unit A)
    w :
  cauldron w = false ->
  exists message, bind (method E name e) k w = (Throw (TypeError message), w).
Proof.
  intros Hc. unfold method, bind, get. rewrite Hc. eexists. reflexivity.
Qed.

(** X25. When no Cauldron is obtained, because [getActiveCauldron] is
    rejected or gives [undefined], the sync is rejected, and all it has
    done is to ask for the Cauldron and to log the error: no transaction
    is begun, none is discarded, and the Cauldron is left as it is. *)
Theorem syncCauldronContainer_without_cauldron E stateUpdateFunc
    napDescriptor commitMessage containerVersion w :
  truthy (platform napDescriptor) = true ->
  fails E getActiveCauldron <> None \/ activeCauldron E = false ->
  exists e,
    syncCauldronContainer E stateUpdateFunc napDescriptor commitMessage
      containerVersion w
    = (Rejected e,
       {| store := store w; cauldron := false;
          trace := trace w
                   ++ [getActiveCauldron;
                       log_error ("[syncCauldronContainer] An error occurred: "
                                  ++ error_toString e)] |}).
Proof.
  intros Hp Hnone.
  rewrite (syncCauldronContainer_cases _ _ _ _ _ _ Hp).
  unfold tryBlock. rewrite sync_bind_call.
  destruct (fails E getActiveCauldron) as [e |].
  { exists e. unfold caught. cbn [cauldron record set_cauldron].
    unfold record. cbn [store cauldron trace set_cauldron].
    rewrite <- app_assoc. reflexivity. }
  destruct Hnone as [Hnone | Hnone]; [congruence |].
  rewrite sync_bind_modify, Hnone. cbv beta.
  assert (Hundefined :
    cauldron (set_cauldron false
                (record getActiveCauldron (set_cauldron false w))) = false)
    by reflexivity.
  destruct (truthy containerVersion).
  - rewrite sync_bind_ret. cbv beta.
    match goal with
    | |- context [bind (method E ?n ?ev) ?k ?w1] =>
        destruct (sync_bind_method_undefined E n ev k w1 Hundefined)
          as (message & ->)
    end.
    eexists. unfold caught. cbn [cauldron record set_cauldron].
    unfold record. cbn [store cauldron trace set_cauldron].
    rewrite <- app_assoc. reflexivity.
  - rewrite bind_bind.
    match goal with
    | |- context [bind (method E ?n ?ev) ?k ?w1] =>
        destruct (sync_bind_method_undefined E n ev k w1 Hundefined)
          as (message & ->)
    end.
    eexists. unfold caught. cbn [cauldron record set_cauldron].
    unfold record. cbn [store cauldron trace set_cauldron].
    rewrite <- app_assoc. reflexivity.
Qed.

Lemma syncCauldronContainer_without_cauldron_witness :
  truthy (platform descriptor0) = true
  /\ (fails (E_with no_cauldron) getActiveCauldron <> None
      \/ activeCauldron (E_with no_cauldron) = false)
  /\ exists e,
       syncCauldronContainer (E_with no_cauldron) keep descriptor0
         (inl "sync") None w_idle
       = (Rejected e,
          {| store := store w_idle; cauldron := false;
             trace := trace w_idle
                      ++ [getActiveCauldron;
                          log_error
                            ("[syncCauldronContainer] An error occurred: "
                             ++ error_toString e)] |}).
Proof.
  split; [reflexivity |]. split; [left; discriminate |].
  apply (syncCauldronContainer_without_cauldron (E_with no_cauldron) keep
           descriptor0 (inl "sync") None w_idle);
    [reflexivity | left; discriminate].
Defined.

End SyncPublishFacts.

(** * Properties of MiniApp.create *)

Module CreateFacts.

Import Create CreateSpec MonadFacts.

Lemma projected_snoc t e :
  projected (t ++ [e])
  = (projected t ++ if is_project e then [e] else [])%list.
Proof.
  unfold projected. rewrite filter_app. f_equal.
  rewrite filter_cons. destruct (is_project e); reflexivity.
Qed.

Lemma create_bind_emit {A} e (k : unit -> M world FromPackagePath.MiniApp A)
    w :
  bind (emit e) k w = k tt (record e w).
Proof. reflexivity. Qed.

Lemma create_bind_modify {A} f
    (k : unit -> M world FromPackagePath.MiniApp A) w :
  bind (modify f) k w = k tt (f w).
Proof. reflexivity. Qed.

Lemma create_bind_get {A} (k : world -> M world FromPackagePath.MiniApp A) w :
  bind get k w = k w w.
Proof. reflexivity. Qed.

Lemma create_bind_ret {A B} (a : A)
    (k : A -> M world FromPackagePath.MiniApp B) w :
  bind (ret a) k w = k a w.
Proof. reflexivity. Qed.

Lemma create_bind_call {A} E e
    (k : unit -> M world FromPackagePath.MiniApp A) w :
  bind (call E e) k w
  = match fails E e with
    | Some err => (Throw err, record e w)
    | None => k tt (record e w)
    end.
Proof.
  unfold call, bind, emit, modify. destruct (fails E e); reflexivity.
Qed.

Lemma create_popd_run w s :
  Shell.popd (shell w) = Some s ->
  @popd w = (Normal tt, set_shell s (record shell_popd w)).
Proof.
  intros H. unfold popd, bind, emit, modify, get. simpl. rewrite H.
  reflexivity.
Qed.

(** The query of the manifest: it gives the version that [create] uses,
    or throws, and does nothing to the project or to the shell. *)
Lemma retrieveReactNativeVersion_run E w :
  existsSync E (MiniApp.path_join "node_modules" "react-native") = false ->
  exists c t,
    retrieveReactNativeVersion E w
    = (c, {| shell := shell w; trace := trace w ++ t |})
    /\ projected t = []
    /\ match c with
       | Normal v => reactNativeVersion E = Some v
       | Return _ => False
       | Throw _ => True
       end
    /\ (reactNativeVersion E = None -> exists e, c = Throw e).
Proof.
  intros Hex. unfold reactNativeVersion. rewrite Hex.
  unfold retrieveReactNativeVersion, try_catch.
  rewrite create_bind_call.
  destruct (fails E _).
  { eexists. eexists [_; _]. split.
    - rewrite create_bind_emit. unfold throw, record. cbn [shell trace].
      rewrite <- app_assoc. reflexivity.
    - split; [reflexivity | eauto]. }
  destruct (Manifest.getNativeDependency _ _) as [dep |].
  - destruct (truthy (PackagePath.version dep)) eqn:Ht; cbn [negb].
    + eexists. eexists [_; _]. split.
      * rewrite create_bind_emit. unfold ret, record. cbn [shell trace].
        rewrite <- app_assoc. reflexivity.
      * split; [reflexivity |].
        destruct (PackagePath.version dep); [| discriminate Ht].
        split; [reflexivity | discriminate].
    + eexists. eexists [_; _]. split.
      * unfold throw at 1. cbv beta iota.
        rewrite create_bind_emit. unfold throw, record. cbn [shell trace].
        rewrite <- app_assoc. reflexivity.
      * split; [reflexivity | eauto].
  - eexists. eexists [_; _]. split.
    + unfold throw at 1. cbv beta iota.
      rewrite create_bind_emit. unfold throw, record. cbn [shell trace].
      rewrite <- app_assoc. reflexivity.
    + split; [reflexivity | eauto].
Qed.

Local Ltac world_form :=
  unfold record, set_shell; cbn [shell trace];
  rewrite <- ?app_assoc; cbn [app].

Local Ltac stopped Hv :=
  eexists; eexists; split; [world_form; reflexivity |];
  split; [discriminate |];
  split; [let H := fresh in intros H; rewrite H in Hv; discriminate Hv |];
  intros m Hm; discriminate Hm.

Local Ltac stopped_inside Hv :=
  erewrite create_popd_run
    by (cbn [shell record set_shell]; apply popd_pushd);
  stopped Hv.

(** How the statements that follow the switch of the platform version
    end, where they leave the shell, and what they have done. *)
Lemma createProject_post E miniAppName packageName platformVersion scope w :
  existsSync E (MiniApp.path_join "node_modules" "react-native") = false ->
  exists c t,
    createProject E miniAppName packageName platformVersion scope w
    = (c, {| shell := shell w; trace := trace w ++ t |})
    /\ (forall a, c <> Normal a)
    /\ (reactNativeVersion E = None ->
        (exists e, c = Throw e) /\ projected t = [])
    /\ (forall m, c = Return m ->
        m = fromPath E (miniAppPathOf miniAppName w)
        /\ exists v t1 t3,
             reactNativeVersion E = Some v
             /\ projected t1 = []
             /\ t = (t1 ++ made E miniAppName packageName platformVersion
                             scope (miniAppPathOf miniAppName w) v
                         ++ t3)%list
             /\ last t3 = Some shell_popd
             /\ (In (shell_rm None "index.js") t3
                 <-> semver_gte E v "0.49.0" = Some true)).
Proof.
  intros Hex. unfold createProject. rewrite create_bind_emit.
  unfold bind at 1.
  match goal with
  | |- context [retrieveReactNativeVersion E ?w1] =>
      destruct (retrieveReactNativeVersion_run E w1 Hex)
        as (c & t0 & -> & Hp & Hc & Hnone)
  end.
  destruct c as [v | m | e]; [| contradiction |].
  2:{ eexists; eexists; split; [world_form; reflexivity |].
      split; [discriminate |]. split; [| intros m Hm; discriminate Hm].
      intros _. split; [eauto |].
      unfold projected. rewrite filter_cons_False by (simpl; auto).
      exact Hp. }
  rename Hc into Hv.
  rewrite create_bind_emit, create_bind_call.
  destruct (fails E (reactnative_init _ _)); [stopped Hv |].
  rewrite create_bind_get. cbn [shell record]. cbv zeta.
  rewrite create_bind_call.
  destruct (fails E (fs_writeFileSync _ _)); [stopped Hv |].
  rewrite create_bind_call.
  destruct (fails E (readPackageJson _)); [stopped Hv |].
  rewrite create_bind_call.
  destruct (fails E (writePackageJson _ _)); [stopped Hv |].
  unfold pushd. rewrite bind_bind, create_bind_call.
  destruct (fails E (shell_pushd _)); [stopped Hv |].
  rewrite create_bind_modify. unfold try_finally.
  rewrite create_bind_call.
  destruct (fails E (shell_rm (Some "-rf") "android")); [stopped_inside Hv |].
  rewrite create_bind_call.
  destruct (fails E (shell_rm (Some "-rf") "ios")); [stopped_inside Hv |].
  destruct (semver_gte E v "0.49.0") as [[|] |] eqn:Hgte.
  - rewrite !bind_bind, create_bind_call.
    destruct (fails E (shell_cp "index.js" "index.ios.js"));
      [stopped_inside Hv |].
    rewrite !bind_bind, create_bind_call.
    destruct (fails E (shell_cp "index.js" "index.android.js"));
      [stopped_inside Hv |].
    rewrite create_bind_call.
    destruct (fails E (shell_rm None "index.js")); [stopped_inside Hv |].
    unfold returnFromPath.
    destruct (fails E (new_MiniApp _ _));
      [unfold throw at 1; stopped_inside Hv |].
    unfold return_.
    erewrite create_popd_run
      by (cbn [shell record set_shell]; apply popd_pushd).
    eexists; eexists; split; [world_form; reflexivity |].
    split; [discriminate |].
    split; [intros H; rewrite H in Hv; discriminate Hv |].
    intros m Hm. injection Hm as <-. split; [reflexivity |].
    exists v, (kax_task "Querying Manifest for react-native version to use"
               :: t0 ++ [kax_task ("Creating " ++ miniAppName
                                   ++ " project using react-native v" ++ v)])%list,
      [shell_rm (Some "-rf") "android"; shell_rm (Some "-rf") "ios";
       shell_cp "index.js" "index.ios.js";
       shell_cp "index.js" "index.android.js"; shell_rm None "index.js";
       shell_popd].
    split; [exact Hv |]. split.
    { unfold projected. rewrite filter_cons_False by (simpl; auto).
      rewrite filter_app. fold (projected t0). rewrite Hp. reflexivity. }
    split.
    { unfold made, miniAppPathOf. cbn [app]. rewrite <- ?app_assoc.
      cbn [app]. reflexivity. }
    split; [reflexivity |]. split; [intros _; exact Hgte |].
    intros _. simpl. auto 10.
  - rewrite create_bind_ret. unfold returnFromPath.
    destruct (fails E (new_MiniApp _ _));
      [unfold throw at 1; stopped_inside Hv |].
    unfold return_.
    erewrite create_popd_run
      by (cbn [shell record set_shell]; apply popd_pushd).
    eexists; eexists; split; [world_form; reflexivity |].
    split; [discriminate |].
    split; [intros H; rewrite H in Hv; discriminate Hv |].
    intros m Hm. injection Hm as <-. split; [reflexivity |].
    exists v, (kax_task "Querying Manifest for react-native version to use"
               :: t0 ++ [kax_task ("Creating " ++ miniAppName
                                   ++ " project using react-native v" ++ v)])%list,
      [shell_rm (Some "-rf") "android"; shell_rm (Some "-rf") "ios";
       shell_popd].
    split; [exact Hv |]. split.
    { unfold projected. rewrite filter_cons_False by (simpl; auto).
      rewrite filter_app. fold (projected t0). rewrite Hp. reflexivity. }
    split.
    { unfold made, miniAppPathOf. cbn [app]. rewrite <- ?app_assoc.
      cbn [app]. reflexivity. }
    split; [reflexivity |]. rewrite Hgte. split; [| discriminate].
    simpl. intros [H | [H | [H | []]]]; discriminate H.
  - unfold throw at 1. unfold bind at 1.
    stopped_inside Hv.
Qed.

(** The same for the whole function. *)
Lemma create_post E miniAppName packageName platformVersion scope w :
  exists t,
    snd (create E miniAppName packageName platformVersion scope w)
    = {| shell := shell w; trace := trace w ++ t |}
    /\ (reactNativeVersion E = None ->
        (exists e,
           fst (create E miniAppName packageName platformVersion scope w)
           = Rejected e)
        /\ projected t = [])
    /\ (forall m,
          fst (create E miniAppName packageName platformVersion scope w)
          = Resolved m ->
          m = fromPath E (miniAppPathOf miniAppName w)
          /\ exists v t1 t3,
               reactNativeVersion E = Some v
               /\ projected t1 = []
               /\ t = (t1 ++ made E miniAppName packageName
                               (default (currentVersion E) platformVersion)
                               scope (miniAppPathOf miniAppName w) v
                           ++ t3)%list
               /\ last t3 = Some shell_popd
               /\ (In (shell_rm None "index.js") t3
                   <-> semver_gte E v "0.49.0" = Some true)).
Proof.
  unfold create, createBody, run_value. cbv zeta.
  destruct (existsSync E _) eqn:Hex.
  { exists []. cbn [fst snd throw]. split.
    - rewrite app_nil_r. destruct w. reflexivity.
    - split; [eauto | discriminate]. }
  destruct (negb _).
  - rewrite create_bind_call.
    destruct (fails E (Platform_switchToVersion _)).
    { eexists [_]. cbn [fst snd]. split; [reflexivity |].
      split; [eauto | discriminate]. }
    destruct (createProject_post E miniAppName packageName
                (default (currentVersion E) platformVersion) scope
                (record (Platform_switchToVersion
                           (default (currentVersion E) platformVersion)) w)
                Hex) as (c & t & -> & Hn & Hnone & Hret).
    eexists (_ :: t). split.
    { destruct c; cbn [fst snd record shell trace];
        rewrite <- app_assoc; reflexivity. }
    split.
    { intros H. destruct (Hnone H) as ((e & ->) & Hp).
      split; [eauto |]. unfold projected.
      rewrite filter_cons_False by (simpl; auto). exact Hp. }
    intros m Hm. destruct c as [a | m' | e];
      [exfalso; exact (Hn a eq_refl) | | discriminate Hm].
    injection Hm as ->.
    destruct (Hret m eq_refl) as (-> & v & t1 & t3 & Hv & Hp & -> & Hl & Hi).
    split; [reflexivity |].
    exists v, (Platform_switchToVersion
                 (default (currentVersion E) platformVersion) :: t1), t3.
    split; [exact Hv |]. split.
    { unfold projected. rewrite filter_cons_False by (simpl; auto).
      exact Hp. }
    split; [reflexivity |]. split; [exact Hl | exact Hi].
  - rewrite create_bind_ret.
    destruct (createProject_post E miniAppName packageName
                (default (currentVersion E) platformVersion) scope w Hex)
      as (c & t & -> & Hn & Hnone & Hret).
    exists t. split; [destruct c; reflexivity |]. split.
    { intros H. destruct (Hnone H) as ((e & ->) & Hp). eauto. }
    intros m Hm. destruct c as [a | m' | e];
      [exfalso; exact (Hn a eq_refl) | | discriminate Hm].
    injection Hm as ->. exact (Hret m eq_refl).
Qed.

(** X26. However [create] ends, it leaves the shell in the directory it
    was called in, with the same directory stack: the directory of the
    new project, which it enters to remove the generated native projects,
    is left again, also when one of those steps fails. *)
Theorem create_shell E miniAppName packageName platformVersion scope w :
  shell (snd (create E miniAppName packageName platformVersion scope w))
  = shell w.
Proof.
  destruct (create_post E miniAppName packageName platformVersion scope w)
    as (t & -> & _).
  reflexivity.
Qed.

(** X27. Without a version of react-native to use, [create] is rejected
    and makes nothing: that is when there is a react-native app in the
    directory already, when the manifest has no entry for react-native,
    and when that entry has no version.  [react-native init] is not run,
    no file is written, and no directory is entered or removed. *)
Theorem create_needs_version E miniAppName packageName platformVersion scope
    w :
  reactNativeVersion E = None ->
  (exists e,
     fst (create E miniAppName packageName platformVersion scope w)
     = Rejected e)
  /\ projected
       (trace (snd (create E miniAppName packageName platformVersion scope w)))
     = projected (trace w).
Proof.
  intros Hnone.
  destruct (create_post E miniAppName packageName platformVersion scope w)
    as (t & -> & Hr & _).
  destruct (Hr Hnone) as (He & Hp). split; [exact He |].
  cbn [trace]. unfold projected in *. rewrite filter_app, Hp.
  apply app_nil_r.
Qed.

Lemma create_needs_version_witness :
  reactNativeVersion (E_create ∅) = None
  /\ (exists e,
        fst (create (E_create ∅) "movies" "movies-miniapp" None None w_home)
        = Rejected e)
  /\ projected
       (trace (snd (create (E_create ∅) "movies" "movies-miniapp" None None
                      w_home)))
     = projected (trace w_home).
Proof.
  split; [reflexivity |].
  apply (create_needs_version (E_create ∅) "movies" "movies-miniapp" None
           None w_home).
  reflexivity.
Defined.

(** X28. A call of [create] that resolves gives the MiniApp of the
    directory named after the MiniApp in the working directory.  Up to
    then it has, in this order and after steps that make nothing: run
    [react-native init] with the version of react-native of the manifest,
    written [.npmignore], read the generated package.json and written it
    back with the [ern] object, [private], the MiniApp keyword and the
    name, scoped if a scope is given, and entered the directory; it has
    left that directory again as its last step, and in between it has
    removed [index.js] if and only if that version is at least 0.49.0. *)
Theorem create_resolved E miniAppName packageName platformVersion scope w m
    w' :
  create E miniAppName packageName platformVersion scope w = (Resolved m, w') ->
  m = fromPath E (miniAppPathOf miniAppName w)
  /\ exists v t1 t3,
       reactNativeVersion E = Some v
       /\ projected t1 = []
       /\ trace w'
          = (trace w ++ t1
             ++ made E miniAppName packageName
                  (default (currentVersion E) platformVersion) scope
                  (miniAppPathOf miniAppName w) v
             ++ t3)%list
       /\ last t3 = Some shell_popd
       /\ (In (shell_rm None "index.js") t3
           <-> semver_gte E v "0.49.0" = Some true).
Proof.
  intros Hrun.
  destruct (create_post E miniAppName packageName platformVersion scope w)
    as (t & Hw & _ & Hres).
  rewrite Hrun in Hw, Hres. cbn [fst snd] in Hw, Hres.
  destruct (Hres m eq_refl) as (-> & v & t1 & t3 & Hv & Hp & -> & Hl & Hi).
  split; [reflexivity |]. exists v, t1, t3.
  split; [exact Hv |]. split; [exact Hp |].
  split; [rewrite Hw; reflexivity |]. split; [exact Hl | exact Hi].
Qed.

Lemma create_resolved_witness :
  let E := E_create {[ "react-native" := Some "0.59.0" ]} in
  let r := create E "movies" "movies-miniapp" None (Some "acme") w_home in
  r = (Resolved (fromPath E "/home/movies"), snd r)
  /\ In (writePackageJson "/home/movies"
           {| ern := Some {| PackageJson.moduleName := Some "movies";
                             PackageJson.moduleType := Some "ern-miniapp";
                             PackageJson.version := Some "0.31.0" |};
              private := Some false;
              keywords := Some ["ern-miniapp"];
              name := Some "@acme/movies-miniapp" |})
       (trace (snd r)).
Proof.
  cbv zeta.
  set (E := E_create {[ "react-native" := Some "0.59.0" ]}).
  set (r := create E "movies" "movies-miniapp" None (Some "acme") w_home).
  assert (Hrun : r = (Resolved (fromPath E "/home/movies"), snd r))
    by (vm_compute; reflexivity).
  split; [exact Hrun |].
  destruct (create_resolved E "movies" "movies-miniapp" None (Some "acme")
              w_home _ _ Hrun)
    as (_ & v & t1 & t3 & _ & _ & -> & _).
  apply in_or_app. right. apply in_or_app. right.
  apply in_or_app. left. right. right. right. left. reflexivity.
Defined.

End CreateFacts.
